(** * Wyndo API: authentication and session lifecycle

    A shallow embedding of the authentication core of the Wyndo
    job-management API (services/api/src): the symmetric encryptor
    (utils/encryption.ts), the token service (services/tokenService.ts),
    the auth service (services/authService.ts), the bearer middleware
    (middleware/auth.ts) and the two sets of auth handlers
    (routes/auth.ts and controllers/authController.ts).

    Conventions.
    - A JavaScript string is represented by a [string] holding its UTF-8
      bytes; a Node [Buffer] is a [list byte].
    - Third-party libraries (node:crypto, jsonwebtoken, speakeasy,
      express-validator, JSON) and the built-ins that depend on the
      Unicode tables or on the time zone ([String.prototype.toLowerCase],
      [Date.prototype.setDate]) are interfaces: type classes whose laws
      are stated separately. The handlers take the mail service as a
      parameter; the one of services/emailService.ts is
      [EmailServiceTs.service].
    - Handlers run in a state-and-exception monad over the database, the
      entropy source and the mail outbox; an exception leaves the effects
      performed before it in place, as the handlers' try/catch does. *)

From Stdlib Require Import String Ascii List ZArith Lia Bool.
From Stdlib Require Import Strings.Byte DecimalString.
Import ListNotations.
Local Open Scope list_scope.
Local Open Scope string_scope.

(** ** Buffers and hex encoding *)

Module Hex.

Definition digits : string := "0123456789abcdef".

Definition hex_char (n : N) : ascii :=
  match String.get (N.to_nat n) digits with
  | Some c => c
  | None => "0"%char
  end.

(** [buf.toString('hex')] for one byte: two lower-case digits. *)
Definition byte_to_hex (b : byte) (k : string) : string :=
  let n := Byte.to_N b in
  String (hex_char (n / 16)) (String (hex_char (n mod 16)) k).

(** [buf.toString('hex')] *)
Fixpoint toHex (l : list byte) : string :=
  match l with
  | [] => EmptyString
  | b :: l' => byte_to_hex b (toHex l')
  end.

Definition hex_val (c : ascii) : option N :=
  let n := N_of_ascii c in
  if ((48 <=? n) && (n <=? 57))%N then Some (n - 48)%N
  else if ((97 <=? n) && (n <=? 102))%N then Some (n - 87)%N
  else if ((65 <=? n) && (n <=? 70))%N then Some (n - 55)%N
  else None.

Definition is_hex_char (c : ascii) : bool :=
  match hex_val c with Some _ => true | None => false end.

Definition byte_of_nibbles (h l : N) : byte :=
  match Byte.of_N (16 * h + l) with
  | Some b => b
  | None => x00
  end.

(** [Buffer.from(s, 'hex')]: pairs of digits are decoded until the first
    pair that is not hexadecimal; a trailing single digit is dropped. *)
Fixpoint fromHex (s : string) : list byte :=
  match s with
  | String a (String b rest) =>
      match hex_val a, hex_val b with
      | Some h, Some l => byte_of_nibbles h l :: fromHex rest
      | _, _ => []
      end
  | _ => []
  end.

Fixpoint is_hex (s : string) : bool :=
  match s with
  | EmptyString => true
  | String c r => is_hex_char c && is_hex r
  end.

End Hex.

(** ** The fragment of JavaScript strings and arrays the handlers use *)

Module Js.

(** [s.split(sep)] for a one-character separator. *)
Fixpoint split (sep : ascii) (s : string) : list string :=
  match s with
  | EmptyString => [EmptyString]
  | String c r =>
      if Ascii.eqb c sep then EmptyString :: split sep r
      else match split sep r with
           | h :: t => String c h :: t
           | [] => [String c EmptyString]
           end
  end.

(** [arr.join(sep)]; [Array.prototype.toString] is [join ","]. *)
Fixpoint join (sep : string) (l : list string) : string :=
  match l with
  | [] => EmptyString
  | [x] => x
  | x :: r => x ++ sep ++ join sep r
  end.

(** [arr.indexOf(x)], with the comparison as a predicate: [None] stands
    for -1. *)
Fixpoint indexOf {A} (is_x : A -> bool) (l : list A) : option nat :=
  match l with
  | [] => None
  | y :: r =>
      if is_x y then Some 0
      else match indexOf is_x r with
           | Some i => Some (S i)
           | None => None
           end
  end.

(** [arr.splice(i, 1)] as used: the array without its element [i]. *)
Fixpoint splice1 {A} (i : nat) (l : list A) : list A :=
  match l, i with
  | [], _ => []
  | _ :: r, O => r
  | y :: r, S j => y :: splice1 j r
  end.

(** Some character of [s] satisfies [p]. *)
Fixpoint exists_char (p : ascii -> bool) (s : string) : bool :=
  match s with
  | EmptyString => false
  | String c r => p c || exists_char p r
  end.

(** Truthiness of a string: the empty string is falsy. *)
Definition truthy (s : string) : bool :=
  match s with EmptyString => false | _ => true end.

Fixpoint contains (needle : string) (s : string) : bool :=
  String.prefix needle s ||
  match s with
  | EmptyString => false
  | String _ r => contains needle r
  end.

Definition lower_ascii (c : ascii) : ascii :=
  let n := N_of_ascii c in
  if ((65 <=? n) && (n <=? 90))%N then ascii_of_N (n + 32) else c.

Definition upper_ascii (c : ascii) : ascii :=
  let n := N_of_ascii c in
  if ((97 <=? n) && (n <=? 122))%N then ascii_of_N (n - 32) else c.

Fixpoint map_string (f : ascii -> ascii) (s : string) : string :=
  match s with
  | EmptyString => EmptyString
  | String c r => String (f c) (map_string f r)
  end.

(** ASCII case folding: what the [i] flag of a regular expression does to
    the letters of an ASCII pattern (a character outside ASCII never
    matches an ASCII letter). *)
Definition fold_ascii : string -> string := map_string lower_ascii.

(** [s.toUpperCase()] on the strings it is applied to, which are hex
    digits. *)
Definition toUpperCase : string -> string := map_string upper_ascii.

(** [/needle/i.test(s)] for a literal ASCII pattern. *)
Definition test_i (needle s : string) : bool :=
  contains (fold_ascii needle) (fold_ascii s).

(** The built-ins whose result depends on the Unicode tables or on the
    time zone of the process. *)
Class Builtins : Type := {
  (** [s.toLowerCase()] *)
  toLowerCase : string -> string;
  (** [d.setDate(d.getDate() + n)] for a Date [d] at the instant [t]
      (milliseconds): the instant with the same local time [n] calendar
      days later. Arguments: [n], [t]. *)
  setDate_plus : Z -> Z -> Z
}.

(** [s.startsWith(p)] and [s.substring(n)]. *)
Definition startsWith (p s : string) : bool := String.prefix p s.
Definition substring_from (n : nat) (s : string) : string :=
  String.substring n (String.length s - n) s.

(** [a || b] on strings. *)
Definition or_else (a b : string) : string := if truthy a then a else b.

End Js.

(** ** Results of fallible code *)

Inductive Exn : Type :=
| JsonWebTokenError (msg : string)
| Error (msg : string)
| PrismaError (code : string)
| CryptoError (msg : string).     (* thrown by node:crypto *)

Inductive Result (A : Type) : Type :=
| Ok (a : A)
| Throw (e : Exn).
Arguments Ok {A} a.
Arguments Throw {A} e.

(** ** The entropy source

    [crypto.randomBytes(n)] reads the next [n] bytes of a tape. *)

Record Rng : Type := mkRng { tape : nat -> byte; cursor : nat }.

Definition randomBytes (n : nat) (r : Rng) : list byte * Rng :=
  (map (tape r) (seq (cursor r) n), mkRng (tape r) (cursor r + n)).

(** ** node:crypto, as an interface *)

Class NodeCrypto : Type := {
  (** [crypto.pbkdf2Sync(password, salt, iterations, keylen, 'sha256')] *)
  pbkdf2Sync : string -> list byte -> N -> N -> list byte;
  (** [createCipheriv('aes-256-gcm', key, iv)], [update], [final],
      [getAuthTag]: ciphertext and tag. *)
  gcm_seal : list byte -> list byte -> list byte -> list byte * list byte;
  (** [createDecipheriv('aes-256-gcm', key, iv)], [setAuthTag(tag)],
      [update(text, 'hex')], [final()]: the plaintext, or the message of
      the error that one of them throws. Arguments: key, iv, tag, and the
      hex text given to [update]. *)
  gcm_open : list byte -> list byte -> list byte -> string -> list byte + string;
  (** [crypto.createHash('sha256').update(s).digest('hex')] *)
  sha256_hex : string -> string;
  (** [crypto.randomUUID()], from sixteen random bytes *)
  uuid_of_bytes : list byte -> string
}.

(** Authenticated decryption undoes authenticated encryption. *)
Class NodeCryptoLaws `{NodeCrypto} : Prop := {
  gcm_open_seal : forall key iv p,
    gcm_open key iv (snd (gcm_seal key iv p)) (Hex.toHex (fst (gcm_seal key iv p)))
    = inl p
}.

(** ** jsonwebtoken, as an interface

    A token is a string; the library signs a payload under a key and, given
    a token and a key, recovers the payload when the signature is valid. *)

Module Jwt.

Record Payload : Type := mkPayload {
  userId : string;
  type : string;
  iat : Z;
  exp : option Z
}.

End Jwt.

Class Jsonwebtoken : Type := {
  jws_sign : Jwt.Payload -> string -> string;
  jws_verify : string -> string -> option Jwt.Payload
}.

Class JsonwebtokenLaws `{Jsonwebtoken} : Prop := {
  jws_verify_sign : forall p key, jws_verify (jws_sign p key) key = Some p
}.

Section JwtOps.
Context `{Jsonwebtoken}.

(** Seconds since the epoch of the instant [now] (milliseconds). *)
Definition clockTimestamp (now : Z) : Z := (now / 1000)%Z.

(** [jwt.sign({userId, type}, secret, {expiresIn})] at instant [now];
    [expiresIn] in seconds. *)
Definition jwt_sign (userId type secret : string) (expiresIn now : Z) : string :=
  let iat := clockTimestamp now in
  jws_sign (Jwt.mkPayload userId type iat (Some (iat + expiresIn)%Z)) secret.

(** [jwt.verify(token, secret)] at instant [now]: the signature, then the
    expiry ([TokenExpiredError] is a [JsonWebTokenError]). *)
Definition jwt_verify (token secret : string) (now : Z) : Result Jwt.Payload :=
  match jws_verify token secret with
  | None => Throw (JsonWebTokenError "invalid signature")
  | Some p =>
      match Jwt.exp p with
      | Some e =>
          if (e <=? clockTimestamp now)%Z
          then Throw (JsonWebTokenError "jwt expired")
          else Ok p
      | None => Ok p
      end
  end.
End JwtOps.

(** ** Other libraries *)

(** speakeasy. [hotp_check secret counter token] is the comparison of the
    submitted [token] with the code of the base32 [secret] at [counter];
    [generateSecret name length] draws the secret and returns it in base32
    with its otpauth URL. *)
Class Speakeasy : Type := {
  hotp_check : string -> Z -> string -> bool;
  generateSecret : string -> nat -> Rng -> (string * string) * Rng
}.

(** [speakeasy.totp.verify({secret, encoding: 'base32', token, window})] at
    instant [now]: the time step is thirty seconds, and the steps from
    [counter - window] to [counter + window] are tried. *)
Definition totp_counter (now : Z) : Z := (now / 1000 / 30)%Z.

Definition totp_verify `{Speakeasy} (secret token : string) (window : nat) (now : Z)
  : bool :=
  let counter := (totp_counter now - Z.of_nat window)%Z in
  existsb (fun i => hotp_check secret (counter + Z.of_nat i)%Z token)
          (seq 0 (window + window + 1)).

(** utils/password.ts is not among the sources; its two functions are
    parameters. Hashing draws a salt. *)
Class PasswordHasher : Type := {
  hashPassword : string -> Rng -> string * Rng;
  verifyPassword : string -> string -> bool
}.

(** JSON values, [JSON.stringify] and [JSON.parse] ([None] when parsing
    throws). *)
#[local] Unset Elimination Schemes.
Inductive JsonValue : Type :=
| JNull
| JBool (b : bool)
| JNumber (z : Z)
| JString (s : string)
| JArray (l : list JsonValue)
| JObject (l : list (string * JsonValue)).
#[local] Set Elimination Schemes.

Class JsonCodec : Type := {
  JSON_stringify : JsonValue -> string;
  JSON_parse : string -> option JsonValue
}.

Definition string_array (l : list string) : JsonValue := JArray (map JString l).

Class JsonCodecLaws `{JsonCodec} : Prop := {
  JSON_parse_stringify : forall l,
    JSON_parse (JSON_stringify (string_array l)) = Some (string_array l);
  JSON_stringify_truthy : forall l,
    Js.truthy (JSON_stringify (string_array l)) = true
}.

(** express-validator / validator.js *)
Class Validator : Type := {
  isEmail : string -> bool;
  normalizeEmail : string -> string;
  trim : string -> string;
  (** [isLength({min, max})] *)
  isLength : nat -> option nat -> string -> bool
}.

(** qrcode *)
Class QrCode : Type := {
  toDataURL : string -> string
}.

(** services/emailService.ts. The handlers hold an instance; sending may
    throw. *)
Class EmailService : Type := {
  sendWelcomeEmail : string -> string -> Result unit;
  sendPasswordResetEmail : string -> string -> option string -> Result unit;
  sendMfaBackupCodesEmail : string -> list string -> option string -> Result unit
}.

(** config/index.ts, the part the authentication core reads. *)
Record Config : Type := mkConfig {
  jwt_secret : string;
  jwt_accessTokenExpiry : Z;     (* seconds; '15m' by default *)
  encryption_key : string;
  env : string;                  (* config.env *)
  email_apiKey : string;         (* config.email.apiKey *)
  appUrl : string
}.

Definition defaultConfig : Config :=
  mkConfig "development-secret-change-in-production" 900
           "development-key-32-characters-!!"
           "development" "" "http://localhost:3000".

(** ** services/emailService.ts

    The class as written. Both branches of [sendEmail] write a line to the
    console, which is not part of the state, and return. The class has no
    [sendMfaBackupCodesEmail]: calling it throws a TypeError. *)

Module EmailServiceTs.
Section EmailServiceTs.
Variable config : Config.

(** The constructor: [if (config.email.apiKey) this.isInitialized = true]. *)
Definition isInitialized : bool := Js.truthy (email_apiKey config).

Definition sendEmail (to subject html : string) : Result unit :=
  if String.eqb (env config) "development" || negb isInitialized
  then Ok tt                     (* console.log(.. 'Email (mock):' ..); return *)
  else Ok tt.                    (* console.log(.. 'Email sent:' ..) *)

Definition sendWelcomeEmail (email name : string) : Result unit :=
  sendEmail email "Welcome to Wyndo! 🎉"
    ("
        <h1>Welcome to Wyndo!</h1>
        <p>Hi " ++ Js.or_else name "there" ++ ",</p>
        <p>Welcome to Wyndo! We're excited to have you on board.</p>
        <p>You're starting with a 14-day free trial of our Business tier.</p>
        <p>Best regards,<br>The Wyndo Team</p>
      ").

Definition sendPasswordResetEmail (email resetToken : string) (name : option string)
  : Result unit :=
  let resetUrl := appUrl config ++ "/auth/reset-password?token=" ++ resetToken in
  let quote := String (ascii_of_N 34) EmptyString in
  sendEmail email "Reset Your Wyndo Password"
    ("
        <h1>Reset Your Password</h1>
        <p>Hi " ++ match name with
                   | Some n => Js.or_else n "there"
                   | None => "there"
                   end ++ ",</p>
        <p>We received a request to reset your password.</p>
        <p><a href=" ++ quote ++ resetUrl ++ quote
     ++ ">Click here to reset your password</a></p>
        <p>This link will expire in 1 hour.</p>
        <p>If you didn't request this, you can safely ignore this email.</p>
      ").

(** Not a method of the class. *)
Definition sendMfaBackupCodesEmail (email : string) (codes : list string)
           (name : option string) : Result unit :=
  Throw (Error "emailService.sendMfaBackupCodesEmail is not a function").

Definition service : EmailService :=
  Build_EmailService sendWelcomeEmail sendPasswordResetEmail sendMfaBackupCodesEmail.

End EmailServiceTs.
End EmailServiceTs.

(** ** Data model

    The Prisma schema is not among the sources: the rows hold the columns
    the code reads and writes, and the unique columns are the ones it
    looks rows up by ([findUnique], [upsert]). *)

(** The [backupCodes] column is written as a JSON text by the controller
    and as an array of strings by the router. *)
Inductive BackupCodes : Type :=
| JsonText (s : string)
| StringArray (l : list string).

Module User.
Record t : Type := mk {
  id : string;
  email : string;
  passwordHash : option string;
  name : option string;
  businessName : option string;
  tradeType : option string;
  subscriptionTier : string;
  subscriptionStatus : string;
  trialEndsAt : option Z;
  mfaEnabled : bool;
  mfaSecret : option string;
  backupCodes : option BackupCodes;
  passwordResetTokenHash : option string;
  passwordResetTokenExpiry : option Z;
  deletedAt : option Z;
  lastLoginAt : option Z;
  teamId : option string;
  teamRole : option string
}.

Definition set_passwordHash (v : option string) (u : t) : t :=
  mk (id u) (email u) v (name u) (businessName u) (tradeType u)
     (subscriptionTier u) (subscriptionStatus u) (trialEndsAt u)
     (mfaEnabled u) (mfaSecret u) (backupCodes u)
     (passwordResetTokenHash u) (passwordResetTokenExpiry u)
     (deletedAt u) (lastLoginAt u) (teamId u) (teamRole u).

Definition set_mfaEnabled (v : bool) (u : t) : t :=
  mk (id u) (email u) (passwordHash u) (name u) (businessName u) (tradeType u)
     (subscriptionTier u) (subscriptionStatus u) (trialEndsAt u)
     v (mfaSecret u) (backupCodes u)
     (passwordResetTokenHash u) (passwordResetTokenExpiry u)
     (deletedAt u) (lastLoginAt u) (teamId u) (teamRole u).

Definition set_mfaSecret (v : option string) (u : t) : t :=
  mk (id u) (email u) (passwordHash u) (name u) (businessName u) (tradeType u)
     (subscriptionTier u) (subscriptionStatus u) (trialEndsAt u)
     (mfaEnabled u) v (backupCodes u)
     (passwordResetTokenHash u) (passwordResetTokenExpiry u)
     (deletedAt u) (lastLoginAt u) (teamId u) (teamRole u).

Definition set_backupCodes (v : option BackupCodes) (u : t) : t :=
  mk (id u) (email u) (passwordHash u) (name u) (businessName u) (tradeType u)
     (subscriptionTier u) (subscriptionStatus u) (trialEndsAt u)
     (mfaEnabled u) (mfaSecret u) v
     (passwordResetTokenHash u) (passwordResetTokenExpiry u)
     (deletedAt u) (lastLoginAt u) (teamId u) (teamRole u).

Definition set_passwordResetTokenHash (v : option string) (u : t) : t :=
  mk (id u) (email u) (passwordHash u) (name u) (businessName u) (tradeType u)
     (subscriptionTier u) (subscriptionStatus u) (trialEndsAt u)
     (mfaEnabled u) (mfaSecret u) (backupCodes u)
     v (passwordResetTokenExpiry u)
     (deletedAt u) (lastLoginAt u) (teamId u) (teamRole u).

Definition set_passwordResetTokenExpiry (v : option Z) (u : t) : t :=
  mk (id u) (email u) (passwordHash u) (name u) (businessName u) (tradeType u)
     (subscriptionTier u) (subscriptionStatus u) (trialEndsAt u)
     (mfaEnabled u) (mfaSecret u) (backupCodes u)
     (passwordResetTokenHash u) v
     (deletedAt u) (lastLoginAt u) (teamId u) (teamRole u).

Definition set_deletedAt (v : option Z) (u : t) : t :=
  mk (id u) (email u) (passwordHash u) (name u) (businessName u) (tradeType u)
     (subscriptionTier u) (subscriptionStatus u) (trialEndsAt u)
     (mfaEnabled u) (mfaSecret u) (backupCodes u)
     (passwordResetTokenHash u) (passwordResetTokenExpiry u)
     v (lastLoginAt u) (teamId u) (teamRole u).

Definition set_lastLoginAt (v : option Z) (u : t) : t :=
  mk (id u) (email u) (passwordHash u) (name u) (businessName u) (tradeType u)
     (subscriptionTier u) (subscriptionStatus u) (trialEndsAt u)
     (mfaEnabled u) (mfaSecret u) (backupCodes u)
     (passwordResetTokenHash u) (passwordResetTokenExpiry u)
     (deletedAt u) v (teamId u) (teamRole u).
End User.

Module Session.
Record t : Type := mk {
  id : string;
  userId : string;
  token : string;
  refreshToken : string;
  deviceInfo : option string;      (* the [deviceId] of the JSON blob *)
  ipAddress : option string;
  userAgent : string;
  createdAt : Z;
  lastUsedAt : Z;
  expiresAt : Z
}.
End Session.

Module Device.
Record t : Type := mk {
  id : string;
  userId : string;
  deviceId : string;
  name : string;
  platform : string;
  lastUsedAt : Z
}.

Definition set_lastUsedAt (v : Z) (d : t) : t :=
  mk (id d) (userId d) (deviceId d) (name d) (platform d) v.
End Device.

Record Db : Type := mkDb {
  users : list User.t;
  sessions : list Session.t;
  devices : list Device.t
}.

(** ** The handler monad: state and exceptions *)

Record World : Type := mkWorld { db : Db; rng : Rng }.

Definition M (A : Type) : Type := World -> World * Result A.

Definition ret {A} (a : A) : M A := fun w => (w, Ok a).
Definition throw {A} (e : Exn) : M A := fun w => (w, Throw e).
Definition bind {A B} (m : M A) (k : A -> M B) : M B :=
  fun w => match m w with
           | (w', Ok a) => k a w'
           | (w', Throw e) => (w', Throw e)
           end.
Definition lift {A} (r : Result A) : M A := fun w => (w, r).
(** [try { m } catch { h }] *)
Definition try_catch {A} (m : M A) (h : Exn -> M A) : M A :=
  fun w => match m w with
           | (w', Ok a) => (w', Ok a)
           | (w', Throw e) => h e w'
           end.
Definition get_db : M Db := fun w => (w, Ok (db w)).
Definition put_db (d : Db) : M unit := fun w => (mkWorld d (rng w), Ok tt).
Definition with_rng {A} (f : Rng -> A * Rng) : M A :=
  fun w => let (a, r) := f (rng w) in (mkWorld (db w) r, Ok a).

Declare Scope m_scope.
Delimit Scope m_scope with M.
Notation "x <- m ;; k" := (bind m (fun x => k))
  (at level 61, m at next level, right associativity) : m_scope.
Notation "m ;;; k" := (bind m (fun _ => k))
  (at level 61, right associativity) : m_scope.
Notation "' ( x , y ) <- m ;; k" := (bind m (fun xy => let (x, y) := xy in k))
  (at level 61, x name, y name, m at next level, right associativity) : m_scope.
Local Open Scope m_scope.

Definition string_of_option (o : option string) (d : string) : string :=
  match o with Some s => s | None => d end.

(** ** The store: Prisma client calls *)

Module Prisma.
Section Prisma.
Context `{NodeCrypto}.

(** Row identifiers are generated by the store. *)
Definition newId : M string :=
  with_rng (fun r => let (b, r') := randomBytes 16 r in (uuid_of_bytes b, r')).

Definition P2002 : Exn := PrismaError "P2002".  (* unique constraint *)
Definition P2025 : Exn := PrismaError "P2025".  (* record not found *)

(** *** user *)

Definition user_findUnique_email (e : string) : M (option User.t) :=
  d <- get_db ;; ret (find (fun u => String.eqb (User.email u) e) (users d)).

Definition user_findUnique_id (i : string) : M (option User.t) :=
  d <- get_db ;; ret (find (fun u => String.eqb (User.id u) i) (users d)).

(** [findFirst({where: {passwordResetTokenHash, passwordResetTokenExpiry: {gt}}})] *)
Definition reset_matches (tokenHash : string) (now : Z) (u : User.t) : bool :=
  match User.passwordResetTokenHash u, User.passwordResetTokenExpiry u with
  | Some h, Some e => String.eqb h tokenHash && (now <? e)%Z
  | _, _ => false
  end.

Definition user_findFirst_reset (tokenHash : string) (now : Z) : M (option User.t) :=
  d <- get_db ;; ret (find (reset_matches tokenHash now) (users d)).

(** [create]: [id] and [email] are unique. *)
Definition user_create (mkRow : string -> User.t) : M User.t :=
  i <- newId ;;
  d <- get_db ;;
  let u := mkRow i in
  if existsb (fun v => String.eqb (User.id v) i
                       || String.eqb (User.email v) (User.email u)) (users d)
  then throw P2002
  else put_db (mkDb (users d ++ [u])%list (sessions d) (devices d)) ;;; ret u.

(** [update({where: {id}, data})] for data that touch no unique column. *)
Definition user_update (i : string) (data : User.t -> User.t) : M User.t :=
  d <- get_db ;;
  match find (fun u => String.eqb (User.id u) i) (users d) with
  | None => throw P2025
  | Some u =>
      put_db (mkDb (map (fun v => if String.eqb (User.id v) i then data v else v)
                        (users d))
                   (sessions d) (devices d)) ;;;
      ret (data u)
  end.

(** *** session *)

Definition session_findUnique_refreshToken (rt : string) : M (option Session.t) :=
  d <- get_db ;;
  ret (find (fun s => String.eqb (Session.refreshToken s) rt) (sessions d)).

(** [create]: [id] and [refreshToken] are unique. *)
Definition session_create (mkRow : string -> Session.t) : M Session.t :=
  i <- newId ;;
  d <- get_db ;;
  let s := mkRow i in
  if existsb (fun v => String.eqb (Session.id v) i
                       || String.eqb (Session.refreshToken v) (Session.refreshToken s))
             (sessions d)
  then throw P2002
  else put_db (mkDb (users d) (sessions d ++ [s])%list (devices d)) ;;; ret s.

(** The row [v] with [data: {token, refreshToken, lastUsedAt}] written. *)
Definition session_data (tok rt : string) (at_ : Z) (v : Session.t) : Session.t :=
  Session.mk (Session.id v) (Session.userId v) tok rt
    (Session.deviceInfo v) (Session.ipAddress v)
    (Session.userAgent v) (Session.createdAt v)
    at_ (Session.expiresAt v).

(** [update({where: {id}, data: {token, refreshToken, lastUsedAt}})] *)
Definition session_update (i : string) (tok rt : string) (at_ : Z) : M unit :=
  d <- get_db ;;
  match find (fun s => String.eqb (Session.id s) i) (sessions d) with
  | None => throw P2025
  | Some _ =>
      if existsb (fun v => negb (String.eqb (Session.id v) i)
                           && String.eqb (Session.refreshToken v) rt) (sessions d)
      then throw P2002
      else
        put_db (mkDb (users d)
                     (map (fun v => if String.eqb (Session.id v) i
                                    then session_data tok rt at_ v else v)
                          (sessions d))
                     (devices d))
  end.

(** [deleteMany({where})] *)
Definition session_deleteMany (where_ : Session.t -> bool) : M unit :=
  d <- get_db ;;
  put_db (mkDb (users d) (filter (fun s => negb (where_ s)) (sessions d)) (devices d)).

Definition session_findMany (where_ : Session.t -> bool) : M (list Session.t) :=
  d <- get_db ;; ret (filter where_ (sessions d)).

(** [delete({where: {id}})] *)
Definition session_delete (i : string) : M unit :=
  d <- get_db ;;
  if existsb (fun s => String.eqb (Session.id s) i) (sessions d)
  then put_db (mkDb (users d)
                    (filter (fun s => negb (String.eqb (Session.id s) i)) (sessions d))
                    (devices d))
  else throw P2025.

(** *** device *)

Definition device_key (u dv : string) (x : Device.t) : bool :=
  String.eqb (Device.userId x) u && String.eqb (Device.deviceId x) dv.

(** [upsert({where: {userId_deviceId}, create, update: {lastUsedAt}})] *)
Definition device_upsert (u dv name platform : string) (now : Z) : M unit :=
  d <- get_db ;;
  if existsb (device_key u dv) (devices d)
  then put_db (mkDb (users d) (sessions d)
                    (map (fun x => if device_key u dv x
                                   then Device.set_lastUsedAt now x else x)
                         (devices d)))
  else
    i <- newId ;;
    if existsb (fun x => String.eqb (Device.id x) i) (devices d)
    then throw P2002
    else put_db (mkDb (users d) (sessions d)
                      (devices d ++ [Device.mk i u dv name platform now])%list).

Definition device_deleteMany (where_ : Device.t -> bool) : M unit :=
  d <- get_db ;;
  put_db (mkDb (users d) (sessions d) (filter (fun x => negb (where_ x)) (devices d))).

End Prisma.
End Prisma.

(** ** utils/encryption.ts *)

Module Encryption.
Section Encryption.
Context `{NodeCrypto}.

Definition IV_LENGTH : nat := 16.
Definition SALT_LENGTH : nat := 64.

(** The blob built from the drawn [iv] and [salt]. *)
Definition seal_blob (iv salt : list byte) (text key : string) : string :=
  let derivedKey := pbkdf2Sync key salt 100000%N 32%N in
  let sealed := gcm_seal derivedKey iv (list_byte_of_string text) in
  let encrypted := Hex.toHex (fst sealed) in
  let tag := snd sealed in
  Hex.toHex salt ++ ":" ++ Hex.toHex iv ++ ":" ++ Hex.toHex tag ++ ":" ++ encrypted.

Definition encrypt (text key : string) (r : Rng) : string * Rng :=
  let (iv, r1) := randomBytes IV_LENGTH r in
  let (salt, r2) := randomBytes SALT_LENGTH r1 in
  (seal_blob iv salt text key, r2).

Definition decrypt (encryptedData key : string) : Result string :=
  match Js.split ":" encryptedData with
  | [saltHex; ivHex; tagHex; encrypted] =>
      let salt := Hex.fromHex saltHex in
      let iv := Hex.fromHex ivHex in
      let tag := Hex.fromHex tagHex in
      let derivedKey := pbkdf2Sync key salt 100000%N 32%N in
      match gcm_open derivedKey iv tag encrypted with
      | inl decrypted => Ok (string_of_list_byte decrypted)
      | inr message => Throw (CryptoError message)
      end
  | _ => Throw (Error "Invalid encrypted data format")
  end.

End Encryption.
End Encryption.

(** ** HTTP requests and responses *)

Record DeviceInfo : Type := mkDeviceInfo {
  di_deviceId : option string;
  di_platform : option string;
  di_name : option string
}.

Record Request (B : Type) : Type := mkRequest {
  body : B;
  ip : option string;
  user_agent : option string;        (* header user-agent *)
  x_device_id : option string;       (* header x-device-id *)
  authorization : option string;     (* header authorization *)
  (** [validationResult(req)] where the validation chain is not part of
      the handler's file *)
  validationErrors : list string
}.
Arguments mkRequest {B}.
Arguments body {B}.
Arguments ip {B}.
Arguments user_agent {B}.
Arguments x_device_id {B}.
Arguments authorization {B}.
Arguments validationErrors {B}.

Record RegisterBody : Type := mkRegisterBody {
  rb_email : string;
  rb_password : string;
  rb_name : string;
  rb_businessName : option string;
  rb_tradeType : option string;
  rb_deviceInfo : option DeviceInfo
}.

Record LoginBody : Type := mkLoginBody {
  lb_email : string;
  lb_password : string;
  lb_deviceInfo : option DeviceInfo
}.

Record VerifyMfaBody : Type := mkVerifyMfaBody {
  vb_tempToken : string;
  vb_code : string;
  vb_deviceInfo : option DeviceInfo
}.

Record ResetConfirmBody : Type := mkResetConfirmBody {
  rc_token : string;
  rc_password : string
}.

(** The user fields a response discloses; [None] where the handler leaves
    the field out. *)
Record UserSummary : Type := mkUserSummary {
  us_id : string;
  us_email : string;
  us_name : option string;
  us_subscriptionTier : string;
  us_subscriptionStatus : option string;
  us_trialEndsAt : option (option Z);
  us_mfaEnabled : option bool
}.

Inductive Body : Type :=
| BErrors (errors : list string)
| BError (error : string)
| BSubscriptionRequired (subscriptionStatus : string)
| BMessage (message : string)
| BMfaChallenge (tempToken : string)             (* {requiresMfa: true, tempToken} *)
| BUserTokens (user : UserSummary) (accessToken refreshToken : string)
                                                 (* {user, tokens: {..}} *)
| BSession (message : string) (user : UserSummary) (accessToken refreshToken : string)
                                                 (* {message, user, accessToken, refreshToken} *)
| BTokens (accessToken refreshToken : string)
| BMfaSetup (secret qrCode : string) (backupCodes : option (list string))
| BMfaEnabled (message : string) (backupCodes : option (list string)).

Record Response : Type := mkResponse { status : nat; json : Body }.

(** The outer [try { ... } catch { res.status(500).json({error}) }]. *)
Definition handler (m : M Response) (failed : string) : World -> World * Response :=
  fun w => match m w with
           | (w', Ok r) => (w', r)
           | (w', Throw _) => (w', mkResponse 500 (BError failed))
           end.

(** ** services/tokenService.ts *)

Module TokenService.
Section TokenService.
Context `{NodeCrypto} `{Jsonwebtoken}.
Variable config : Config.

Definition generateAccessToken (userId : string) (now : Z) : string :=
  jwt_sign userId "access" (jwt_secret config) (jwt_accessTokenExpiry config) now.

Definition generateRefreshToken : M string :=
  with_rng (fun r => let (b, r') := randomBytes 32 r in (Hex.toHex b, r')).

Definition createSession (userId deviceId : string) (ipAddress : option string)
           (userAgent : string) (now : Z) : M (string * string) :=
  let accessToken := generateAccessToken userId now in
  refreshToken <- generateRefreshToken ;;
  let expiresAt := (now + 7 * 24 * 60 * 60 * 1000)%Z in
  Prisma.session_create
    (fun i => Session.mk i userId accessToken refreshToken (Some deviceId)
                (match ipAddress with
                 | Some a => if Js.truthy a then Some a else None
                 | None => None
                 end)
                userAgent now now expiresAt) ;;;
  ret (accessToken, refreshToken).

Definition refreshAccessToken (refreshToken : string) (now : Z)
  : M (option (string * string)) :=
  session <- Prisma.session_findUnique_refreshToken refreshToken ;;
  match session with
  | None => ret None
  | Some session =>
      if (Session.expiresAt session <? now)%Z then ret None
      else
        let accessToken := generateAccessToken (Session.userId session) now in
        newRefreshToken <- generateRefreshToken ;;
        Prisma.session_update (Session.id session) accessToken newRefreshToken now ;;;
        ret (Some (accessToken, newRefreshToken))
  end.

Definition revokeSession (token : string) : M unit :=
  Prisma.session_deleteMany (fun s => String.eqb (Session.token s) token).

Definition revokeAllSessions (userId : string) : M unit :=
  Prisma.session_deleteMany (fun s => String.eqb (Session.userId s) userId).

Fixpoint revokeEach (deviceId : string) (l : list Session.t) : M unit :=
  match l with
  | [] => ret tt
  | session :: rest =>
      (match Session.deviceInfo session with
       | Some d => if String.eqb d deviceId
                   then Prisma.session_delete (Session.id session)
                   else ret tt
       | None => ret tt
       end) ;;;
      revokeEach deviceId rest
  end.

Definition revokeDeviceSessions (userId deviceId : string) : M unit :=
  sessions <- Prisma.session_findMany (fun s => String.eqb (Session.userId s) userId) ;;
  revokeEach deviceId sessions.

Definition createTempToken (userId : string) (now : Z) : string :=
  jwt_sign userId "mfa_temp" (jwt_secret config) 600 now.

Definition createTemporaryToken (userId : string) (now : Z) : M string :=
  ret (createTempToken userId now).

Definition verifyTempToken (token : string) (now : Z) : option string :=
  match jwt_verify token (jwt_secret config) now with
  | Ok decoded =>
      if negb (String.eqb (Jwt.type decoded) "mfa_temp") then None
      else Some (Jwt.userId decoded)
  | Throw _ => None
  end.

Definition verifyTemporaryToken (token : string) (now : Z) : M (option string) :=
  ret (verifyTempToken token now).

Definition refreshSession (refreshToken : string) (now : Z)
  : M (option (string * string)) :=
  refreshAccessToken refreshToken now.

End TokenService.
End TokenService.

(** ** services/authService.ts *)

Module AuthService.
Section AuthService.
Context `{NodeCrypto}.

Definition truthy_field (o : option string) : option string :=
  match o with
  | Some s => if Js.truthy s then Some s else None
  | None => None
  end.

Definition detectPlatform (userAgentHeader : option string)
           (deviceInfo : option DeviceInfo) : string :=
  match match deviceInfo with Some d => truthy_field (di_platform d) | None => None end with
  | Some p => p
  | None =>
      let userAgent := Js.or_else (string_of_option userAgentHeader "") "" in
      if Js.test_i "iPhone" userAgent || Js.test_i "iPad" userAgent
         || Js.test_i "iPod" userAgent then "ios"
      else if Js.test_i "Android" userAgent then "android"
      else "web"
  end.

Definition generateDeviceName (userAgentHeader : option string)
           (deviceInfo : option DeviceInfo) : string :=
  match match deviceInfo with Some d => truthy_field (di_name d) | None => None end with
  | Some n => n
  | None =>
      let userAgent := Js.or_else (string_of_option userAgentHeader "") "" in
      if Js.test_i "iPhone" userAgent then "iPhone"
      else if Js.test_i "iPad" userAgent then "iPad"
      else if Js.test_i "Android" userAgent then "Android Device"
      else if Js.test_i "Macintosh" userAgent then "Mac"
      else if Js.test_i "Windows" userAgent then "Windows PC"
      else if Js.test_i "Linux" userAgent then "Linux"
      else "Unknown Device"
  end.

Definition recordDevice {B} (userId deviceId : string) (deviceInfo : option DeviceInfo)
           (req : Request B) (now : Z) : M unit :=
  let platform := detectPlatform (user_agent req) deviceInfo in
  let deviceName := generateDeviceName (user_agent req) deviceInfo in
  Prisma.device_upsert userId deviceId deviceName platform now.

Definition createPasswordResetToken (userId : string) (now : Z) : M string :=
  token <- with_rng (fun r => let (b, r') := randomBytes 32 r in (Hex.toHex b, r')) ;;
  let tokenHash := sha256_hex token in
  let expiresAt := (now + 60 * 60 * 1000)%Z in
  Prisma.user_update userId
    (fun u => User.set_passwordResetTokenExpiry (Some expiresAt)
                (User.set_passwordResetTokenHash (Some tokenHash) u)) ;;;
  ret token.

(** [user?.id || null] *)
Definition verifyPasswordResetToken (token : string) (now : Z) : M (option string) :=
  let tokenHash := sha256_hex token in
  user <- Prisma.user_findFirst_reset tokenHash now ;;
  ret (match user with
       | Some u => if Js.truthy (User.id u) then Some (User.id u) else None
       | None => None
       end).

Definition clearPasswordResetToken (userId : string) : M unit :=
  Prisma.user_update userId
    (fun u => User.set_passwordResetTokenExpiry None
                (User.set_passwordResetTokenHash None u)) ;;;
  ret tt.

End AuthService.
End AuthService.

(** ** middleware/auth.ts *)

Module Middleware.
Section Middleware.
Context `{Jsonwebtoken}.
Variable config : Config.

Record AuthUser : Type := mkAuthUser {
  au_id : string;
  au_email : string;
  au_subscriptionTier : string;
  au_teamId : option string;
  au_teamRole : option string
}.

Inductive Outcome : Type :=
  | Responded (r : Response)                     (* the middleware answered *)
  | Next (userId : string) (user : AuthUser)     (* next() *)
  | NextError (e : Exn).                         (* next(error) *)

Definition authenticate {B} (req : Request B) (now : Z) (d : Db) : Outcome :=
  match authorization req with
  | None => Responded (mkResponse 401 (BError "No token provided"))
  | Some authHeader =>
      if negb (Js.truthy authHeader) || negb (Js.startsWith "Bearer " authHeader)
      then Responded (mkResponse 401 (BError "No token provided"))
      else
        let token := Js.substring_from 7 authHeader in
        match jwt_verify token (jwt_secret config) now with
        | Throw (JsonWebTokenError _) =>
            Responded (mkResponse 401 (BError "Invalid token"))
        | Throw e => NextError e
        | Ok decoded =>
            match find (fun u => String.eqb (User.id u) (Jwt.userId decoded)) (users d) with
            | None => Responded (mkResponse 401 (BError "User not found"))
            | Some user =>
                match User.deletedAt user with
                | Some _ => Responded (mkResponse 401 (BError "User not found"))
                | None =>
                    if negb (String.eqb (User.subscriptionTier user) "FREE")
                       && negb (String.eqb (User.subscriptionStatus user) "ACTIVE")
                       && negb (String.eqb (User.subscriptionStatus user) "TRIAL")
                    then Responded (mkResponse 403
                           (BSubscriptionRequired (User.subscriptionStatus user)))
                    else Next (User.id user)
                           (mkAuthUser (User.id user) (User.email user)
                              (User.subscriptionTier user)
                              (AuthService.truthy_field (User.teamId user))
                              (AuthService.truthy_field (User.teamRole user)))
                end
            end
        end
  end.

(** What [optionalAuthenticate] does with the request: it goes on without
    a user, or it hands the request to [authenticate]. *)
Inductive OptionalOutcome : Type :=
| Anonymous                                    (* next() with no user attached *)
| Authenticated (o : Outcome).                 (* await authenticate(req, res, next) *)

Definition optionalAuthenticate {B} (req : Request B) (now : Z) (d : Db)
  : OptionalOutcome :=
  match authorization req with
  | None => Anonymous
  | Some authHeader =>
      if negb (Js.truthy authHeader) || negb (Js.startsWith "Bearer " authHeader)
      then Anonymous
      else Authenticated (authenticate req now d)
  end.

End Middleware.
End Middleware.

(** ** Helpers shared by the handlers *)

Section HandlerHelpers.
Context `{NodeCrypto}.

Definition is_lower (c : ascii) : bool :=
  let n := N_of_ascii c in ((97 <=? n) && (n <=? 122))%N.
Definition is_upper (c : ascii) : bool :=
  let n := N_of_ascii c in ((65 <=? n) && (n <=? 90))%N.
Definition is_digit (c : ascii) : bool :=
  let n := N_of_ascii c in ((48 <=? n) && (n <=? 57))%N.

(** A line terminator starts here: LF, CR, U+2028 or U+2029. *)
Definition at_line_terminator (s : string) : bool :=
  String.prefix (String (ascii_of_N 10) EmptyString) s
  || String.prefix (String (ascii_of_N 13) EmptyString) s
  || String.prefix (String (ascii_of_N 226) (String (ascii_of_N 128)
                      (String (ascii_of_N 168) EmptyString))) s
  || String.prefix (String (ascii_of_N 226) (String (ascii_of_N 128)
                      (String (ascii_of_N 169) EmptyString))) s.

Fixpoint first_line (s : string) : string :=
  match s with
  | EmptyString => EmptyString
  | String c r => if at_line_terminator s then EmptyString
                  else String c (first_line r)
  end.

(** [/^(?=.*[a-z])(?=.*[A-Z])(?=.*\d)/] *)
Definition matches_password_policy (s : string) : bool :=
  let l := first_line s in
  Js.exists_char is_lower l && Js.exists_char is_upper l && Js.exists_char is_digit l.

(** [notEmpty()] *)
Definition notEmpty (s : string) : bool := Js.truthy s.

(** routes/auth.ts, [getDeviceId] *)
Definition getDeviceId {B} (req : Request B) (deviceInfo : option DeviceInfo) : string :=
  match match deviceInfo with
        | Some d => AuthService.truthy_field (di_deviceId d)
        | None => None
        end with
  | Some d => d
  | None =>
      let fingerprint :=
        string_of_option (ip req) "undefined" ++ "-"
        ++ string_of_option (user_agent req) "undefined" in
      String.substring 0 32 (sha256_hex fingerprint)
  end.

(** [req.headers['x-device-id'] as string || crypto.randomUUID()] *)
Definition headerDeviceId {B} (req : Request B) : M string :=
  match AuthService.truthy_field (x_device_id req) with
  | Some d => ret d
  | None => with_rng (fun r => let (b, r') := randomBytes 16 r in (uuid_of_bytes b, r'))
  end.

(** [Array.from({length: n}, () => randomBytes(4).toString('hex').toUpperCase())] *)
Fixpoint generateBackupCodes (n : nat) (r : Rng) : list string * Rng :=
  match n with
  | O => ([], r)
  | S n' =>
      let (b, r1) := randomBytes 4 r in
      let (l, r2) := generateBackupCodes n' r1 in
      (Js.toUpperCase (Hex.toHex b) :: l, r2)
  end.

(** [codes.map((code) => encrypt(code, key))] *)
Fixpoint encryptEach (codes : list string) (key : string) (r : Rng)
  : list string * Rng :=
  match codes with
  | [] => ([], r)
  | code :: rest =>
      let (c, r1) := Encryption.encrypt code key r in
      let (l, r2) := encryptEach rest key r1 in
      (c :: l, r2)
  end.

(** middleware/errorHandler.ts, reached through [next(error)] *)
Definition errorHandler (err : Exn) : Response :=
  match err with
  | PrismaError code =>
      if String.eqb code "P2002" then mkResponse 409 (BError "Duplicate entry")
      else if String.eqb code "P2025" then mkResponse 404 (BError "Record not found")
      else mkResponse 500 (BError "Internal server error")
  | JsonWebTokenError _ => mkResponse 401 (BError "Invalid token")
  | Error msg => mkResponse 500 (BError (Js.or_else msg "Internal server error"))
  | CryptoError msg => mkResponse 500 (BError (Js.or_else msg "Internal server error"))
  end.

Definition day : Z := (24 * 60 * 60 * 1000)%Z.

End HandlerHelpers.

(** ** routes/auth.ts (mounted at /api/auth by index.ts) *)

Module Routes.
Section Routes.
Context `{NodeCrypto} `{Jsonwebtoken} `{Speakeasy} `{PasswordHasher}
          `{Validator} `{QrCode} `{EmailService}.
Variable config : Config.

(** A route behind the [authenticate] middleware. *)
Definition authenticated {B} (req : Request B) (now : Z)
           (k : option string -> World -> World * Response)
  : World -> World * Response :=
  fun w =>
    match Middleware.authenticate config req now (db w) with
    | Middleware.Responded r => (w, r)
    | Middleware.NextError e => (w, errorHandler e)
    | Middleware.Next userId _ => k (Some userId) w
    end.

(** [validationResult(req).array()]: one error for each validator that
    fails, shown by the path of its field. *)
Definition validateRegister (b : RegisterBody) : list string :=
  ((if isEmail (rb_email b) then [] else ["email"])
   ++ (if isLength 8 None (rb_password b) then [] else ["password"])
   ++ (if matches_password_policy (rb_password b) then [] else ["password"])
   ++ (if isLength 1 (Some 100) (trim (rb_name b)) then [] else ["name"]))%list.

Definition validateLogin (b : LoginBody) : list string :=
  ((if isEmail (lb_email b) then [] else ["email"])
   ++ (if notEmpty (lb_password b) then [] else ["password"]))%list.

(** POST /register *)
Definition post_register (req : Request RegisterBody) (now : Z)
  : World -> World * Response :=
  handler
    (match validateRegister (body req) with
     | (_ :: _) as errors => ret (mkResponse 400 (BErrors errors))
     | [] =>
         let email := normalizeEmail (rb_email (body req)) in
         let password := rb_password (body req) in
         let name := trim (rb_name (body req)) in
         let deviceInfo := rb_deviceInfo (body req) in
         existingUser <- Prisma.user_findUnique_email email ;;
         match existingUser with
         | Some _ => ret (mkResponse 409 (BError "Email already registered"))
         | None =>
             passwordHash <- with_rng (hashPassword password) ;;
             user <- Prisma.user_create
                       (fun i => User.mk i email (Some passwordHash) (Some name)
                                   (rb_businessName (body req)) (rb_tradeType (body req))
                                   "FREE" "TRIAL" (Some (now + 14 * day)%Z)
                                   false None None None None None None None None) ;;
             let deviceId := getDeviceId req deviceInfo in
             ' (accessToken, refreshToken) <-
               TokenService.createSession config (User.id user) deviceId (ip req)
                 (Js.or_else (string_of_option (user_agent req) "") "") now ;;
             AuthService.recordDevice (User.id user) deviceId deviceInfo req now ;;;
             lift (sendWelcomeEmail (User.email user)
                     (Js.or_else (string_of_option (User.name user) "") "")) ;;;
             ret (mkResponse 201
                    (BUserTokens
                       (mkUserSummary (User.id user) (User.email user) (User.name user)
                          (User.subscriptionTier user)
                          (Some (User.subscriptionStatus user))
                          (Some (User.trialEndsAt user)) None)
                       accessToken refreshToken))
         end
     end)
    "Registration failed".

(** POST /login *)
Definition post_login (req : Request LoginBody) (now : Z)
  : World -> World * Response :=
  handler
    (match validateLogin (body req) with
     | (_ :: _) as errors => ret (mkResponse 400 (BErrors errors))
     | [] =>
         let email := normalizeEmail (lb_email (body req)) in
         let password := lb_password (body req) in
         let deviceInfo := lb_deviceInfo (body req) in
         user <- Prisma.user_findUnique_email email ;;
         match user with
         | None => ret (mkResponse 401 (BError "Invalid email or password"))
         | Some user =>
             match User.deletedAt user, AuthService.truthy_field (User.passwordHash user) with
             | Some _, _ | _, None =>
                 ret (mkResponse 401 (BError "Invalid email or password"))
             | None, Some passwordHash =>
                 if negb (verifyPassword password passwordHash)
                 then ret (mkResponse 401 (BError "Invalid email or password"))
                 else if User.mfaEnabled user
                 then
                   let tempToken := TokenService.createTempToken config (User.id user) now in
                   ret (mkResponse 200 (BMfaChallenge tempToken))
                 else
                   Prisma.user_update (User.id user) (User.set_lastLoginAt (Some now)) ;;;
                   let deviceId := getDeviceId req deviceInfo in
                   ' (accessToken, refreshToken) <-
                     TokenService.createSession config (User.id user) deviceId (ip req)
                       (Js.or_else (string_of_option (user_agent req) "") "") now ;;
                   AuthService.recordDevice (User.id user) deviceId deviceInfo req now ;;;
                   ret (mkResponse 200
                          (BUserTokens
                             (mkUserSummary (User.id user) (User.email user)
                                (User.name user) (User.subscriptionTier user)
                                (Some (User.subscriptionStatus user)) None None)
                             accessToken refreshToken))
             end
         end
     end)
    "Login failed".

(** POST /refresh *)
Definition post_refresh (req : Request string) (now : Z)
  : World -> World * Response :=
  handler
    (if negb (Js.truthy (body req))
     then ret (mkResponse 400 (BError "Refresh token required"))
     else
       result <- TokenService.refreshAccessToken config (body req) now ;;
       match result with
       | None => ret (mkResponse 401 (BError "Invalid or expired refresh token"))
       | Some (accessToken, refreshToken) =>
           ret (mkResponse 200 (BTokens accessToken refreshToken))
       end)
    "Token refresh failed".

Definition validateResetConfirm (b : ResetConfirmBody) : list string :=
  ((if notEmpty (rc_token b) then [] else ["token"])
   ++ (if isLength 8 None (rc_password b) then [] else ["password"])
   ++ (if matches_password_policy (rc_password b) then [] else ["password"]))%list.

(** POST /password/reset/confirm *)
Definition post_password_reset_confirm (req : Request ResetConfirmBody) (now : Z)
  : World -> World * Response :=
  handler
    (match validateResetConfirm (body req) with
     | (_ :: _) as errors => ret (mkResponse 400 (BErrors errors))
     | [] =>
         let token := rc_token (body req) in
         let password := rc_password (body req) in
         userId <- AuthService.verifyPasswordResetToken token now ;;
         match userId with
         | None => ret (mkResponse 400 (BError "Invalid or expired reset token"))
         | Some userId =>
             newPasswordHash <- with_rng (hashPassword password) ;;
             Prisma.user_update userId
               (fun u => User.set_passwordResetTokenExpiry None
                           (User.set_passwordResetTokenHash None
                              (User.set_passwordHash (Some newPasswordHash) u))) ;;;
             TokenService.revokeAllSessions userId ;;;
             ret (mkResponse 200 (BMessage "Password reset successfully"))
         end
     end)
    "Password reset failed".

(** POST /mfa/setup *)
Definition post_mfa_setup (req : Request unit) (now : Z)
  : World -> World * Response :=
  authenticated req now (fun reqUserId =>
    handler
      (match AuthService.truthy_field reqUserId with
       | None => ret (mkResponse 401 (BError "Unauthorized"))
       | Some userId =>
           user <- Prisma.user_findUnique_id userId ;;
           match user with
           | None => ret (mkResponse 404 (BError "User not found"))
           | Some user =>
               ' (base32, otpauth_url) <-
                 with_rng (generateSecret ("Wyndo (" ++ User.email user ++ ")") 32) ;;
               encryptedSecret <-
                 with_rng (Encryption.encrypt (Js.or_else base32 "") (encryption_key config)) ;;
               backupCodes <- with_rng (generateBackupCodes 10) ;;
               encryptedBackupCodes <-
                 with_rng (encryptEach backupCodes (encryption_key config)) ;;
               Prisma.user_update (User.id user)
                 (fun u => User.set_backupCodes (Some (StringArray encryptedBackupCodes))
                             (User.set_mfaSecret (Some encryptedSecret) u)) ;;;
               let qrCodeUrl := toDataURL (Js.or_else otpauth_url "") in
               ret (mkResponse 200 (BMfaSetup base32 qrCodeUrl (Some backupCodes)))
           end
       end)
      "MFA setup failed").

(** POST /mfa/enable *)
Definition post_mfa_enable (req : Request string) (now : Z)
  : World -> World * Response :=
  authenticated req now (fun reqUserId =>
    handler
      (if negb (isLength 6 (Some 6) (body req))
       then ret (mkResponse 400 (BErrors ["code"]))
       else
         match AuthService.truthy_field reqUserId with
         | None => ret (mkResponse 401 (BError "Unauthorized"))
         | Some userId =>
             let code := body req in
             user <- Prisma.user_findUnique_id userId ;;
             match user with
             | None => ret (mkResponse 400 (BError "MFA not set up"))
             | Some user =>
                 match AuthService.truthy_field (User.mfaSecret user) with
                 | None => ret (mkResponse 400 (BError "MFA not set up"))
                 | Some stored =>
                     mfaSecret <- lift (Encryption.decrypt stored (encryption_key config)) ;;
                     let isValid := totp_verify mfaSecret code 2 now in
                     if negb isValid
                     then ret (mkResponse 401 (BError "Invalid verification code"))
                     else
                       Prisma.user_update (User.id user) (User.set_mfaEnabled true) ;;;
                       ret (mkResponse 200 (BMessage "MFA enabled successfully"))
                 end
             end
         end)
      "Failed to enable MFA").

(** POST /logout *)
Definition post_logout (req : Request unit) (now : Z)
  : World -> World * Response :=
  authenticated req now (fun _ =>
    handler
      (match authorization req with
       | Some authHeader =>
           if Js.truthy authHeader && Js.startsWith "Bearer " authHeader
           then TokenService.revokeSession (Js.substring_from 7 authHeader)
           else ret tt
       | None => ret tt
       end ;;;
       ret (mkResponse 200 (BMessage "Logged out successfully")))
      "Logout failed").

(** POST /logout-all *)
Definition post_logout_all (req : Request unit) (now : Z)
  : World -> World * Response :=
  authenticated req now (fun reqUserId =>
    handler
      (match AuthService.truthy_field reqUserId with
       | None => ret (mkResponse 401 (BError "Unauthorized"))
       | Some userId =>
           TokenService.revokeAllSessions userId ;;;
           ret (mkResponse 200 (BMessage "Logged out from all devices"))
       end)
      "Logout failed").

(** POST /password/reset; the body is the email. *)
Definition post_password_reset (req : Request string) (now : Z)
  : World -> World * Response :=
  handler
    (if negb (isEmail (body req)) then ret (mkResponse 400 (BErrors ["email"]))
     else
       let email := normalizeEmail (body req) in
       user <- Prisma.user_findUnique_email email ;;
       match user with
       | Some user =>
           match User.deletedAt user with
           | None =>
               resetToken <- AuthService.createPasswordResetToken (User.id user) now ;;
               lift (sendPasswordResetEmail (User.email user) resetToken
                       (AuthService.truthy_field (User.name user)))
           | Some _ => ret tt
           end
       | None => ret tt
       end ;;;
       ret (mkResponse 200
              (BMessage "If an account exists, a password reset email has been sent.")))
    "Failed to process password reset request".

(** DELETE /devices/:deviceId; the body is the path parameter. *)
Definition delete_device (req : Request string) (now : Z)
  : World -> World * Response :=
  authenticated req now (fun reqUserId =>
    handler
      (match AuthService.truthy_field reqUserId with
       | None => ret (mkResponse 401 (BError "Unauthorized"))
       | Some userId =>
           let deviceId := body req in
           TokenService.revokeDeviceSessions userId deviceId ;;;
           Prisma.device_deleteMany
             (fun x => String.eqb (Device.id x) deviceId
                       && String.eqb (Device.userId x) userId) ;;;
           ret (mkResponse 200 (BMessage "Device removed"))
       end)
      "Failed to remove device").

End Routes.
End Routes.

(** ** controllers/authController.ts *)

Module AuthController.
Section AuthController.
Context `{NodeCrypto} `{Jsonwebtoken} `{Speakeasy} `{PasswordHasher}
          `{JsonCodec} `{QrCode} `{EmailService} `{Js.Builtins}.
Variable config : Config.

Definition validationFailed {B} (req : Request B) : option Response :=
  match validationErrors req with
  | [] => None
  | errors => Some (mkResponse 400 (BErrors errors))
  end.

(** The session-issuing tail shared by register, login and verifyMfa:
    device id, [createSession], [recordDevice]. *)
Definition issueSession {B} (req : Request B) (userId : string)
           (deviceInfo : option DeviceInfo) (now : Z) : M (string * string) :=
  deviceId <- headerDeviceId req ;;
  let ipAddress := Js.or_else (string_of_option (ip req) "") "unknown" in
  let userAgent := Js.or_else (string_of_option (user_agent req) "") "unknown" in
  tokens <- TokenService.createSession config userId deviceId (Some ipAddress)
              userAgent now ;;
  AuthService.recordDevice userId deviceId deviceInfo req now ;;;
  ret tokens.

Definition register (req : Request RegisterBody) (now : Z)
  : World -> World * Response :=
  handler
    (match validationFailed req with
     | Some r => ret r
     | None =>
         let email := Js.toLowerCase (rb_email (body req)) in
         existingUser <- Prisma.user_findUnique_email email ;;
         match existingUser with
         | Some _ => ret (mkResponse 409 (BError "Email already registered"))
         | None =>
             passwordHash <- with_rng (hashPassword (rb_password (body req))) ;;
             (* new Date(), then setDate(getDate() + 14) *)
             let trialEndsAt := Js.setDate_plus 14 now in
             user <- Prisma.user_create
                       (fun i => User.mk i email (Some passwordHash)
                                   (Some (rb_name (body req)))
                                   (rb_businessName (body req)) (rb_tradeType (body req))
                                   "FREE" "TRIAL" (Some trialEndsAt)
                                   false None None None None None None None None) ;;
             ' (accessToken, refreshToken) <-
               issueSession req (User.id user) (rb_deviceInfo (body req)) now ;;
             try_catch
               (lift (sendWelcomeEmail (User.email user)
                        (Js.or_else (string_of_option (User.name user) "") "there")))
               (fun emailError => ret tt) ;;;
             ret (mkResponse 201
                    (BSession "Registration successful"
                       (mkUserSummary (User.id user) (User.email user) (User.name user)
                          (User.subscriptionTier user)
                          (Some (User.subscriptionStatus user))
                          (Some (User.trialEndsAt user)) None)
                       accessToken refreshToken))
         end
     end)
    "Registration failed".

Definition login (req : Request LoginBody) (now : Z)
  : World -> World * Response :=
  handler
    (match validationFailed req with
     | Some r => ret r
     | None =>
         let email := lb_email (body req) in
         let password := lb_password (body req) in
         let deviceInfo := lb_deviceInfo (body req) in
         user <- Prisma.user_findUnique_email (Js.toLowerCase email) ;;
         match user with
         | None => ret (mkResponse 401 (BError "Invalid email or password"))
         | Some user =>
             match AuthService.truthy_field (User.passwordHash user) with
             | None => ret (mkResponse 401 (BError "Invalid email or password"))
             | Some passwordHash =>
                 let isValid := verifyPassword password passwordHash in
                 if negb isValid
                 then ret (mkResponse 401 (BError "Invalid email or password"))
                 else
                   match User.deletedAt user with
                   | Some _ => ret (mkResponse 401 (BError "Account has been deactivated"))
                   | None =>
                       if User.mfaEnabled user
                       then
                         tempToken <- TokenService.createTemporaryToken config
                                        (User.id user) now ;;
                         ret (mkResponse 200 (BMfaChallenge tempToken))
                       else
                         ' (accessToken, refreshToken) <-
                           issueSession req (User.id user) deviceInfo now ;;
                         Prisma.user_update (User.id user)
                           (User.set_lastLoginAt (Some now)) ;;;
                         ret (mkResponse 200
                                (BSession "Login successful"
                                   (mkUserSummary (User.id user) (User.email user)
                                      (User.name user) (User.subscriptionTier user)
                                      (Some (User.subscriptionStatus user)) None
                                      (Some (User.mfaEnabled user)))
                                   accessToken refreshToken))
                   end
             end
         end
     end)
    "Login failed".

(** Truthiness of the stored column, and the text [JSON.parse] reads from
    it (an array is converted with [toString]). *)
Definition column_truthy (c : BackupCodes) : bool :=
  match c with
  | JsonText s => Js.truthy s
  | StringArray _ => true
  end.

Definition column_text (c : BackupCodes) : string :=
  match c with
  | JsonText s => s
  | StringArray l => Js.join "," l
  end.

(** [x === code] for an array element [x] *)
Definition is_code (code : string) (x : JsonValue) : bool :=
  match x with
  | JString s => String.eqb s code
  | _ => false
  end.

Definition invalidMfaCode : Response := mkResponse 401 (BError "Invalid MFA code").

(** The backup-code branch of [verifyMfa]: [Some r] when the handler
    answers [r] and returns, [None] when it goes on to issue the session. *)
Definition checkBackupCodes (user : User.t) (code : string) : M (option Response) :=
  match User.backupCodes user with
  | None => ret (Some invalidMfaCode)
  | Some column =>
      if negb (column_truthy column) then ret (Some invalidMfaCode)
      else
        match JSON_parse (column_text column) with
        | None => throw (Error "SyntaxError")
        | Some (JArray backupCodes) =>
            match Js.indexOf (is_code code) backupCodes with
            | Some codeIndex =>
                Prisma.user_update (User.id user)
                  (User.set_backupCodes
                     (Some (JsonText (JSON_stringify
                                        (JArray (Js.splice1 codeIndex backupCodes)))))) ;;;
                ret None
            | None => ret (Some invalidMfaCode)
            end
        | Some (JString s) =>
            (* a string has indexOf but no splice *)
            if Js.contains code s then throw (Error "TypeError")
            else ret (Some invalidMfaCode)
        | Some _ => throw (Error "TypeError")
        end
  end.

(** The end of [verifyMfa], once the code was accepted: session, device,
    last login, answer. *)
Definition completeMfa (req : Request VerifyMfaBody) (user : User.t) (now : Z)
  : M Response :=
  ' (accessToken, refreshToken) <-
    issueSession req (User.id user) (vb_deviceInfo (body req)) now ;;
  Prisma.user_update (User.id user) (User.set_lastLoginAt (Some now)) ;;;
  ret (mkResponse 200
         (BSession "MFA verification successful"
            (mkUserSummary (User.id user) (User.email user)
               (User.name user) (User.subscriptionTier user)
               None None None)
            accessToken refreshToken)).

Definition verifyMfa (req : Request VerifyMfaBody) (now : Z)
  : World -> World * Response :=
  handler
    (let tempToken := vb_tempToken (body req) in
     let code := vb_code (body req) in
     userId <- TokenService.verifyTemporaryToken config tempToken now ;;
     match AuthService.truthy_field userId with
     | None => ret (mkResponse 401 (BError "Invalid or expired token"))
     | Some userId =>
         user <- Prisma.user_findUnique_id userId ;;
         match user with
         | None => ret (mkResponse 401 (BError "MFA not configured"))
         | Some user =>
             match AuthService.truthy_field (User.mfaSecret user) with
             | None => ret (mkResponse 401 (BError "MFA not configured"))
             | Some stored =>
                 decryptedSecret <-
                   lift (Encryption.decrypt stored (encryption_key config)) ;;
                 let isValid := totp_verify decryptedSecret code 1 now in
                 answered <- (if negb isValid then checkBackupCodes user code
                              else ret None) ;;
                 match answered with
                 | Some r => ret r
                 | None => completeMfa req user now
                 end
             end
         end
     end)
    "MFA verification failed".

(** [setupMfa]; [userId] is [req.userId!] and [userEmail] is
    [req.user?.email]. *)
Definition setupMfa (userId : string) (userEmail : option string) (now : Z)
  : World -> World * Response :=
  handler
    (' (base32, otpauth_url) <-
       with_rng (generateSecret
                   ("Wyndo (" ++ string_of_option userEmail "undefined" ++ ")") 32) ;;
     let qrCode := toDataURL otpauth_url in
     encryptedSecret <- with_rng (Encryption.encrypt base32 (encryption_key config)) ;;
     Prisma.user_update userId (User.set_mfaSecret (Some encryptedSecret)) ;;;
     ret (mkResponse 200 (BMfaSetup base32 qrCode None)))
    "MFA setup failed".

(** [enableMfa]; [userId] is [req.userId!]. *)
Definition enableMfa (userId : string) (code : string) (now : Z)
  : World -> World * Response :=
  handler
    (user <- Prisma.user_findUnique_id userId ;;
     match user with
     | None => ret (mkResponse 400 (BError "Please setup MFA first"))
     | Some user =>
         match AuthService.truthy_field (User.mfaSecret user) with
         | None => ret (mkResponse 400 (BError "Please setup MFA first"))
         | Some stored =>
             decryptedSecret <-
               lift (Encryption.decrypt stored (encryption_key config)) ;;
             let isValid := totp_verify decryptedSecret code 1 now in
             if negb isValid
             then ret (mkResponse 401 (BError "Invalid code"))
             else
               backupCodes <- with_rng (generateBackupCodes 10) ;;
               Prisma.user_update userId
                 (fun u => User.set_backupCodes
                             (Some (JsonText (JSON_stringify (string_array backupCodes))))
                             (User.set_mfaEnabled true u)) ;;;
               try_catch
                 (lift (sendMfaBackupCodesEmail (User.email user) backupCodes
                          (AuthService.truthy_field (User.name user))))
                 (fun emailError => ret tt) ;;;
               ret (mkResponse 200 (BMfaEnabled "MFA enabled successfully"
                                      (Some backupCodes)))
         end
     end)
    "Failed to enable MFA".

Definition refreshToken (req : Request string) (now : Z)
  : World -> World * Response :=
  handler
    (if negb (Js.truthy (body req))
     then ret (mkResponse 400 (BError "Refresh token required"))
     else
       result <- TokenService.refreshSession config (body req) now ;;
       match result with
       | None => ret (mkResponse 401 (BError "Invalid refresh token"))
       | Some (accessToken, refreshToken) =>
           ret (mkResponse 200 (BTokens accessToken refreshToken))
       end)
    "Token refresh failed".

Definition confirmPasswordReset (req : Request ResetConfirmBody) (now : Z)
  : World -> World * Response :=
  handler
    (let token := rc_token (body req) in
     let password := rc_password (body req) in
     userId <- AuthService.verifyPasswordResetToken token now ;;
     match userId with
     | None => ret (mkResponse 400 (BError "Invalid or expired reset token"))
     | Some userId =>
         passwordHash <- with_rng (hashPassword password) ;;
         Prisma.user_update userId
           (fun u => User.set_passwordResetTokenExpiry None
                       (User.set_passwordResetTokenHash None
                          (User.set_passwordHash (Some passwordHash) u))) ;;;
         TokenService.revokeAllSessions userId ;;;
         ret (mkResponse 200
                (BMessage "Password reset successful. Please login with your new password."))
     end)
    "Password reset failed".

(** [disableMfa]; [userId] is [req.userId!]. *)
Definition disableMfa (userId password code : string) (now : Z)
  : World -> World * Response :=
  handler
    (user <- Prisma.user_findUnique_id userId ;;
     match user with
     | None => ret (mkResponse 400 (BError "User not found"))
     | Some user =>
         match AuthService.truthy_field (User.passwordHash user) with
         | None => ret (mkResponse 400 (BError "User not found"))
         | Some passwordHash =>
             let isValidPassword := verifyPassword password passwordHash in
             if negb isValidPassword
             then ret (mkResponse 401 (BError "Invalid password"))
             else
               rejected <-
                 match AuthService.truthy_field (User.mfaSecret user) with
                 | Some stored =>
                     decryptedSecret <-
                       lift (Encryption.decrypt stored (encryption_key config)) ;;
                     let isValid := totp_verify decryptedSecret code 1 now in
                     ret (negb isValid)
                 | None => ret false
                 end ;;
               if (rejected : bool)
               then ret (mkResponse 401 (BError "Invalid MFA code"))
               else
                 Prisma.user_update userId
                   (fun u => User.set_backupCodes None
                               (User.set_mfaSecret None
                                  (User.set_mfaEnabled false u))) ;;;
                 ret (mkResponse 200 (BMessage "MFA disabled successfully"))
         end
     end)
    "Failed to disable MFA".

(** [logout]: the header is not checked for the Bearer scheme. *)
Definition logout {B} (req : Request B) : World -> World * Response :=
  handler
    (match authorization req with
     | Some authHeader =>
         if Js.truthy authHeader
         then TokenService.revokeSession (Js.substring_from 7 authHeader)
         else ret tt
     | None => ret tt
     end ;;;
     ret (mkResponse 200 (BMessage "Logged out successfully")))
    "Logout failed".

(** [logoutAll]; [userId] is [req.userId!]. *)
Definition logoutAll (userId : string) : World -> World * Response :=
  handler
    (TokenService.revokeAllSessions userId ;;;
     ret (mkResponse 200 (BMessage "Logged out from all devices")))
    "Logout failed".

Definition resetRequested : Response :=
  mkResponse 200 (BMessage "If an account exists, a password reset email has been sent").

(** [requestPasswordReset]; the body is the email. *)
Definition requestPasswordReset (req : Request string) (now : Z)
  : World -> World * Response :=
  handler
    (user <- Prisma.user_findUnique_email (Js.toLowerCase (body req)) ;;
     match user with
     | None => ret resetRequested
     | Some user =>
         resetToken <- AuthService.createPasswordResetToken (User.id user) now ;;
         try_catch
           (lift (sendPasswordResetEmail (User.email user) resetToken
                    (AuthService.truthy_field (User.name user))))
           (fun emailError => ret tt) ;;;
         ret resetRequested
     end)
    "Password reset request failed".

(** [changePassword]; [userId] is [req.userId!]. *)
Definition changePassword (userId currentPassword newPassword : string)
  : World -> World * Response :=
  handler
    (user <- Prisma.user_findUnique_id userId ;;
     match user with
     | None => ret (mkResponse 400 (BError "User not found"))
     | Some user =>
         match AuthService.truthy_field (User.passwordHash user) with
         | None => ret (mkResponse 400 (BError "User not found"))
         | Some storedHash =>
             let isValid := verifyPassword currentPassword storedHash in
             if negb isValid
             then ret (mkResponse 401 (BError "Current password is incorrect"))
             else
               passwordHash <- with_rng (hashPassword newPassword) ;;
               Prisma.user_update userId (User.set_passwordHash (Some passwordHash)) ;;;
               ret (mkResponse 200 (BMessage "Password changed successfully"))
         end
     end)
    "Failed to change password".

(** [removeDevice]; [userId] is [req.userId!], [deviceId] the path
    parameter. *)
Definition removeDevice (userId deviceId : string) : World -> World * Response :=
  handler
    (Prisma.device_deleteMany (Prisma.device_key userId deviceId) ;;;
     Prisma.session_deleteMany
       (fun s => String.eqb (Session.userId s) userId
                 && match Session.deviceInfo s with
                    | Some d => String.eqb d deviceId
                    | None => false
                    end) ;;;
     ret (mkResponse 200 (BMessage "Device removed")))
    "Failed to remove device".

End AuthController.
End AuthController.

(** ** middleware/subscription.ts and services/subscriptionService.ts

    Both look a tier name up in an object literal. A name that is not a key
    of the literal yields [undefined], unless [Object.prototype] has a
    property of that name ('constructor', 'toString', ...), in which case
    the lookup yields that inherited function or object. A comparison
    converts such a value to a string: against a number the string is not
    a number and the comparison is false; two of them are compared as
    strings. *)

Class JsObject : Type := {
  (** [name in Object.prototype] *)
  inheritedKey : string -> bool;
  (** [Object.prototype[a] < Object.prototype[b]] *)
  inheritedLt : string -> string -> bool
}.

(** A number, or the value inherited under a key. *)
Inductive Level : Type :=
| Num (z : Z)
| InheritedValue (key : string).

(** [a < b] and [a >= b] *)
Definition level_lt `{JsObject} (a b : Level) : bool :=
  match a, b with
  | Num x, Num y => (x <? y)%Z
  | InheritedValue x, InheritedValue y => inheritedLt x y
  | _, _ => false
  end.

Definition level_ge `{JsObject} (a b : Level) : bool :=
  match a, b with
  | Num x, Num y => (y <=? x)%Z
  | InheritedValue x, InheritedValue y => negb (inheritedLt x y)
  | _, _ => false
  end.

Module Subscription.
Section Subscription.
Context `{JsObject}.

(** The own keys of [tierHierarchy]. *)
Definition tierHierarchy (tier : string) : option Z :=
  if String.eqb tier "FREE" then Some 0%Z
  else if String.eqb tier "PROFESSIONAL" then Some 1%Z
  else if String.eqb tier "BUSINESS" then Some 2%Z
  else if String.eqb tier "ENTERPRISE" then Some 3%Z
  else None.

(** [tierHierarchy[tier] || 0] *)
Definition tierLevel (tier : string) : Level :=
  match tierHierarchy tier with
  | Some n => Num n
  | None => if inheritedKey tier then InheritedValue tier else Num 0
  end.

Inductive Outcome : Type :=
| Next
| AuthenticationRequired                       (* 401 *)
| UpgradeRequired (requiredTier currentTier : string).   (* 403 *)

(** [requireTier(minTier)] on a request whose [req.user] has the tier
    [userTier], if any. *)
Definition requireTier (minTier : string) (userTier : option string) : Outcome :=
  match userTier with
  | None => AuthenticationRequired
  | Some userTier =>
      if level_lt (tierLevel userTier) (tierLevel minTier)
      then UpgradeRequired minTier userTier
      else Next
  end.

Definition hasTierAccess (userTier requiredTier : string) : bool :=
  level_ge (tierLevel userTier) (tierLevel requiredTier).

End Subscription.
End Subscription.

Module SubscriptionService.
Section SubscriptionService.
Context `{JsObject}.

(** [config.subscription.freeTierLimits] *)
Definition maxCustomers : Z := 30.
Definition maxJobsPerMonth : Z := 15.
Definition maxStorageGB : Z := 1.

(** The value found under a tier name in a table of limits whose FREE
    entry is [free] and whose other three entries are null: a number, null
    (also for [undefined ?? null]), or an inherited value. *)
Inductive Limit : Type :=
| Limited (n : Z)
| Unlimited                                    (* null *)
| Inherited.

Definition limitOf (free : Z) (tier : string) : Limit :=
  if String.eqb tier "FREE" then Limited free
  else if String.eqb tier "PROFESSIONAL" || String.eqb tier "BUSINESS"
          || String.eqb tier "ENTERPRISE" then Unlimited
  else if inheritedKey tier then Inherited
  else Unlimited.

(** [{allowed, limit}] *)
Definition check (free : Z) (tier : string) (currentCount : Z) : bool * Limit :=
  match limitOf free tier with
  | Unlimited => (true, Unlimited)
  | Limited n => ((currentCount <? n)%Z, Limited n)
  | Inherited => (false, Inherited)
  end.

Definition checkCustomerLimit (tier : string) (currentCount : Z) : bool * Limit :=
  check maxCustomers tier currentCount.

(** [{allowed, limit, current}]; the date argument is not used. *)
Definition checkJobLimit (tier : string) (currentCount : Z) : bool * Limit * Z :=
  (check maxJobsPerMonth tier currentCount, currentCount).

Record TierLimits : Type := mkTierLimits {
  tl_maxCustomers : option Z;
  tl_maxJobsPerMonth : option Z;
  tl_maxStorageGB : Z;
  tl_maxTeamMembers : Z
}.

Definition freeLimits : TierLimits :=
  mkTierLimits (Some maxCustomers) (Some maxJobsPerMonth) maxStorageGB 1.

(** [tierLimits[tier] || tierLimits.FREE]; [None] stands for an inherited
    value, which is no limits object. *)
Definition getTierLimits (tier : string) : option TierLimits :=
  if String.eqb tier "FREE" then Some freeLimits
  else if String.eqb tier "PROFESSIONAL" then Some (mkTierLimits None None 10 1)
  else if String.eqb tier "BUSINESS" then Some (mkTierLimits None None 50 5)
  else if String.eqb tier "ENTERPRISE" then Some (mkTierLimits None None (-1) (-1))
  else if inheritedKey tier then None
  else Some freeLimits.

End SubscriptionService.
End SubscriptionService.

(** ** A reference platform

    Small executable stand-ins for the library interfaces (not the real
    algorithms), used to run the handlers on concrete requests. The mail
    service is the one of services/emailService.ts. *)

Module Reference.

Definition H (s : string) : string := Hex.toHex (list_byte_of_string s).
Definition unH (h : string) : string := string_of_list_byte (Hex.fromHex h).

Definition bytes_eqb (a b : list byte) : bool :=
  String.eqb (string_of_list_byte a) (string_of_list_byte b).

Definition crypto : NodeCrypto := {|
  pbkdf2Sync := fun password salt _ _ => (list_byte_of_string password ++ salt)%list;
  gcm_seal := fun key iv p => (rev p, (key ++ iv)%list);
  gcm_open := fun key iv tag text =>
                if Nat.odd (String.length text)
                then inr ("The argument 'encoding' is invalid for data of length "
                          ++ NilEmpty.string_of_uint (Nat.to_uint (String.length text))
                          ++ ". Received 'hex'")
                else if bytes_eqb tag (key ++ iv)%list then inl (rev (Hex.fromHex text))
                else inr "Unsupported state or unable to authenticate data";
  sha256_hex := H;
  uuid_of_bytes := Hex.toHex
|}.

Fixpoint pos_code (p : positive) : string :=
  match p with
  | xH => EmptyString
  | xO q => String "0" (pos_code q)
  | xI q => String "1" (pos_code q)
  end.

Fixpoint pos_decode (s : string) : positive :=
  match s with
  | EmptyString => xH
  | String c r => if Ascii.eqb c "0" then xO (pos_decode r) else xI (pos_decode r)
  end.

Definition z_code (z : Z) : string :=
  match z with
  | Z0 => "z"
  | Zpos p => String "p" (pos_code p)
  | Zneg p => String "n" (pos_code p)
  end.

Definition z_decode (s : string) : Z :=
  match s with
  | String c r =>
      if Ascii.eqb c "p" then Zpos (pos_decode r)
      else if Ascii.eqb c "n" then Zneg (pos_decode r)
      else Z0
  | EmptyString => Z0
  end.

Definition exp_code (e : option Z) : string :=
  match e with
  | Some z => z_code z
  | None => "x"
  end.

Definition exp_decode (s : string) : option Z :=
  if String.eqb s "x" then None else Some (z_decode s).

Definition jwt : Jsonwebtoken := {|
  jws_sign := fun p key =>
    H (Jwt.userId p) ++ ":" ++ H (Jwt.type p) ++ ":" ++ H (z_code (Jwt.iat p))
    ++ ":" ++ H (exp_code (Jwt.exp p)) ++ ":" ++ H key;
  jws_verify := fun token key =>
    match Js.split ":" token with
    | [u; t; i; e; k] =>
        if String.eqb (unH k) key
        then Some (Jwt.mkPayload (unH u) (unH t) (z_decode (unH i)) (exp_decode (unH e)))
        else None
    | _ => None
    end
|}.

(** The last [n] decimal digits of [z]. *)
Fixpoint digits (n : nat) (z : Z) : string :=
  match n with
  | O => EmptyString
  | S k => digits k (z / 10) ++ String (ascii_of_N (48 + Z.to_N (z mod 10))) EmptyString
  end.

Definition speakeasy : Speakeasy := {|
  hotp_check := fun secret counter token =>
    String.eqb token (digits 6 (counter + Z.of_nat (String.length secret)));
  generateSecret := fun name length r =>
    let (b, r') := randomBytes length r in
    ((Hex.toHex b, "otpauth://totp/" ++ name), r')
|}.

Definition hasher : PasswordHasher := {|
  hashPassword := fun password r =>
    let (salt, r') := randomBytes 2 r in
    (Hex.toHex salt ++ "$" ++ password, r');
  verifyPassword := fun password hash =>
    String.eqb (String.substring 5 (String.length hash - 5) hash) password
|}.

Fixpoint items_text (items : list JsonValue) : string :=
  match items with
  | [] => EmptyString
  | v :: rest =>
      match v with
      | JString s => H s
      | _ => EmptyString
      end ++ "," ++ items_text rest
  end.

Definition json : JsonCodec := {|
  JSON_stringify := fun v =>
    match v with
    | JArray items => String "J" (items_text items)
    | _ => "null"
    end;
  JSON_parse := fun text =>
    match text with
    | String c rest =>
        if Ascii.eqb c "J"
        then Some (JArray (map (fun f => JString (unH f))
                             (removelast (Js.split "," rest))))
        else None
    | EmptyString => None
    end
|}.

Definition validator : Validator := {|
  isEmail := Js.contains "@";
  normalizeEmail := Js.fold_ascii;
  trim := fun s => s;
  isLength := fun min max s =>
    (min <=? String.length s)%nat
    && match max with
       | Some m => (String.length s <=? m)%nat
       | None => true
       end
|}.

Definition qrcode : QrCode := {| toDataURL := fun url => "data:image/png;" ++ url |}.

(** services/emailService.ts under the default configuration. *)
Definition emailService : EmailService := EmailServiceTs.service defaultConfig.

(** The built-ins of a process whose time zone is UTC, on ASCII strings. *)
Definition builtins : Js.Builtins := {|
  Js.toLowerCase := Js.fold_ascii;
  Js.setDate_plus := fun n t => (t + n * 86400000)%Z
|}.

(** A mail service whose transport is down. *)
Definition failingEmailService : EmailService := {|
  sendWelcomeEmail := fun _ _ => Throw (Error "ECONNREFUSED");
  sendPasswordResetEmail := fun _ _ _ => Throw (Error "ECONNREFUSED");
  sendMfaBackupCodesEmail := fun _ _ _ => Throw (Error "ECONNREFUSED")
|}.

(** An entropy tape that counts. *)
Definition counting : Rng :=
  mkRng (fun n => match Byte.of_nat (n mod 256) with Some b => b | None => x00 end) 0.

(** An entropy tape that repeats one byte. *)
Definition stuck : Rng := mkRng (fun _ => x2a) 0.

Definition emptyDb : Db := mkDb [] [] [].

(** The properties of [Object.prototype], each converted to a string the
    way a comparison does. *)
Definition prototypeText (key : string) : string :=
  if String.eqb key "__proto__" then "[object Object]"
  else if String.eqb key "constructor" then "function Object() { [native code] }"
  else "function " ++ key ++ "() { [native code] }".

Definition object : JsObject := {|
  inheritedKey := fun key =>
    existsb (String.eqb key)
      ["constructor"; "toString"; "toLocaleString"; "valueOf"; "hasOwnProperty";
       "isPrototypeOf"; "propertyIsEnumerable"; "__proto__"; "__defineGetter__";
       "__defineSetter__"; "__lookupGetter__"; "__lookupSetter__"];
  inheritedLt := fun a b => String.ltb (prototypeText a) (prototypeText b)
|}.

End Reference.

(** ** Statements about stores *)

(** The password of [uid] was reset to [newHash] between [w] and [w']: the
    rows of [uid] carry the new hash and no reset token, a row of [uid]
    exists, no session of [uid] remains, and the sessions of other users
    are the ones there were. *)
Definition password_reset_applied (uid newHash : string) (w w' : World) : Prop :=
  (forall v, In v (users (db w')) -> User.id v = uid ->
             User.passwordHash v = Some newHash
             /\ User.passwordResetTokenHash v = None
             /\ User.passwordResetTokenExpiry v = None)
  /\ (exists v, In v (users (db w')) /\ User.id v = uid)
  /\ (forall x, In x (sessions (db w')) -> Session.userId x <> uid)
  /\ (forall x, Session.userId x <> uid ->
                In x (sessions (db w')) <-> In x (sessions (db w))).

(** [codes] without the first occurrence of [code]. *)
Fixpoint without_first (code : string) (codes : list string) : list string :=
  match codes with
  | [] => []
  | c :: rest => if String.eqb c code then rest else c :: without_first code rest
  end.

(** The rows of [uid] in [w] hold the secret [stored] and the backup codes
    [codes] (as the JSON text the controller writes), and there is such a
    row. *)
Definition holds_codes `{JsonCodec} (uid stored : string) (codes : list string)
           (w : World) : Prop :=
  exists u, find (fun v => String.eqb (User.id v) uid) (users (db w)) = Some u
            /\ User.mfaSecret u = Some stored
            /\ User.backupCodes u = Some (JsonText (JSON_stringify (string_array codes))).

(** The submitted [token] is the code of [secret] at a time step at most
    [n] steps away from the step of [now]. *)
Definition within_steps `{Speakeasy} (n : Z) (secret token : string) (now : Z) : Prop :=
  exists d : Z, (- n <= d <= n)%Z
                /\ hotp_check secret (totp_counter now + d)%Z token = true.

Section ResetWorld.
Context `{Hasher : PasswordHasher}.

Definition reset_data (newHash : string) (u : User.t) : User.t :=
  User.set_passwordResetTokenExpiry None
    (User.set_passwordResetTokenHash None
       (User.set_passwordHash (Some newHash) u)).

(** The world after a confirmed reset. *)
Definition reset_world (uid password : string) (w : World) : World :=
  mkWorld
    (mkDb (map (fun v => if String.eqb (User.id v) uid
                         then reset_data (fst (hashPassword password (rng w))) v else v)
               (users (db w)))
          (filter (fun x => negb (String.eqb (Session.userId x) uid)) (sessions (db w)))
          (devices (db w)))
    (snd (hashPassword password (rng w))).

End ResetWorld.

(** ** Sample data on the reference platform *)

Module Sample.

Definition now : Z := 1700000000000.

Definition key : string := encryption_key defaultConfig.

(** The TOTP secret of the sample users, and its stored form. *)
Definition secret : string := "JBSWY3DPEHPK3PXP".

Definition storedSecret : string :=
  fst (@Encryption.encrypt Reference.crypto secret key Reference.counting).

Definition codes : list string := ["A1B2C3D4"; "0F0F0F0F"; "DEADBEEF"].

Definition user (id email : string) (mfaEnabled : bool) (deletedAt : option Z) : User.t :=
  User.mk id email (Some "0001$Passw0rd!") (Some "Sample") None None
    "FREE" "TRIAL" (Some (now + 14 * day)%Z)
    mfaEnabled
    (if mfaEnabled then Some storedSecret else None)
    (if mfaEnabled
     then Some (JsonText (@JSON_stringify Reference.json (string_array codes)))
     else None)
    None None deletedAt None None None.

Definition alice : User.t := user "u-alice" "alice@x.com" true None.
Definition bob : User.t := user "u-bob" "bob@x.com" false None.
(** An MFA user whose account was deactivated. *)
Definition carol : User.t := user "u-carol" "carol@x.com" true (Some 1690000000000%Z).

Definition session (id userId refreshToken : string) : Session.t :=
  Session.mk id userId
    (@TokenService.generateAccessToken Reference.jwt defaultConfig userId (now - 60000)%Z)
    refreshToken (Some "device-1") (Some "203.0.113.7") "Mozilla/5.0 (Macintosh)"
    (now - 60000)%Z (now - 60000)%Z (now + 7 * day - 60000)%Z.

(** A user who has set MFA up and not enabled it yet. *)
Definition dave : User.t :=
  User.set_mfaSecret (Some storedSecret) (user "u-dave" "dave@x.com" false None).

Definition world : World :=
  mkWorld (mkDb [alice; bob; carol; dave]
                [session "s-1" "u-alice" "rt-alice";
                 session "s-2" "u-carol" "rt-carol";
                 session "s-3" "u-alice" "rt-alice-2";
                 session "s-4" "u-bob" "rt-bob"]
                [])
          Reference.counting.

Definition request {B} (b : B) : Request B :=
  mkRequest b (Some "203.0.113.7") (Some "Mozilla/5.0 (Macintosh)") (Some "device-1")
            None [].

Definition bearer {B} (b : B) (token : string) : Request B :=
  mkRequest b (Some "203.0.113.7") (Some "Mozilla/5.0 (Macintosh)") (Some "device-1")
            (Some ("Bearer " ++ token)) [].

(** The access token a user holds at [now]. *)
Definition accessToken (userId : string) : string :=
  @TokenService.generateAccessToken Reference.jwt defaultConfig userId now.

(** The code of the sample secret [d] time steps away from [now]. *)
Definition codeAt (d : Z) : string :=
  Reference.digits 6 (totp_counter now + d + Z.of_nat (String.length secret)).

(** Alice has asked for a password reset. *)
Definition resetRequested : World * Result string :=
  @AuthService.createPasswordResetToken Reference.crypto "u-alice" now world.

Definition resetWorld : World := fst resetRequested.

Definition resetToken : string :=
  match snd resetRequested with
  | Ok token => token
  | Throw _ => EmptyString
  end.

Definition resetUser : User.t := hd alice (users (db resetWorld)).

Definition erin : RegisterBody :=
  mkRegisterBody "erin@x.com" "Passw0rd!" "Erin" None None None.

End Sample.

(** ** Further statements *)

(** The number of occurrences of [sep] in [s]. *)
Fixpoint count_char (sep : ascii) (s : string) : nat :=
  match s with
  | EmptyString => 0
  | String c r => (if Ascii.eqb c sep then 1 else 0) + count_char sep r
  end.

(** Every character of [s] satisfies [p]. *)
Fixpoint all_chars (p : ascii -> bool) (s : string) : bool :=
  match s with
  | EmptyString => true
  | String c r => p c && all_chars p r
  end.

(** [0-9A-F] *)
Definition is_upper_hex_char (c : ascii) : bool :=
  let n := N_of_ascii c in
  (((48 <=? n) && (n <=? 57)) || ((65 <=? n) && (n <=? 70)))%N.

(** Eight characters, each in [0-9A-F]. *)
Definition backup_code_format (code : string) : bool :=
  Nat.eqb (String.length code) 8 && all_chars is_upper_hex_char code.

(** The session [s] was created for the device [deviceId]. *)
Definition bound_to (deviceId : string) (s : Session.t) : bool :=
  match Session.deviceInfo s with
  | Some d => String.eqb d deviceId
  | None => false
  end.

(** The session [s] is bound to the device [deviceId] of the user [userId]. *)
Definition on_device (userId deviceId : string) (s : Session.t) : bool :=
  String.eqb (Session.userId s) userId && bound_to deviceId s.

(** The (userId, deviceId) pairs of the device rows. *)
Definition device_keys (d : Db) : list (string * string) :=
  map (fun x => (Device.userId x, Device.deviceId x)) (devices d).

(** A user with MFA enabled has a stored secret. *)
Definition secret_stored (v : User.t) : Prop :=
  User.mfaEnabled v = true ->
  exists stored, User.mfaSecret v = Some stored /\ Js.truthy stored = true.

Definition mfa_consistent (d : Db) : Prop :=
  forall v, In v (users d) -> secret_stored v.

(** User ids are unique and every user with MFA enabled has a stored
    secret. *)
Definition mfa_invariant (d : Db) : Prop :=
  NoDup (map User.id (users d)) /\ mfa_consistent d.

(** The tier name is no key of the tier table and names a property of
    [Object.prototype]. *)
Definition inherited_tier `{JsObject} (tier : string) : bool :=
  match Subscription.tierHierarchy tier with
  | Some _ => false
  | None => inheritedKey tier
  end.

(** The rank of a tier name, 0 for a name that is not in the table. *)
Definition tier_rank (tier : string) : Z :=
  match Subscription.tierHierarchy tier with
  | Some n => n
  | None => 0
  end.

(** The subscription is one the bearer middleware lets through. *)
Definition subscription_ok (u : User.t) : bool :=
  String.eqb (User.subscriptionTier u) "FREE"
  || String.eqb (User.subscriptionStatus u) "ACTIVE"
  || String.eqb (User.subscriptionStatus u) "TRIAL".

(** * Properties *)

(** Case analysis on an innermost scrutinee of the goal. *)
Ltac split_match :=
  match goal with
  | |- context [match ?x with _ => _ end] =>
      lazymatch x with
      | context [match _ with _ => _ end] => fail
      | _ => destruct x; cbv beta iota; cbn [db rng users sessions devices fst snd]
      end
  end.

(** Unfolding of the monad's operations. *)
Ltac mrun :=
  cbv beta iota zeta delta
      [bind ret throw lift try_catch get_db put_db with_rng handler].

(** ** Hex encoding and splitting *)

Lemma fromHex_byte_to_hex (b : byte) (k : string) :
  Hex.fromHex (Hex.byte_to_hex b k) = b :: Hex.fromHex k.
Proof. destruct b; reflexivity. Qed.

Lemma fromHex_toHex (l : list byte) : Hex.fromHex (Hex.toHex l) = l.
Proof.
  induction l as [|b l IH]; [reflexivity|].
  cbn [Hex.toHex]. rewrite fromHex_byte_to_hex. now rewrite IH.
Qed.

Lemma is_hex_byte_to_hex (b : byte) (k : string) :
  Hex.is_hex (Hex.byte_to_hex b k) = Hex.is_hex k.
Proof. destruct b; reflexivity. Qed.

Lemma is_hex_toHex (l : list byte) : Hex.is_hex (Hex.toHex l) = true.
Proof.
  induction l as [|b l IH]; [reflexivity|].
  cbn [Hex.toHex]. now rewrite is_hex_byte_to_hex.
Qed.

Lemma length_toHex (l : list byte) : String.length (Hex.toHex l) = 2 * List.length l.
Proof.
  induction l as [|b l IH]; [reflexivity|].
  cbn [Hex.toHex Hex.byte_to_hex String.length List.length]. lia.
Qed.

Lemma toHex_inj (l l' : list byte) : Hex.toHex l = Hex.toHex l' -> l = l'.
Proof.
  intros E. rewrite <- (fromHex_toHex l), <- (fromHex_toHex l'). now rewrite E.
Qed.

(** A hexadecimal digit is not the separator. *)
Lemma is_hex_char_not_colon (c : ascii) :
  Hex.is_hex_char c = true -> Ascii.eqb c ":" = false.
Proof.
  destruct (Ascii.eqb c ":") eqn:E; [|reflexivity].
  apply Ascii.eqb_eq in E. subst c. discriminate.
Qed.

Lemma split_hex (s : string) :
  Hex.is_hex s = true -> Js.split ":" s = [s].
Proof.
  induction s as [|c s IH]; [reflexivity|].
  cbn [Hex.is_hex Js.split]. intros E. apply andb_true_iff in E as [Ec Es].
  rewrite (is_hex_char_not_colon c Ec), (IH Es). reflexivity.
Qed.

Lemma split_hex_cons (s rest : string) :
  Hex.is_hex s = true ->
  Js.split ":" (s ++ ":" ++ rest) = s :: Js.split ":" rest.
Proof.
  induction s as [|c s IH]; [reflexivity|].
  cbn [Hex.is_hex]. intros E. apply andb_true_iff in E as [Ec Es].
  change ((String c s ++ ":" ++ rest)%string) with (String c (s ++ ":" ++ rest)).
  cbn [Js.split]. rewrite (is_hex_char_not_colon c Ec), (IH Es). reflexivity.
Qed.

(** ** The symmetric encryptor *)

Section EncryptionFacts.
Context `{Crypto : NodeCrypto}.

Lemma split_seal_blob (iv salt : list byte) (text key : string) :
    let derivedKey := pbkdf2Sync key salt 100000%N 32%N in
    let sealed := gcm_seal derivedKey iv (list_byte_of_string text) in
    Js.split ":" (Encryption.seal_blob iv salt text key)
    = [Hex.toHex salt; Hex.toHex iv; Hex.toHex (snd sealed); Hex.toHex (fst sealed)].
Proof.
    cbv zeta. unfold Encryption.seal_blob.
    rewrite !split_hex_cons by apply is_hex_toHex.
    now rewrite split_hex by apply is_hex_toHex.
Qed.

Lemma decrypt_seal_blob `{!NodeCryptoLaws} (iv salt : list byte) (text key : string) :
    Encryption.decrypt (Encryption.seal_blob iv salt text key) key = Ok text.
Proof.
    unfold Encryption.decrypt. rewrite split_seal_blob.
    rewrite !fromHex_toHex, gcm_open_seal.
    now rewrite string_of_list_byte_of_string.
Qed.

Lemma seal_blob_inj (iv salt iv' salt' : list byte) (text key : string) :
    Encryption.seal_blob iv salt text key = Encryption.seal_blob iv' salt' text key ->
    iv = iv' /\ salt = salt'.
Proof.
    intros E. apply (f_equal (Js.split ":")) in E.
    rewrite !split_seal_blob in E. injection E as Es Ei _ _.
    split; now apply toHex_inj.
Qed.

Lemma encrypt_eq (text key : string) (r : Rng) :
    Encryption.encrypt text key r
    = (Encryption.seal_blob (fst (randomBytes 16 r))
         (fst (randomBytes 64 (snd (randomBytes 16 r)))) text key,
       mkRng (tape r) (cursor r + 16 + 64)).
Proof. reflexivity. Qed.

Lemma decrypt_encrypt `{!NodeCryptoLaws} (text key : string) (r : Rng) :
    Encryption.decrypt (fst (Encryption.encrypt text key r)) key = Ok text.
Proof. rewrite encrypt_eq. apply decrypt_seal_blob. Qed.

End EncryptionFacts.

Lemma reference_crypto_laws : @NodeCryptoLaws Reference.crypto.
Proof.
  constructor. intros key iv p. unfold gcm_open, gcm_seal, Reference.crypto.
  cbn [fst snd]. unfold Reference.bytes_eqb.
  rewrite length_toHex, Nat.odd_even, String.eqb_refl, fromHex_toHex.
  now rewrite rev_involutive.
Qed.

Lemma randomBytes_split (n m : nat) (r : Rng) :
  fst (randomBytes (n + m) r)
  = (fst (randomBytes n r) ++ fst (randomBytes m (snd (randomBytes n r))))%list.
Proof. unfold randomBytes. cbn. now rewrite seq_app, map_app. Qed.

Lemma app_eq_length {A} (a a' b b' : list A) :
  List.length a = List.length a' -> (a ++ b = a' ++ b')%list -> a = a' /\ b = b'.
Proof.
  revert a'. induction a as [|x a IH]; intros [|y a']; cbn; try discriminate.
  - auto.
  - intros L E. injection L as L. injection E as -> E.
    destruct (IH _ L E) as [-> ->]. auto.
Qed.

Lemma length_randomBytes (n : nat) (r : Rng) : List.length (fst (randomBytes n r)) = n.
Proof. unfold randomBytes. cbn. now rewrite length_map, length_seq. Qed.

(** C7. With authenticated decryption undoing authenticated encryption,
    [decrypt (encrypt p k) k] is [p] for every plaintext and key; the blob
    is the four hex fields salt (64 bytes), iv (16 bytes), auth tag and
    ciphertext joined by ':' and splits back into exactly these; and two
    successive calls [encrypt p k] give the same blob exactly when the
    entropy source returns the same eighty bytes to both, so they differ
    whenever the drawn iv or salt differ. *)
Theorem encrypt_decrypt_roundtrip `{Crypto : NodeCrypto} `{!NodeCryptoLaws}
        (p k : string) (r : Rng) :
  let first := Encryption.encrypt p k r in
  let second := Encryption.encrypt p k (snd first) in
  Encryption.decrypt (fst first) k = Ok p
  /\ (exists salt iv tag ct : list byte,
         List.length salt = 64 /\ List.length iv = 16
         /\ fst first = Js.join ":" [Hex.toHex salt; Hex.toHex iv; Hex.toHex tag; Hex.toHex ct]
         /\ Js.split ":" (fst first)
            = [Hex.toHex salt; Hex.toHex iv; Hex.toHex tag; Hex.toHex ct]
         /\ forallb Hex.is_hex (Js.split ":" (fst first)) = true)
  /\ (fst first = fst second
      <-> fst (randomBytes 80 r) = fst (randomBytes 80 (snd first))).
Proof.
  cbv zeta. split; [apply decrypt_encrypt|]. split.
  - rewrite encrypt_eq. cbn [fst].
    set (iv := fst (randomBytes 16 r)).
    set (salt := fst (randomBytes 64 (snd (randomBytes 16 r)))).
    exists salt, iv.
    eexists. eexists.
    split; [apply length_randomBytes|]. split; [apply length_randomBytes|].
    split; [reflexivity|]. split; [apply split_seal_blob|].
    rewrite split_seal_blob. cbn [forallb]. now rewrite !is_hex_toHex.
  - rewrite !encrypt_eq. cbn [fst snd].
    change 80 with (16 + 64).
    rewrite !randomBytes_split. split.
    + intros E. apply seal_blob_inj in E as [Ei Es].
      cbn [randomBytes fst snd tape cursor] in *. now rewrite Ei, Es.
    + intros E. apply app_eq_length in E; [|now rewrite !length_randomBytes].
      destruct E as [Ei Es].
      cbn [randomBytes fst snd tape cursor] in *. now rewrite Ei, Es.
Qed.

Lemma encrypt_decrypt_roundtrip_witness :
  @NodeCryptoLaws Reference.crypto
  /\ (let first := @Encryption.encrypt Reference.crypto "JBSWY3DPEHPK3PXP" "k3y"
                     Reference.counting in
      let second := @Encryption.encrypt Reference.crypto "JBSWY3DPEHPK3PXP" "k3y"
                      (snd first) in
      @Encryption.decrypt Reference.crypto (fst first) "k3y" = Ok "JBSWY3DPEHPK3PXP"
      /\ List.length (Js.split ":" (fst first)) = 4
      /\ fst first <> fst second).
Proof.
  split; [exact reference_crypto_laws|].
  destruct (@encrypt_decrypt_roundtrip Reference.crypto reference_crypto_laws
              "JBSWY3DPEHPK3PXP" "k3y" Reference.counting) as [R [_ D]].
  cbv zeta. split; [exact R|]. split; [reflexivity|].
  intros E. apply D in E. vm_compute in E. discriminate E.
Defined.

(** ** The reference platform satisfies the laws *)

Lemma unH_H (s : string) : Reference.unH (Reference.H s) = s.
Proof.
  unfold Reference.unH, Reference.H.
  now rewrite fromHex_toHex, string_of_list_byte_of_string.
Qed.

Lemma is_hex_H (s : string) : Hex.is_hex (Reference.H s) = true.
Proof. apply is_hex_toHex. Qed.

Lemma pos_decode_code (p : positive) : Reference.pos_decode (Reference.pos_code p) = p.
Proof. induction p as [p IH|p IH|]; cbn; now rewrite ?IH. Qed.

Lemma z_decode_code (z : Z) : Reference.z_decode (Reference.z_code z) = z.
Proof. destruct z; cbn; now rewrite ?pos_decode_code. Qed.

Lemma exp_decode_code (e : option Z) : Reference.exp_decode (Reference.exp_code e) = e.
Proof.
  destruct e as [z|]; [|reflexivity].
  unfold Reference.exp_decode, Reference.exp_code.
  destruct z; cbn; now rewrite ?pos_decode_code.
Qed.

Lemma reference_jwt_laws : @JsonwebtokenLaws Reference.jwt.
Proof.
  constructor. intros [u t i e] key. cbn [jws_sign jws_verify Reference.jwt
    Jwt.userId Jwt.type Jwt.iat Jwt.exp].
  rewrite !split_hex_cons by apply is_hex_H.
  rewrite split_hex by apply is_hex_H.
  rewrite !unH_H, String.eqb_refl, z_decode_code, exp_decode_code. reflexivity.
Qed.

(** ** Temporary MFA tokens *)

Section TempTokenFacts.
Context `{J : Jsonwebtoken}.
Variable config : Config.

Lemma jwt_verify_Ok (t secret : string) (now : Z) (p : Jwt.Payload) :
  jwt_verify t secret now = Ok p
  <-> jws_verify t secret = Some p
      /\ (forall e, Jwt.exp p = Some e -> (clockTimestamp now < e)%Z).
Proof.
  unfold jwt_verify. destruct (jws_verify t secret) as [q|].
  - destruct (Jwt.exp q) as [e|] eqn:Ee.
    + destruct (Z.leb_spec e (clockTimestamp now)) as [L|L]; split.
      * discriminate.
      * intros [[= ->] B]. specialize (B e Ee). lia.
      * intros [= ->]. split; [reflexivity|]. intros e' E'.
        rewrite Ee in E'. injection E' as <-. exact L.
      * now intros [[= ->] _].
    + split.
      * intros [= ->]. split; [reflexivity|]. intros e' E'. congruence.
      * now intros [[= ->] _].
  - split; [discriminate|]. now intros [? _].
Qed.

Lemma verifyTempToken_Some (t : string) (now : Z) (uid : string) :
  TokenService.verifyTempToken config t now = Some uid
  <-> exists p, jws_verify t (jwt_secret config) = Some p
             /\ (forall e, Jwt.exp p = Some e -> (clockTimestamp now < e)%Z)
             /\ Jwt.type p = "mfa_temp" /\ Jwt.userId p = uid.
Proof.
  unfold TokenService.verifyTempToken.
  destruct (jwt_verify t (jwt_secret config) now) as [p|x] eqn:V.
  - apply jwt_verify_Ok in V as [V B].
    destruct (String.eqb_spec (Jwt.type p) "mfa_temp") as [T|T]; cbn [negb]; split.
    + intros [= <-]. exists p. auto.
    + intros (q & Vq & _ & _ & <-). congruence.
    + discriminate.
    + intros (q & Vq & _ & Tq & _). congruence.
  - split; [discriminate|]. intros (q & Vq & B & _).
    assert (E : jwt_verify t (jwt_secret config) now = Ok q) by (apply jwt_verify_Ok; auto).
    congruence.
Qed.

Lemma verifyTempToken_createTempToken `{!JsonwebtokenLaws} (uid : string) (issued now : Z) :
  TokenService.verifyTempToken config (TokenService.createTempToken config uid issued) now
  = if (clockTimestamp now <? clockTimestamp issued + 600)%Z then Some uid else None.
Proof.
  unfold TokenService.verifyTempToken, TokenService.createTempToken, jwt_sign, jwt_verify.
  rewrite jws_verify_sign. cbn [Jwt.exp Jwt.type Jwt.userId].
  destruct (Z.leb_spec (clockTimestamp issued + 600) (clockTimestamp now));
    destruct (Z.ltb_spec (clockTimestamp now) (clockTimestamp issued + 600));
    try lia; reflexivity.
Qed.

End TempTokenFacts.

(** C9. [verifyTemporaryToken t] returns the embedded userId exactly when
    [t] carries a valid signature under the configured secret, is within
    its expiry and has type tag 'mfa_temp', and null otherwise; a token
    issued by [createTempToken] expires ten minutes (600 seconds) after it
    was issued; verification reads and writes no state, so the same token
    verifies again, in any state of the store, until that expiry. *)
Theorem verifyTemporaryToken_spec `{J : Jsonwebtoken} `{!JsonwebtokenLaws}
        (config : Config) :
  (forall t now uid,
      TokenService.verifyTempToken config t now = Some uid
      <-> exists p, jws_verify t (jwt_secret config) = Some p
                 /\ (forall e, Jwt.exp p = Some e -> (clockTimestamp now < e)%Z)
                 /\ Jwt.type p = "mfa_temp" /\ Jwt.userId p = uid)
  /\ (forall t now,
         (forall uid, TokenService.verifyTempToken config t now <> Some uid)
         -> TokenService.verifyTempToken config t now = None)
  /\ (forall uid issued now,
         TokenService.verifyTempToken config
           (TokenService.createTempToken config uid issued) now
         = if (clockTimestamp now <? clockTimestamp issued + 600)%Z
           then Some uid else None)
  /\ (forall t now w,
         TokenService.verifyTemporaryToken config t now w
         = (w, Ok (TokenService.verifyTempToken config t now))).
Proof.
  repeat apply conj.
  - intros t now uid. exact (verifyTempToken_Some config t now uid).
  - intros t now N. destruct (TokenService.verifyTempToken config t now) as [u|];
      [now destruct (N u)|reflexivity].
  - intros uid issued now. exact (verifyTempToken_createTempToken config uid issued now).
  - reflexivity.
Qed.

Lemma verifyTemporaryToken_spec_witness :
  let token := @TokenService.createTempToken Reference.jwt defaultConfig "user-1" 1700000000000 in
  @TokenService.verifyTempToken Reference.jwt defaultConfig token 1700000599999 = Some "user-1"
  /\ @TokenService.verifyTempToken Reference.jwt defaultConfig token 1700000600000 = None
  /\ @TokenService.verifyTempToken Reference.jwt defaultConfig
       (@TokenService.generateAccessToken Reference.jwt defaultConfig "user-1" 1700000000000)
       1700000000000 = None.
Proof.
  destruct (@verifyTemporaryToken_spec Reference.jwt reference_jwt_laws defaultConfig)
    as (_ & _ & I & _).
  cbv zeta. rewrite !I. repeat split; vm_compute; reflexivity.
Defined.

(** ** List facts used for the store *)

Lemma find_none_all {A} (p : A -> bool) (l : list A) :
  (forall x, In x l -> p x = false) -> find p l = None.
Proof.
  induction l as [|a l IH]; [reflexivity|]. intros N. cbn.
  rewrite (N a (or_introl eq_refl)). apply IH. intros x I. apply N. now right.
Qed.

Lemma find_In {A} (p : A -> bool) (l : list A) (a : A) :
  find p l = Some a -> In a l /\ p a = true.
Proof. apply find_some. Qed.

Lemma NoDup_map_eq {A B} (f : A -> B) (l : list A) (a b : A) :
  NoDup (map f l) -> In a l -> In b l -> f a = f b -> a = b.
Proof.
  induction l as [|x l IH]; [contradiction|].
  cbn [map]. intros N Ia Ib E. inversion N as [|? ? Nx Nl]; subst.
  destruct Ia as [->|Ia], Ib as [->|Ib]; auto.
  - exfalso. apply Nx. rewrite E. now apply in_map.
  - exfalso. apply Nx. rewrite <- E. now apply in_map.
Qed.

Lemma existsb_false_all {A} (p : A -> bool) (l : list A) :
  (forall x, In x l -> p x = false) -> existsb p l = false.
Proof.
  induction l as [|a l IH]; [reflexivity|]. intros N. cbn.
  rewrite (N a (or_introl eq_refl)). apply IH. intros x I. apply N. now right.
Qed.

(** ** Refresh-token rotation *)

Section RefreshFacts.
Context `{J : Jsonwebtoken}.
Variable config : Config.

Lemma refresh_unknown (rt : string) (now : Z) (w : World) :
  find (fun v => String.eqb (Session.refreshToken v) rt) (sessions (db w)) = None ->
  TokenService.refreshAccessToken config rt now w = (w, Ok None).
Proof.
  intros F. unfold TokenService.refreshAccessToken, Prisma.session_findUnique_refreshToken,
    bind, get_db, ret. now rewrite F.
Qed.

Lemma refresh_rotates (rt : string) (now : Z) (w : World) (s : Session.t) :
  let newRT := Hex.toHex (fst (randomBytes 32 (rng w))) in
  let access := TokenService.generateAccessToken config (Session.userId s) now in
  find (fun v => String.eqb (Session.refreshToken v) rt) (sessions (db w)) = Some s ->
  (now <= Session.expiresAt s)%Z ->
  ~ In newRT (map Session.refreshToken (sessions (db w))) ->
  TokenService.refreshAccessToken config rt now w
  = (mkWorld
       (mkDb (users (db w))
             (map (fun v => if String.eqb (Session.id v) (Session.id s)
                            then Prisma.session_data access newRT now v else v)
                  (sessions (db w)))
             (devices (db w)))
       (snd (randomBytes 32 (rng w))),
     Ok (Some (access, newRT))).
Proof.
  intros newRT access F E N.
  destruct (find_In _ _ _ F) as [I _].
  unfold TokenService.refreshAccessToken, Prisma.session_findUnique_refreshToken,
    TokenService.generateRefreshToken, Prisma.session_update,
    bind, get_db, put_db, ret, with_rng, throw.
  rewrite F.
  destruct (Z.ltb_spec (Session.expiresAt s) now) as [L|_]; [lia|].
  cbn [randomBytes db rng fst snd].
  destruct (find (fun s0 => String.eqb (Session.id s0) (Session.id s)) (sessions (db w)))
    as [s'|] eqn:Fi.
  - rewrite existsb_false_all; [reflexivity|].
    intros v Iv. apply andb_false_iff. right.
    apply String.eqb_neq. intros Ev. apply N. subst newRT.
    cbn [randomBytes fst]. rewrite <- Ev. now apply in_map.
  - exfalso. apply find_none with (x := s) in Fi; [|exact I].
    now rewrite String.eqb_refl in Fi.
Qed.

(** What an access token carries: the user, the type and the clock second
    of its issue. Two access tokens are the same string exactly when they
    are for the same user and were signed in the same clock second. *)
Lemma generateAccessToken_verify `{!JsonwebtokenLaws} (uid : string) (now : Z) :
  jws_verify (TokenService.generateAccessToken config uid now) (jwt_secret config)
  = Some (Jwt.mkPayload uid "access" (clockTimestamp now)
            (Some (clockTimestamp now + jwt_accessTokenExpiry config)%Z)).
Proof. unfold TokenService.generateAccessToken, jwt_sign. apply jws_verify_sign. Qed.

Lemma generateAccessToken_eq_iff `{!JsonwebtokenLaws} (uid uid' : string) (now now' : Z) :
  TokenService.generateAccessToken config uid now
  = TokenService.generateAccessToken config uid' now'
  <-> uid' = uid /\ clockTimestamp now' = clockTimestamp now.
Proof.
  split.
  - intros E. apply (f_equal (fun t => jws_verify t (jwt_secret config))) in E.
    rewrite !generateAccessToken_verify in E. injection E as E1 E2 _. now split.
  - intros [-> E]. unfold TokenService.generateAccessToken, jwt_sign. now rewrite E.
Qed.

End RefreshFacts.

(** C1, as stated, fails within one clock second: the access token is
    signed from the user and the second of the clock only, so a session
    created at [Sample.now] and refreshed 400 ms later gets back the access
    token it already had. Only the refresh token is new. *)
Lemma refresh_same_second_counterexample :
  let later := (Sample.now + 400)%Z in
  exists w1 access rt w2 rt',
    @TokenService.createSession Reference.crypto Reference.jwt defaultConfig
      "u-bob" "device-9" None "Mozilla/5.0" Sample.now Sample.world
    = (w1, Ok (access, rt))
    /\ @TokenService.refreshAccessToken Reference.jwt defaultConfig rt later w1
       = (w2, Ok (Some (access, rt')))
    /\ rt' <> rt
    /\ map Session.token
         (filter (fun v => String.eqb (Session.refreshToken v) rt') (sessions (db w2)))
       = [access].
Proof.
  cbv zeta. do 5 eexists.
  split; [vm_compute; reflexivity|].
  split; [vm_compute; reflexivity|].
  split; [intros E; vm_compute in E; discriminate E|].
  vm_compute. reflexivity.
Qed.

(** C1, amended. For a session whose stored refresh token is [rt] and which
    has not expired, in a store whose refresh tokens are unique and with a
    freshly drawn token that is not in the store, [refresh(rt)] succeeds:
    it returns an access token signed for the session's user at the
    current clock second, and the drawn refresh token, which differs from
    [rt]. The access token is the same string as an access token signed
    for the same user in the same clock second, and differs from every
    other access token. The session row is overwritten in place with both
    (no row is added or removed); and afterwards [refresh(rt)] with the
    old value returns null, at any later time. *)
Theorem refresh_token_single_use `{J : Jsonwebtoken} `{!JsonwebtokenLaws}
        (config : Config) (w : World) (rt : string) (now : Z) (s : Session.t) :
  let newRT := Hex.toHex (fst (randomBytes 32 (rng w))) in
  let access := TokenService.generateAccessToken config (Session.userId s) now in
  find (fun v => String.eqb (Session.refreshToken v) rt) (sessions (db w)) = Some s ->
  (now <= Session.expiresAt s)%Z ->
  NoDup (map Session.refreshToken (sessions (db w))) ->
  ~ In newRT (map Session.refreshToken (sessions (db w))) ->
  exists w',
    TokenService.refreshAccessToken config rt now w = (w', Ok (Some (access, newRT)))
    /\ jws_verify access (jwt_secret config)
       = Some (Jwt.mkPayload (Session.userId s) "access" (clockTimestamp now)
                 (Some (clockTimestamp now + jwt_accessTokenExpiry config)%Z))
    /\ (forall uid issued,
          access = TokenService.generateAccessToken config uid issued
          <-> uid = Session.userId s /\ clockTimestamp issued = clockTimestamp now)
    /\ newRT <> rt
    /\ sessions (db w')
       = map (fun v => if String.eqb (Session.id v) (Session.id s)
                       then Prisma.session_data access newRT now v else v)
             (sessions (db w))
    /\ In (Prisma.session_data access newRT now s) (sessions (db w'))
    /\ users (db w') = users (db w)
    /\ forall now', TokenService.refreshAccessToken config rt now' w' = (w', Ok None).
Proof.
  intros newRT access F E U N.
  destruct (find_In _ _ _ F) as [I Ert]. apply String.eqb_eq in Ert.
  assert (D : newRT <> rt).
  { intros ->. apply N. rewrite <- Ert. now apply in_map. }
  eexists. split; [exact (refresh_rotates config rt now w s F E N)|].
  split; [exact (generateAccessToken_verify config _ _)|].
  split; [intros uid issued; exact (generateAccessToken_eq_iff config _ _ _ _)|].
  cbn [db sessions users].
  repeat apply conj; try reflexivity.
  - exact D.
  - apply in_map_iff. exists s. now rewrite String.eqb_refl.
  - intros now'. apply refresh_unknown. cbn [db sessions].
    apply find_none_all. intros x Ix. apply in_map_iff in Ix as (v & <- & Iv).
    apply String.eqb_neq.
    destruct (String.eqb_spec (Session.id v) (Session.id s)) as [Ei|Ei].
    + cbn. auto.
    + intros Ev. apply Ei. f_equal.
      apply (NoDup_map_eq Session.refreshToken (sessions (db w))); auto. congruence.
Qed.

(** ** Bearer authentication *)

Lemma substring_all (s : string) : String.substring 0 (String.length s) s = s.
Proof. induction s as [|c s IH]; [reflexivity|]. cbn. now rewrite IH. Qed.

Lemma bearer_token (t : string) : Js.substring_from 7 ("Bearer " ++ t) = t.
Proof. unfold Js.substring_from. cbn. rewrite Nat.sub_0_r. apply substring_all. Qed.

Lemma bearer_prefix (t : string) : Js.startsWith "Bearer " ("Bearer " ++ t) = true.
Proof. unfold Js.startsWith. cbn. now destruct t. Qed.

Section AuthenticateFacts.
Context `{J : Jsonwebtoken} `{!JsonwebtokenLaws}.
Variable config : Config.

(** A bearer token of a soft-deleted user is answered 401. *)
Lemma authenticate_deleted {B} (req : Request B) (now issued : Z) (d : Db)
      (uid : string) (u : User.t) (deleted : Z) :
  let access := TokenService.generateAccessToken config uid issued in
  authorization req = Some ("Bearer " ++ access) ->
  find (fun v => String.eqb (User.id v) uid) (users d) = Some u ->
  User.deletedAt u = Some deleted ->
  Middleware.authenticate config req now d
  = Middleware.Responded
      (mkResponse 401
         (BError (if (clockTimestamp issued + jwt_accessTokenExpiry config
                      <=? clockTimestamp now)%Z
                  then "Invalid token" else "User not found"))).
Proof.
  intros access A F D. unfold Middleware.authenticate. rewrite A.
  rewrite bearer_prefix, bearer_token. cbn [Js.truthy append negb orb].
  unfold access, TokenService.generateAccessToken, jwt_sign, jwt_verify.
  rewrite jws_verify_sign. cbn [Jwt.exp Jwt.userId].
  destruct (_ <=? _)%Z; [reflexivity|]. cbn [Jwt.userId]. now rewrite F, D.
Qed.

End AuthenticateFacts.

(** C10. Refresh never reads the user: for a stored session whose
    [expiresAt] is in the future (and a freshly drawn token that is not in
    the store), refresh of its refresh token succeeds with new tokens
    whatever the users table holds, in particular when the owning user's
    [deletedAt] is set; the users table is left as it was; and bearer
    authentication with the access token just issued answers 401 for that
    soft-deleted user ('User not found' while the token is unexpired). *)
Theorem refresh_ignores_soft_delete `{J : Jsonwebtoken}
        `{!JsonwebtokenLaws} (config : Config) (w : World) (rt : string) (now : Z)
        (s : Session.t) (u : User.t) (deleted : Z) :
  let newRT := Hex.toHex (fst (randomBytes 32 (rng w))) in
  let access := TokenService.generateAccessToken config (Session.userId s) now in
  find (fun v => String.eqb (Session.refreshToken v) rt) (sessions (db w)) = Some s ->
  (now < Session.expiresAt s)%Z ->
  ~ In newRT (map Session.refreshToken (sessions (db w))) ->
  find (fun v => String.eqb (User.id v) (Session.userId s)) (users (db w)) = Some u ->
  User.deletedAt u = Some deleted ->
  (forall us : list User.t,
      snd (TokenService.refreshAccessToken config rt now
             (mkWorld (mkDb us (sessions (db w)) (devices (db w))) (rng w)))
      = Ok (Some (access, newRT)))
  /\ exists w',
      TokenService.refreshAccessToken config rt now w = (w', Ok (Some (access, newRT)))
      /\ users (db w') = users (db w)
      /\ forall B (req : Request B),
          authorization req = Some ("Bearer " ++ access) ->
          Middleware.authenticate config req now (db w')
          = Middleware.Responded
              (mkResponse 401
                 (BError (if (0 <? jwt_accessTokenExpiry config)%Z
                          then "User not found" else "Invalid token"))).
Proof.
  intros newRT access F E N Fu D. split.
  - intros us.
    rewrite (refresh_rotates config rt now
               (mkWorld (mkDb us (sessions (db w)) (devices (db w))) (rng w)) s);
      cbn [db sessions rng]; auto; lia.
  - eexists. split; [apply (refresh_rotates config rt now w s); auto; lia|].
    split; [reflexivity|]. cbn [db]. intros B req A.
    etransitivity;
      [eapply (authenticate_deleted config req now now) with (u := u) (deleted := deleted);
       [exact A|exact Fu|exact D]|].
    do 3 f_equal.
    destruct (Z.leb_spec (clockTimestamp now + jwt_accessTokenExpiry config)
                         (clockTimestamp now));
      destruct (Z.ltb_spec 0 (jwt_accessTokenExpiry config)); try lia; reflexivity.
Qed.

(** ** Password reset *)

Lemma find_some_in {A} (p : A -> bool) (l : list A) (a : A) :
  In a l -> p a = true -> exists b, find p l = Some b.
Proof.
  intros I P. destruct (find p l) as [b|] eqn:F; [now exists b|].
  apply find_none with (x := a) in F; [congruence|exact I].
Qed.

Section ResetFacts.
Context `{Crypto : NodeCrypto} `{Hasher : PasswordHasher}.

Lemma reset_world_applied (uid password : string) (w : World) (u : User.t) :
  In u (users (db w)) -> User.id u = uid ->
  password_reset_applied uid (fst (hashPassword password (rng w))) w
    (reset_world uid password w).
Proof.
  intros I E. unfold password_reset_applied, reset_world. cbn [db users sessions].
  repeat apply conj.
  - intros v Iv Ev. apply in_map_iff in Iv as (x & <- & Ix).
    destruct (String.eqb_spec (User.id x) uid) as [Ex|Ex]; [now cbn|contradiction].
  - exists (reset_data (fst (hashPassword password (rng w))) u). split; [|exact E].
    apply in_map_iff. exists u. split; [|exact I].
    rewrite E, String.eqb_refl. reflexivity.
  - intros x Ix. apply filter_In in Ix as [_ Ex].
    apply negb_true_iff, String.eqb_neq in Ex. exact Ex.
  - intros x Ex. rewrite filter_In. split; [now intros [? _]|].
    intros Ix. split; [exact Ix|]. now apply negb_true_iff, String.eqb_neq.
Qed.

Lemma verifyPasswordResetToken_valid (token : string) (now : Z) (w : World) (u : User.t) :
  find (Prisma.reset_matches (sha256_hex token) now) (users (db w)) = Some u ->
  Js.truthy (User.id u) = true ->
  AuthService.verifyPasswordResetToken token now w = (w, Ok (Some (User.id u))).
Proof.
  intros F T. unfold AuthService.verifyPasswordResetToken, Prisma.user_findFirst_reset,
    bind, get_db, ret. now rewrite F, T.
Qed.

(** What follows a valid token in both handlers. *)
Lemma reset_tail (uid password : string) (w : World) (u : User.t) (r : Response) :
  In u (users (db w)) -> User.id u = uid ->
  bind (with_rng (hashPassword password))
       (fun h => bind (Prisma.user_update uid
                         (fun v => User.set_passwordResetTokenExpiry None
                                     (User.set_passwordResetTokenHash None
                                        (User.set_passwordHash (Some h) v))))
                      (fun _ => bind (Prisma.session_deleteMany
                                        (fun x => String.eqb (Session.userId x) uid))
                                     (fun _ => ret r))) w
  = (reset_world uid password w, Ok r).
Proof.
  intros I E.
  destruct (find_some_in (fun v => String.eqb (User.id v) uid) _ u I) as [b Fb];
    [rewrite E; apply String.eqb_refl|].
  unfold reset_world, reset_data.
  cbv beta iota zeta delta [bind with_rng Prisma.user_update Prisma.session_deleteMany
                            get_db put_db ret].
  destruct (hashPassword password (rng w)) as [h r'] eqn:Eh.
  cbn [db rng fst snd]. rewrite Fb. reflexivity.
Qed.

End ResetFacts.

(** C3. Given a valid, unexpired reset token (the store's first user whose
    stored reset-token hash is the token's SHA-256 and whose expiry is
    after now is [u]), password reset confirm answers 200 in both the
    router and the controller, and afterwards the rows of [u] carry the new
    password hash and neither reset-token hash nor expiry, and no session
    of [u] remains, while other users' sessions are untouched. *)
Theorem password_reset_confirm_revokes_sessions
        `{Crypto : NodeCrypto} `{Hasher : PasswordHasher} `{V : Validator}
        (req : Request ResetConfirmBody) (w : World) (now : Z) (u : User.t) :
  let token := rc_token (body req) in
  let password := rc_password (body req) in
  let newHash := fst (hashPassword password (rng w)) in
  find (Prisma.reset_matches (sha256_hex token) now) (users (db w)) = Some u ->
  Js.truthy (User.id u) = true ->
  (exists w',
      AuthController.confirmPasswordReset req now w
      = (w', mkResponse 200
               (BMessage "Password reset successful. Please login with your new password."))
      /\ password_reset_applied (User.id u) newHash w w')
  /\ (Routes.validateResetConfirm (body req) = [] ->
      exists w',
        Routes.post_password_reset_confirm req now w
        = (w', mkResponse 200 (BMessage "Password reset successfully"))
        /\ password_reset_applied (User.id u) newHash w w').
Proof.
  intros token password newHash F T.
  destruct (find_In _ _ _ F) as [I _].
  split; [|intros Val]; exists (reset_world (User.id u) password w);
    (split; [|now apply (reset_world_applied _ _ _ u)]).
  - unfold AuthController.confirmPasswordReset, handler, TokenService.revokeAllSessions.
    unfold bind at 1. fold token password.
    rewrite (verifyPasswordResetToken_valid token now w u F T).
    now rewrite (reset_tail (User.id u) password w u _ I eq_refl).
  - unfold Routes.post_password_reset_confirm, handler, TokenService.revokeAllSessions.
    rewrite Val. unfold bind at 1. fold token password.
    rewrite (verifyPasswordResetToken_valid token now w u F T).
    now rewrite (reset_tail (User.id u) password w u _ I eq_refl).
Qed.

(** ** Login of an MFA-enabled user *)

(** C2, as stated, fails for a deactivated account: carol has
    [mfaEnabled] and logs in with her correct password, and both handlers
    answer 401 instead of [{requiresMfa: true, tempToken}]. *)
Lemma login_mfa_enabled_counterexample :
  let req := Sample.request (mkLoginBody "carol@x.com" "Passw0rd!" None) in
  User.mfaEnabled Sample.carol = true
  /\ In Sample.carol (users (db Sample.world))
  /\ @verifyPassword Reference.hasher "Passw0rd!" "0001$Passw0rd!" = true
  /\ @Routes.post_login Reference.crypto Reference.jwt Reference.hasher
       Reference.validator defaultConfig req Sample.now Sample.world
     = (Sample.world, mkResponse 401 (BError "Invalid email or password"))
  /\ @AuthController.login Reference.crypto Reference.jwt Reference.hasher
       Reference.builtins defaultConfig req Sample.now Sample.world
     = (Sample.world, mkResponse 401 (BError "Account has been deactivated")).
Proof.
  cbv zeta. split; [reflexivity|]. split; [cbn; auto|].
  split; [reflexivity|]. split; vm_compute; reflexivity.
Qed.

(** C2, amended. For every user with [mfaEnabled] true, a login with the
    correct password leaves the whole state as it was (no Session row is
    created) and returns no access or refresh token: when the account is
    not deactivated the answer is exactly [{requiresMfa: true, tempToken}]
    with a freshly signed temporary token, and when it is deactivated the
    answer is a 401. This holds for the router and for the controller. *)
Theorem login_mfa_enabled_no_session
        `{Crypto : NodeCrypto} `{J : Jsonwebtoken} `{Hasher : PasswordHasher}
        `{V : Validator} `{Builtins : Js.Builtins}
        (config : Config) (req : Request LoginBody) (w : World) (now : Z)
        (u : User.t) (h : string) :
  User.mfaEnabled u = true ->
  User.passwordHash u = Some h ->
  Js.truthy h = true ->
  verifyPassword (lb_password (body req)) h = true ->
  (Routes.validateLogin (body req) = [] ->
   find (fun v => String.eqb (User.email v) (normalizeEmail (lb_email (body req))))
        (users (db w)) = Some u ->
   Routes.post_login config req now w
   = (w, match User.deletedAt u with
         | None => mkResponse 200
                     (BMfaChallenge (TokenService.createTempToken config (User.id u) now))
         | Some _ => mkResponse 401 (BError "Invalid email or password")
         end))
  /\ (validationErrors req = [] ->
      find (fun v => String.eqb (User.email v) (Js.toLowerCase (lb_email (body req))))
           (users (db w)) = Some u ->
      AuthController.login config req now w
      = (w, match User.deletedAt u with
            | None => mkResponse 200
                        (BMfaChallenge (TokenService.createTempToken config (User.id u) now))
            | Some _ => mkResponse 401 (BError "Account has been deactivated")
            end)).
Proof.
  intros M P T C. split.
  - intros Val F. unfold Routes.post_login. rewrite Val.
    unfold Prisma.user_findUnique_email. mrun. rewrite F.
    destruct (User.deletedAt u); [reflexivity|].
    rewrite P. cbn [AuthService.truthy_field]. rewrite T, C, M. reflexivity.
  - intros Val F. unfold AuthController.login, AuthController.validationFailed.
    rewrite Val. unfold Prisma.user_findUnique_email, TokenService.createTemporaryToken.
    mrun. rewrite F, P. cbn [AuthService.truthy_field]. rewrite T, C.
    destruct (User.deletedAt u); [reflexivity|]. rewrite M. reflexivity.
Qed.

(** ** TOTP windows *)

Lemma totp_verify_window `{S : Speakeasy} (secret token : string) (window : nat) (now : Z) :
  totp_verify secret token window now = true
  <-> exists d : Z, (- Z.of_nat window <= d <= Z.of_nat window)%Z
                    /\ hotp_check secret (totp_counter now + d)%Z token = true.
Proof.
  unfold totp_verify. rewrite existsb_exists. split.
  - intros (i & I & C). apply in_seq in I.
    exists (Z.of_nat i - Z.of_nat window)%Z. split; [lia|].
    rewrite <- C. f_equal. lia.
  - intros (d & B & C). exists (Z.to_nat (d + Z.of_nat window)). split.
    + apply in_seq. lia.
    + rewrite <- C. f_equal. lia.
Qed.

Lemma totp_verify_outside `{S : Speakeasy} (secret token : string) (window : nat) (now : Z) :
  totp_verify secret token window now = false
  <-> forall d : Z, (- Z.of_nat window <= d <= Z.of_nat window)%Z ->
                    hotp_check secret (totp_counter now + d)%Z token = false.
Proof.
  rewrite <- not_true_iff_false, totp_verify_window. split.
  - intros N d B. apply not_true_iff_false. intros C. apply N. now exists d.
  - intros A (d & B & C). rewrite (A d B) in C. discriminate.
Qed.

Section EnableFacts.
Context `{Crypto : NodeCrypto} `{J : Jsonwebtoken} `{S : Speakeasy}
        `{JS : JsonCodec} `{E : EmailService} `{V : Validator}.
Variable config : Config.

(** [AuthController.enableMfa] on a user with a stored secret. *)
Lemma controller_enableMfa_run (uid code : string) (now : Z) (w : World)
      (u : User.t) (stored secret : string) :
  find (fun v => String.eqb (User.id v) uid) (users (db w)) = Some u ->
  User.mfaSecret u = Some stored -> Js.truthy stored = true ->
  Encryption.decrypt stored (encryption_key config) = Ok secret ->
  let codes := fst (generateBackupCodes 10 (rng w)) in
  AuthController.enableMfa config uid code now w
  = if totp_verify secret code 1 now
    then (mkWorld
            (mkDb (map (fun v => if String.eqb (User.id v) uid
                                 then User.set_backupCodes
                                        (Some (JsonText (JSON_stringify (string_array codes))))
                                        (User.set_mfaEnabled true v)
                                 else v) (users (db w)))
                  (sessions (db w)) (devices (db w)))
            (snd (generateBackupCodes 10 (rng w))),
          mkResponse 200 (BMfaEnabled "MFA enabled successfully" (Some codes)))
    else (w, mkResponse 401 (BError "Invalid code")).
Proof.
  intros F Sec T D codes. unfold AuthController.enableMfa, Prisma.user_findUnique_id,
    Prisma.user_update.
  mrun. rewrite F, Sec. cbn [AuthService.truthy_field]. rewrite T, D.
  destruct (totp_verify secret code 1 now); cbn [negb]; [|reflexivity].
  subst codes. destruct (generateBackupCodes 10 (rng w)) as [cs r'].
  cbn [db rng fst snd]. rewrite F.
  destruct (sendMfaBackupCodesEmail _ _ _); reflexivity.
Qed.


End EnableFacts.

(** ** MFA verification *)

Section VerifyFacts.
Context `{Crypto : NodeCrypto} `{J : Jsonwebtoken} `{S : Speakeasy}
        `{JS : JsonCodec}.
Variable config : Config.

(** Issuing a session leaves the users table alone. *)
Lemma issueSession_users {B} (req : Request B) (uid : string)
      (deviceInfo : option DeviceInfo) (now : Z) (w : World) :
  users (db (fst (AuthController.issueSession config req uid deviceInfo now w)))
  = users (db w).
Proof.
  unfold AuthController.issueSession, headerDeviceId, TokenService.createSession,
    TokenService.generateRefreshToken, Prisma.session_create, Prisma.newId,
    AuthService.recordDevice, Prisma.device_upsert, Prisma.newId, randomBytes.
  mrun. repeat split_match; reflexivity.
Qed.

(** The end of [verifyMfa] answers 200 or throws, and changes the users
    table at most by the last-login stamp of [u]. *)
Lemma completeMfa_cases (req : Request VerifyMfaBody) (u : User.t) (now : Z) (w : World) :
  let out := AuthController.completeMfa config req u now w in
  ((exists a r, snd out = Ok (mkResponse 200
                                (BSession "MFA verification successful"
                                   (mkUserSummary (User.id u) (User.email u) (User.name u)
                                      (User.subscriptionTier u) None None None) a r)))
   \/ exists e, snd out = Throw e)
  /\ (users (db (fst out)) = users (db w)
      \/ users (db (fst out))
         = map (fun v => if String.eqb (User.id v) (User.id u)
                         then User.set_lastLoginAt (Some now) v else v)
               (users (db w))).
Proof.
  cbv zeta. unfold AuthController.completeMfa, Prisma.user_update.
  pose proof (issueSession_users req (User.id u) (vb_deviceInfo (body req)) now w) as K.
  mrun.
  destruct (AuthController.issueSession config req (User.id u)
              (vb_deviceInfo (body req)) now w) as [w1 [[a r]|e]]; cbn [fst] in K.
  - rewrite K.
    destruct (find _ (users (db w))); cbn [fst snd db users]; split; eauto.
  - cbn [fst snd]. split; eauto.
Qed.

End VerifyFacts.

(** ** Backup codes *)

Lemma indexOf_codes_none (code : string) (codes : list string) :
  ~ In code codes ->
  Js.indexOf (AuthController.is_code code) (map JString codes) = None.
Proof.
  induction codes as [|c codes IH]; [reflexivity|]. intros N. cbn.
  destruct (String.eqb_spec c code) as [->|_]; [exfalso; apply N; now left|].
  rewrite IH; [reflexivity|]. intros I. apply N. now right.
Qed.

Lemma indexOf_codes_some (code : string) (codes : list string) :
  In code codes ->
  exists i, Js.indexOf (AuthController.is_code code) (map JString codes) = Some i
            /\ Js.splice1 i (map JString codes) = map JString (without_first code codes).
Proof.
  induction codes as [|c codes IH]; [contradiction|]. intros I. cbn.
  destruct (String.eqb_spec c code) as [->|Ne].
  - exists 0. split; reflexivity.
  - destruct I as [->|I]; [contradiction|].
    destruct (IH I) as (i & -> & Sp). exists (Datatypes.S i). split; [reflexivity|].
    cbn. now rewrite Sp.
Qed.

Lemma length_without_first (code : string) (codes : list string) :
  In code codes -> List.length codes = Datatypes.S (List.length (without_first code codes)).
Proof.
  induction codes as [|c codes IH]; [contradiction|]. intros I. cbn.
  destruct (String.eqb_spec c code) as [->|Ne]; [reflexivity|].
  destruct I as [->|I]; [contradiction|]. cbn. now rewrite <- IH.
Qed.

Lemma in_without_first (code : string) (codes : list string) (c : string) :
  NoDup codes -> (In c (without_first code codes) <-> In c codes /\ c <> code).
Proof.
  induction codes as [|x codes IH]; [cbn; tauto|]. intros N.
  inversion N as [|? ? Nx Nl]; subst. cbn.
  destruct (String.eqb_spec x code) as [->|Ne].
  - split.
    + intros I. split; [now right|]. intros ->. contradiction.
    + intros [[->|I] D]; [contradiction|exact I].
  - cbn. rewrite (IH Nl). split.
    + intros [->|[I D]]; auto.
    + intros [[->|I] D]; auto.
Qed.

Lemma find_map_id (f : User.t -> User.t) (uid : string) (l : list User.t) :
  (forall v, User.id (f v) = User.id v) ->
  find (fun v => String.eqb (User.id v) uid) (map f l)
  = option_map f (find (fun v => String.eqb (User.id v) uid) l).
Proof.
  intros K. induction l as [|x l IH]; [reflexivity|]. cbn. rewrite K.
  destruct (String.eqb (User.id x) uid); [reflexivity|exact IH].
Qed.

Section BackupFacts.
Context `{Crypto : NodeCrypto} `{J : Jsonwebtoken} `{S : Speakeasy}
        `{JS : JsonCodec} `{!JsonCodecLaws}.
Variable config : Config.

(** The handler up to the TOTP decision. *)
Lemma verifyMfa_run (req : Request VerifyMfaBody) (now : Z) (w : World)
      (uid : string) (u : User.t) (stored secret : string) :
  TokenService.verifyTempToken config (vb_tempToken (body req)) now = Some uid ->
  Js.truthy uid = true ->
  find (fun v => String.eqb (User.id v) uid) (users (db w)) = Some u ->
  User.mfaSecret u = Some stored -> Js.truthy stored = true ->
  Encryption.decrypt stored (encryption_key config) = Ok secret ->
  AuthController.verifyMfa config req now w
  = handler
      (bind (if negb (totp_verify secret (vb_code (body req)) 1 now)
             then AuthController.checkBackupCodes u (vb_code (body req))
             else ret None)
            (fun answered => match answered with
                             | Some r => ret r
                             | None => AuthController.completeMfa config req u now
                             end))
      "MFA verification failed" w.
Proof.
  intros Tk Tu F Sec T D.
  unfold AuthController.verifyMfa, TokenService.verifyTemporaryToken,
    Prisma.user_findUnique_id.
  mrun. rewrite Tk. cbn [AuthService.truthy_field]. rewrite Tu, F, Sec.
  cbn [AuthService.truthy_field]. rewrite T, D. reflexivity.
Qed.

Lemma checkBackupCodes_absent (u : User.t) (code : string) (codes : list string)
      (w : World) :
  User.backupCodes u = Some (JsonText (JSON_stringify (string_array codes))) ->
  ~ In code codes ->
  AuthController.checkBackupCodes u code w = (w, Ok (Some AuthController.invalidMfaCode)).
Proof.
  intros B N. unfold AuthController.checkBackupCodes. rewrite B.
  cbn [AuthController.column_truthy AuthController.column_text].
  rewrite JSON_stringify_truthy, JSON_parse_stringify. cbn [negb string_array].
  now rewrite indexOf_codes_none.
Qed.

Lemma checkBackupCodes_present (u : User.t) (code : string) (codes : list string)
      (w : World) :
  User.backupCodes u = Some (JsonText (JSON_stringify (string_array codes))) ->
  In code codes ->
  In u (users (db w)) ->
  AuthController.checkBackupCodes u code w
  = (mkWorld
       (mkDb (map (fun v => if String.eqb (User.id v) (User.id u)
                            then User.set_backupCodes
                                   (Some (JsonText (JSON_stringify
                                            (string_array (without_first code codes))))) v
                            else v) (users (db w)))
             (sessions (db w)) (devices (db w)))
       (rng w),
     Ok None).
Proof.
  intros B I Iu. unfold AuthController.checkBackupCodes. rewrite B.
  cbn [AuthController.column_truthy AuthController.column_text].
  rewrite JSON_stringify_truthy, JSON_parse_stringify. cbn [negb string_array].
  destruct (indexOf_codes_some code codes I) as (i & -> & Sp). rewrite Sp.
  destruct (find_some_in (fun v => String.eqb (User.id v) (User.id u)) _ u Iu
              (String.eqb_refl _)) as [b Fb].
  unfold Prisma.user_update. mrun. rewrite Fb. reflexivity.
Qed.

End BackupFacts.

(** A backup code of the stored set, submitted with an invalid TOTP code,
    is consumed: the handler answers 200 (or 500 when the store rejects
    the new rows) and the rows of the user hold the set without it. *)
Lemma verifyMfa_consumes
      `{Crypto : NodeCrypto} `{J : Jsonwebtoken} `{S : Speakeasy}
      `{JS : JsonCodec} `{!JsonCodecLaws}
      (config : Config) (req : Request VerifyMfaBody) (now : Z) (w : World)
      (uid : string) (u : User.t) (stored secret : string) (codes : list string) :
  let code := vb_code (body req) in
  TokenService.verifyTempToken config (vb_tempToken (body req)) now = Some uid ->
  Js.truthy uid = true ->
  find (fun v => String.eqb (User.id v) uid) (users (db w)) = Some u ->
  User.mfaSecret u = Some stored -> Js.truthy stored = true ->
  Encryption.decrypt stored (encryption_key config) = Ok secret ->
  totp_verify secret code 1 now = false ->
  User.backupCodes u = Some (JsonText (JSON_stringify (string_array codes))) ->
  In code codes ->
  holds_codes uid stored (without_first code codes)
    (fst (AuthController.verifyMfa config req now w))
  /\ (status (snd (AuthController.verifyMfa config req now w)) = 200
      \/ status (snd (AuthController.verifyMfa config req now w)) = 500).
Proof.
  intros code Tk Tu F Sec T D Inv B I.
  destruct (find_In _ _ _ F) as [Iu Eu]. apply String.eqb_eq in Eu.
  rewrite (verifyMfa_run config req now w uid u stored secret Tk Tu F Sec T D).
  fold code. rewrite Inv. cbn [negb]. unfold handler, bind.
  rewrite (checkBackupCodes_present u code codes w B I Iu).
  set (w1 := mkWorld _ (rng w)).
  assert (F1 : exists u1, find (fun v => String.eqb (User.id v) uid) (users (db w1)) = Some u1
                          /\ User.id u1 = uid
                          /\ User.mfaSecret u1 = Some stored
                          /\ User.backupCodes u1
                             = Some (JsonText (JSON_stringify
                                                 (string_array (without_first code codes))))).
  { subst w1. cbn [db users]. rewrite find_map_id, F.
    - cbn [option_map]. rewrite String.eqb_refl. eexists. split; [reflexivity|].
      cbn. auto.
    - intros v. now destruct (String.eqb (User.id v) (User.id u)). }
  destruct F1 as (u1 & F1 & E1 & S1 & B1).
  destruct (completeMfa_cases config req u now w1) as [R K].
  destruct (AuthController.completeMfa config req u now w1) as [w2 res].
  cbn [fst snd] in R, K.
  assert (Hc : holds_codes uid stored (without_first code codes) w2).
  { unfold holds_codes. destruct K as [-> | ->].
    - exists u1. auto.
    - rewrite find_map_id, F1.
      + cbn [option_map]. rewrite Eu, E1, String.eqb_refl. eexists.
        split; [reflexivity|]. cbn. auto.
      + intros v. now destruct (String.eqb (User.id v) (User.id u)). }
  destruct R as [(a & t & ->) | (e & ->)]; cbn [fst snd status]; auto.
Qed.

(** C5. In [AuthController.verifyMfa], when the submitted code is not a
    valid TOTP code and belongs to the stored backup-code set (a list
    without duplicates, stored as the controller writes it), the handler
    goes on to issue the session (it answers 200, or 500 if the store
    rejects the new rows) and the stored set loses exactly that one code:
    one code fewer, every other code still there, the secret untouched.
    Afterwards a second submission of the same code for that user, again
    not a valid TOTP code, is answered 401 'Invalid MFA code' and changes
    nothing, while every other code of the set is still accepted. *)
Theorem backup_code_single_use
        `{Crypto : NodeCrypto} `{J : Jsonwebtoken} `{S : Speakeasy}
        `{JS : JsonCodec} `{!JsonCodecLaws}
        (config : Config) (req : Request VerifyMfaBody) (now : Z) (w : World)
        (uid : string) (u : User.t) (stored secret : string) (codes : list string) :
  let code := vb_code (body req) in
  TokenService.verifyTempToken config (vb_tempToken (body req)) now = Some uid ->
  Js.truthy uid = true ->
  find (fun v => String.eqb (User.id v) uid) (users (db w)) = Some u ->
  User.mfaSecret u = Some stored -> Js.truthy stored = true ->
  Encryption.decrypt stored (encryption_key config) = Ok secret ->
  totp_verify secret code 1 now = false ->
  User.backupCodes u = Some (JsonText (JSON_stringify (string_array codes))) ->
  In code codes -> NoDup codes ->
  let w' := fst (AuthController.verifyMfa config req now w) in
  let r := snd (AuthController.verifyMfa config req now w) in
  (status r = 200 \/ status r = 500)
  /\ holds_codes uid stored (without_first code codes) w'
  /\ List.length codes = Datatypes.S (List.length (without_first code codes))
  /\ (forall c, In c (without_first code codes) <-> In c codes /\ c <> code)
  /\ (forall (req2 : Request VerifyMfaBody) (now2 : Z),
         TokenService.verifyTempToken config (vb_tempToken (body req2)) now2 = Some uid ->
         totp_verify secret (vb_code (body req2)) 1 now2 = false ->
         (vb_code (body req2) = code ->
          AuthController.verifyMfa config req2 now2 w'
          = (w', AuthController.invalidMfaCode))
         /\ (In (vb_code (body req2)) codes -> vb_code (body req2) <> code ->
             status (snd (AuthController.verifyMfa config req2 now2 w')) = 200
             \/ status (snd (AuthController.verifyMfa config req2 now2 w')) = 500)).
Proof.
  intros code Tk Tu F Sec T D Inv B I N w' r.
  pose proof (in_without_first code codes) as W.
  destruct (verifyMfa_consumes config req now w uid u stored secret codes
              Tk Tu F Sec T D Inv B I) as [Hc St].
  fold w' r in Hc, St.
  split; [exact St|]. split; [exact Hc|].
  split; [now apply length_without_first|]. split; [intros c; now apply W|].
  intros req2 now2 Tk2 Inv2.
  destruct Hc as (u' & F' & S' & B'). split.
  - intros C2.
    rewrite (verifyMfa_run config req2 now2 w' uid u' stored secret Tk2 Tu F' S' T D).
    rewrite Inv2. cbn [negb]. unfold handler, bind. rewrite C2.
    rewrite (checkBackupCodes_absent u' code (without_first code codes) w' B');
      [reflexivity|].
    intros I'. apply W in I'; [|exact N]. now destruct I'.
  - intros I2 D2.
    apply (verifyMfa_consumes config req2 now2 w' uid u' stored secret
             (without_first code codes) Tk2 Tu F' S' T D Inv2 B').
    apply W; auto.
Qed.

Lemma within_steps_verify `{S : Speakeasy} (n : nat) (secret token : string) (now : Z) :
  within_steps (Z.of_nat n) secret token now <-> totp_verify secret token n now = true.
Proof. symmetry. apply totp_verify_window. Qed.

Lemma not_within_steps_verify `{S : Speakeasy} (n : nat) (secret token : string) (now : Z) :
  ~ within_steps (Z.of_nat n) secret token now <-> totp_verify secret token n now = false.
Proof. rewrite within_steps_verify. apply not_true_iff_false. Qed.

(** [AuthController.enableMfa] on the code of the time step two steps
    after the current one: dave has set MFA up, and the handler answers
    401 'Invalid code' and changes nothing. *)
Example enableMfa_two_steps_ahead :
  let code := Sample.codeAt 2 in
  @hotp_check Reference.speakeasy Sample.secret (totp_counter Sample.now + 2)%Z code = true
  /\ @Encryption.decrypt Reference.crypto Sample.storedSecret
       (encryption_key defaultConfig) = Ok Sample.secret
  /\ User.mfaSecret Sample.dave = Some Sample.storedSecret
  /\ @AuthController.enableMfa Reference.crypto Reference.speakeasy Reference.json
       Reference.emailService defaultConfig "u-dave" code Sample.now Sample.world
     = (Sample.world, mkResponse 401 (BError "Invalid code")).
Proof. cbv zeta. repeat split; vm_compute; reflexivity. Qed.


(** ** Where backup codes are stored *)

Lemma length_generateBackupCodes (n : nat) (r : Rng) :
  List.length (fst (generateBackupCodes n r)) = n.
Proof.
  revert r. induction n as [|n IH]; intros r; [reflexivity|].
  cbn [generateBackupCodes]. destruct (randomBytes 4 r) as [b r1].
  specialize (IH r1). destruct (generateBackupCodes n r1) as [l r2].
  cbn [fst List.length] in *. now rewrite IH.
Qed.

Lemma encryptEach_decrypt `{Crypto : NodeCrypto} `{!NodeCryptoLaws}
      (codes : list string) (key : string) (r : Rng) :
  Forall2 (fun blob code => Encryption.decrypt blob key = Ok code)
          (fst (encryptEach codes key r)) codes.
Proof.
  revert r. induction codes as [|c codes IH]; intros r; [constructor|].
  cbn [encryptEach]. pose proof (decrypt_encrypt c key r) as Dc.
  destruct (Encryption.encrypt c key r) as [blob r1]. specialize (IH r1).
  destruct (encryptEach codes key r1) as [l r2]. cbn [fst] in *. now constructor.
Qed.

Section SetupFacts.
Context `{Crypto : NodeCrypto} `{!NodeCryptoLaws} `{J : Jsonwebtoken} `{S : Speakeasy}
        `{Q : QrCode}.
Variable config : Config.

(** [POST /mfa/setup] for an authenticated user. *)
Lemma route_mfa_setup_run (req : Request unit) (now : Z) (w : World)
      (uid : string) (au : Middleware.AuthUser) (u : User.t) :
  Middleware.authenticate config req now (db w) = Middleware.Next uid au ->
  Js.truthy uid = true ->
  find (fun v => String.eqb (User.id v) uid) (users (db w)) = Some u ->
  exists w' base32 qrCode plain blobs encryptedSecret,
    Routes.post_mfa_setup config req now w
    = (w', mkResponse 200 (BMfaSetup base32 qrCode (Some plain)))
    /\ find (fun v => String.eqb (User.id v) uid) (users (db w'))
       = Some (User.set_backupCodes (Some (StringArray blobs))
                 (User.set_mfaSecret (Some encryptedSecret) u))
    /\ Forall2 (fun blob code => Encryption.decrypt blob (encryption_key config) = Ok code)
               blobs plain
    /\ Encryption.decrypt encryptedSecret (encryption_key config) = Ok (Js.or_else base32 "")
    /\ List.length plain = 10.
Proof.
  intros A Tu F.
  destruct (find_In _ _ _ F) as [Iu Eu]. apply String.eqb_eq in Eu.
  unfold Routes.post_mfa_setup, Routes.authenticated. rewrite A.
  unfold Prisma.user_findUnique_id, Prisma.user_update. mrun.
  cbn [AuthService.truthy_field]. rewrite Tu, F.
  destruct (generateSecret _ 32 (rng w)) as [[base32 url] r1]. cbn [db rng].
  pose proof (decrypt_encrypt (Js.or_else base32 "") (encryption_key config) r1) as Ds.
  destruct (Encryption.encrypt (Js.or_else base32 "") (encryption_key config) r1)
    as [enc r2]. cbn [db rng fst] in *.
  pose proof (length_generateBackupCodes 10 r2) as Lp.
  destruct (generateBackupCodes 10 r2) as [plain r3]. cbn [db rng fst] in *.
  pose proof (encryptEach_decrypt plain (encryption_key config) r3) as Db.
  destruct (encryptEach plain (encryption_key config) r3) as [blobs r4].
  cbn [db rng fst] in *. rewrite Eu, F.
  eexists _, base32, _, plain, blobs, enc. split; [reflexivity|].
  cbn [db users]. split; [|auto].
  rewrite find_map_id, F.
  - cbn [option_map]. now rewrite Eu, String.eqb_refl.
  - intros v. now destruct (String.eqb (User.id v) uid).
Qed.

End SetupFacts.

(** C6. The two places that write backup codes differ. POST /mfa/setup
    stores one encrypted blob per code, each decrypting to the code it
    returns to the user. [AuthController.enableMfa], on a valid code,
    stores the JSON text of the very codes it returns: parsing the stored
    column gives the plaintext codes back with no key. *)
Theorem backup_codes_persisted_in_clear
        `{Crypto : NodeCrypto} `{!NodeCryptoLaws} `{J : Jsonwebtoken} `{S : Speakeasy}
        `{JS : JsonCodec} `{!JsonCodecLaws} `{E : EmailService} `{Q : QrCode}
        (config : Config) (w : World) (now : Z) (code uid : string)
        (u : User.t) (stored secret : string) :
  find (fun v => String.eqb (User.id v) uid) (users (db w)) = Some u ->
  User.mfaSecret u = Some stored -> Js.truthy stored = true ->
  Encryption.decrypt stored (encryption_key config) = Ok secret ->
  Js.truthy uid = true ->
  (* AuthController.enableMfa *)
  (within_steps 1 secret code now ->
   let out := AuthController.enableMfa config uid code now w in
   exists codes v text,
     snd out = mkResponse 200 (BMfaEnabled "MFA enabled successfully" (Some codes))
     /\ List.length codes = 10
     /\ find (fun x => String.eqb (User.id x) uid) (users (db (fst out))) = Some v
     /\ User.mfaEnabled v = true
     /\ User.backupCodes v = Some (JsonText text)
     /\ JSON_parse text = Some (string_array codes))
  (* POST /mfa/setup *)
  /\ (forall (req : Request unit) (au : Middleware.AuthUser),
         Middleware.authenticate config req now (db w) = Middleware.Next uid au ->
         let out := Routes.post_mfa_setup config req now w in
         exists base32 qrCode codes v blobs,
           snd out = mkResponse 200 (BMfaSetup base32 qrCode (Some codes))
           /\ List.length codes = 10
           /\ find (fun x => String.eqb (User.id x) uid) (users (db (fst out))) = Some v
           /\ User.backupCodes v = Some (StringArray blobs)
           /\ Forall2 (fun blob c => Encryption.decrypt blob (encryption_key config) = Ok c)
                      blobs codes).
Proof.
  intros F Sec T D Tu. split.
  - intros W. apply (within_steps_verify 1) in W. cbv zeta.
    rewrite (controller_enableMfa_run config uid code now w u stored secret F Sec T D), W.
    cbn [fst snd db users].
    eexists _, _, _. split; [reflexivity|]. split; [apply length_generateBackupCodes|].
    rewrite find_map_id, F.
    + cbn [option_map]. destruct (find_In _ _ _ F) as [_ ->].
      split; [reflexivity|]. split; [reflexivity|]. split; [reflexivity|].
      apply JSON_parse_stringify.
    + intros v. now destruct (String.eqb (User.id v) uid).
  - intros req au A. cbv zeta.
    destruct (route_mfa_setup_run config req now w uid au u A Tu F)
      as (w' & base32 & qr & plain & blobs & enc & R & Fv & Db & _ & L).
    rewrite R. cbn [fst snd]. eexists base32, qr, plain, _, blobs.
    split; [reflexivity|]. split; [exact L|]. split; [exact Fv|]. split; [reflexivity|exact Db].
Qed.

(** ** Registration and the welcome email *)

Section RegisterFacts.
Context `{Crypto : NodeCrypto} `{J : Jsonwebtoken} `{Hasher : PasswordHasher}
        `{V : Validator} `{Builtins : Js.Builtins}.
Variable config : Config.

Lemma createSession_users (userId deviceId : string) (ipAddress : option string)
      (userAgent : string) (now : Z) (w : World) :
  users (db (fst (TokenService.createSession config userId deviceId ipAddress
                    userAgent now w))) = users (db w).
Proof.
  unfold TokenService.createSession, TokenService.generateRefreshToken,
    Prisma.session_create, Prisma.newId, randomBytes.
  mrun. repeat split_match; reflexivity.
Qed.

Lemma recordDevice_users {B} (userId deviceId : string) (deviceInfo : option DeviceInfo)
      (req : Request B) (now : Z) (w : World) :
  users (db (fst (AuthService.recordDevice userId deviceId deviceInfo req now w)))
  = users (db w).
Proof.
  unfold AuthService.recordDevice, Prisma.device_upsert, Prisma.newId, randomBytes.
  mrun. repeat split_match; reflexivity.
Qed.


Ltac register_steps :=
  unfold Prisma.user_findUnique_email, Prisma.user_create, Prisma.newId,
    AuthController.issueSession, headerDeviceId,
    TokenService.createSession, TokenService.generateRefreshToken,
    Prisma.session_create, Prisma.newId, AuthService.recordDevice,
    Prisma.device_upsert, Prisma.newId, randomBytes;
  mrun.


(** The router's registration changes the state in the same way whatever
    the mail service does. *)
Lemma route_register_state_any_mailer (E1 E2 : EmailService)
      (req : Request RegisterBody) (now : Z) (w : World) :
  fst (@Routes.post_register _ _ _ _ E1 config req now w)
  = fst (@Routes.post_register _ _ _ _ E2 config req now w).
Proof.
  unfold Routes.post_register.
  register_steps.
  repeat match goal with
         | |- context [match @sendWelcomeEmail ?e ?a ?b with _ => _ end] =>
             destruct (@sendWelcomeEmail e a b)
         | _ => split_match
         end; reflexivity.
Qed.

(** With a mail service that throws, the router answers 500 to every
    registration that got past validation and the duplicate check. *)
Lemma route_register_mailer_throws (E : EmailService)
      (req : Request RegisterBody) (now : Z) (w : World) :
  (forall e n, exists x, @sendWelcomeEmail E e n = Throw x) ->
  Routes.validateRegister (body req) = [] ->
  find (fun v => String.eqb (User.email v) (normalizeEmail (rb_email (body req))))
       (users (db w)) = None ->
  snd (@Routes.post_register _ _ _ _ E config req now w)
  = mkResponse 500 (BError "Registration failed").
Proof.
  intros Fail Val F. unfold Routes.post_register. rewrite Val.
  register_steps. rewrite F.
  repeat match goal with
         | |- context [match @sendWelcomeEmail ?e ?a ?b with _ => _ end] =>
             let x := fresh "x" in
             let R := fresh "R" in
             destruct (Fail a b) as [x R]; rewrite R
         | _ => split_match
         end; reflexivity.
Qed.





End RegisterFacts.


(** ** The statements on the sample data *)


Lemma refresh_token_single_use_witness :
  let stored := Sample.session "s-1" "u-alice" "rt-alice" in
  exists w' access fresh,
    @TokenService.refreshAccessToken Reference.jwt defaultConfig
      "rt-alice" Sample.now Sample.world = (w', Ok (Some (access, fresh)))
    /\ @jws_verify Reference.jwt access (jwt_secret defaultConfig)
       = Some (Jwt.mkPayload "u-alice" "access" 1700000000 (Some 1700000900%Z))
    /\ access <> Session.token stored
    /\ fresh <> "rt-alice"
    /\ @TokenService.refreshAccessToken Reference.jwt defaultConfig
         "rt-alice" (Sample.now + 1000)%Z w' = (w', Ok None).
Proof.
  cbv zeta.
  destruct (@refresh_token_single_use Reference.jwt reference_jwt_laws defaultConfig
              Sample.world "rt-alice" Sample.now
              (Sample.session "s-1" "u-alice" "rt-alice"))
    as (w' & R & P & Same & D & _ & _ & _ & Again).
  - reflexivity.
  - vm_compute. discriminate.
  - cbn. repeat constructor; cbn; intuition discriminate.
  - intros I. vm_compute in I. intuition discriminate.
  - exists w'. eexists. eexists. split; [exact R|].
    split; [exact P|]. split; [|split; [exact D|apply Again]].
    intros E. apply (Same "u-alice" (Sample.now - 60000)%Z) in E.
    destruct E as [_ E]. vm_compute in E. discriminate E.
Defined.

Lemma refresh_ignores_soft_delete_witness :
  exists w' access fresh,
    User.deletedAt Sample.carol = Some 1690000000000%Z
    /\ @TokenService.refreshAccessToken Reference.jwt defaultConfig
         "rt-carol" Sample.now Sample.world = (w', Ok (Some (access, fresh)))
    /\ @Middleware.authenticate Reference.jwt defaultConfig unit
         (Sample.bearer tt access) Sample.now (db w')
       = Middleware.Responded (mkResponse 401 (BError "User not found")).
Proof.
  destruct (@refresh_ignores_soft_delete Reference.jwt
              reference_jwt_laws defaultConfig
              Sample.world "rt-carol" Sample.now
              (Sample.session "s-2" "u-carol" "rt-carol") Sample.carol 1690000000000%Z)
    as (_ & w' & R & _ & A).
  - reflexivity.
  - vm_compute. reflexivity.
  - intros I. vm_compute in I. intuition discriminate.
  - reflexivity.
  - reflexivity.
  - exists w'. eexists. eexists. split; [reflexivity|]. split; [exact R|].
    apply (A unit (Sample.bearer tt _)). reflexivity.
Defined.

Lemma login_mfa_enabled_no_session_witness :
  let req := Sample.request (mkLoginBody "alice@x.com" "Passw0rd!" None) in
  let challenge :=
    mkResponse 200
      (BMfaChallenge (@TokenService.createTempToken Reference.jwt defaultConfig
                        "u-alice" Sample.now)) in
  @Routes.post_login Reference.crypto Reference.jwt Reference.hasher Reference.validator
    defaultConfig req Sample.now Sample.world = (Sample.world, challenge)
  /\ @AuthController.login Reference.crypto Reference.jwt Reference.hasher
       Reference.builtins defaultConfig req Sample.now Sample.world
     = (Sample.world, challenge).
Proof.
  cbv zeta.
  destruct (@login_mfa_enabled_no_session Reference.crypto Reference.jwt Reference.hasher
              Reference.validator Reference.builtins defaultConfig
              (Sample.request (mkLoginBody "alice@x.com" "Passw0rd!" None))
              Sample.world Sample.now Sample.alice "0001$Passw0rd!")
    as [R C]; try reflexivity.
  split; [apply R|apply C]; reflexivity.
Defined.

Lemma password_reset_confirm_revokes_sessions_witness :
  let req := Sample.request (mkResetConfirmBody Sample.resetToken "N3wPassw0rd") in
  exists w',
    @AuthController.confirmPasswordReset Reference.crypto Reference.hasher
      req (Sample.now + 1000)%Z Sample.resetWorld
    = (w', mkResponse 200
             (BMessage "Password reset successful. Please login with your new password."))
    /\ List.length (filter (fun x => String.eqb (Session.userId x) "u-alice")
                           (sessions (db Sample.resetWorld))) = 2
    /\ filter (fun x => String.eqb (Session.userId x) "u-alice") (sessions (db w')) = []
    /\ List.length (sessions (db w')) = 2.
Proof.
  cbv zeta.
  destruct (@password_reset_confirm_revokes_sessions Reference.crypto Reference.hasher
              Reference.validator
              (Sample.request (mkResetConfirmBody Sample.resetToken "N3wPassw0rd"))
              Sample.resetWorld (Sample.now + 1000)%Z Sample.resetUser)
    as [(w' & R & _ & _ & Gone & _) _].
  - vm_compute. reflexivity.
  - reflexivity.
  - exists w'. split; [exact R|]. split; [vm_compute; reflexivity|].
    split.
    + destruct (filter _ (sessions (db w'))) as [|x l] eqn:Fl; [reflexivity|].
      assert (I : In x (filter (fun x => String.eqb (Session.userId x) "u-alice")
                               (sessions (db w')))) by (rewrite Fl; now left).
      apply filter_In in I as [I Ex]. apply String.eqb_eq in Ex.
      now destruct (Gone x I).
    + apply (f_equal fst) in R. cbn [fst] in R. rewrite <- R. vm_compute. reflexivity.
Defined.


Lemma split_hex_sep (sep : ascii) (s rest : string) :
  Hex.is_hex_char sep = false -> Hex.is_hex s = true ->
  Js.split sep (s ++ String sep rest) = s :: Js.split sep rest.
Proof.
  intros Hs. induction s as [|c s IH].
  - intros _. cbn. now rewrite Ascii.eqb_refl.
  - cbn [Hex.is_hex]. intros E. apply andb_true_iff in E as [Ec Es].
    change ((String c s ++ String sep rest)%string) with (String c (s ++ String sep rest)).
    cbn [Js.split]. rewrite (IH Es).
    destruct (Ascii.eqb_spec c sep) as [->|_]; [congruence|reflexivity].
Qed.

Lemma split_items_text (l : list string) :
  Js.split "," (Reference.items_text (map JString l))
  = (map Reference.H l ++ [EmptyString])%list.
Proof.
  induction l as [|x l IH]; [reflexivity|].
  cbn [map Reference.items_text app].
  change ((Reference.H x ++ "," ++ Reference.items_text (map JString l))%string)
    with ((Reference.H x ++ String "," (Reference.items_text (map JString l)))%string).
  rewrite split_hex_sep; [|reflexivity|apply is_hex_H]. now rewrite IH.
Qed.

Lemma reference_json_laws : @JsonCodecLaws Reference.json.
Proof.
  constructor; intros l; [|reflexivity].
  cbn [JSON_parse JSON_stringify Reference.json string_array].
  rewrite Ascii.eqb_refl, split_items_text, removelast_last, map_map.
  erewrite map_ext; [reflexivity|]. intros x. cbn beta. now rewrite unH_H.
Qed.

Lemma backup_code_single_use_witness :
  let req := Sample.request
               (mkVerifyMfaBody
                  (@TokenService.createTempToken Reference.jwt defaultConfig
                     "u-alice" Sample.now)
                  "0F0F0F0F" None) in
  let first := @AuthController.verifyMfa Reference.crypto Reference.jwt Reference.speakeasy
                 Reference.json defaultConfig req Sample.now Sample.world in
  status (snd first) = 200
  /\ @holds_codes Reference.json "u-alice" Sample.storedSecret ["A1B2C3D4"; "DEADBEEF"]
       (fst first)
  /\ @AuthController.verifyMfa Reference.crypto Reference.jwt Reference.speakeasy
       Reference.json defaultConfig req (Sample.now + 5000)%Z (fst first)
     = (fst first, AuthController.invalidMfaCode).
Proof.
  cbv zeta.
  destruct (@backup_code_single_use Reference.crypto Reference.jwt Reference.speakeasy
              Reference.json reference_json_laws defaultConfig
              (Sample.request
                 (mkVerifyMfaBody
                    (@TokenService.createTempToken Reference.jwt defaultConfig
                       "u-alice" Sample.now)
                    "0F0F0F0F" None))
              Sample.now Sample.world "u-alice" Sample.alice
              Sample.storedSecret Sample.secret Sample.codes)
    as (_ & Hc & _ & _ & Again); try reflexivity.
  - cbn. auto.
  - repeat constructor; cbn; intuition discriminate.
  - split; [vm_compute; reflexivity|]. split; [exact Hc|].
    apply Again; reflexivity.
Defined.

Lemma backup_codes_persisted_in_clear_witness :
  let out := @AuthController.enableMfa Reference.crypto Reference.speakeasy Reference.json
               Reference.emailService defaultConfig "u-dave" (Sample.codeAt 0)
               Sample.now Sample.world in
  exists codes v text,
    snd out = mkResponse 200 (BMfaEnabled "MFA enabled successfully" (Some codes))
    /\ find (fun x => String.eqb (User.id x) "u-dave") (users (db (fst out))) = Some v
    /\ User.backupCodes v = Some (JsonText text)
    /\ @JSON_parse Reference.json text = Some (string_array codes).
Proof.
  cbv zeta.
  destruct (@backup_codes_persisted_in_clear Reference.crypto reference_crypto_laws
              Reference.jwt Reference.speakeasy Reference.json reference_json_laws
              Reference.emailService Reference.qrcode defaultConfig
              Sample.world Sample.now (Sample.codeAt 0) "u-dave" Sample.dave
              Sample.storedSecret Sample.secret)
    as [C _]; try reflexivity.
  destruct C as (codes & v & text & R & _ & F & _ & B & P).
  - exists 0%Z. split; [lia|reflexivity].
  - exists codes, v, text. auto.
Defined.

(** * Further properties of the authentication core *)

(** ** List and monad facts *)

Lemma find_app_fresh {A} (p : A -> bool) (l : list A) (a : A) :
  (forall x, In x l -> p x = false) -> p a = true -> find p (l ++ [a])%list = Some a.
Proof.
  intros N P. induction l as [|b l IH]; cbn [app find].
  - now rewrite P.
  - rewrite (N b (or_introl eq_refl)). apply IH. intros x I. apply N. now right.
Qed.

Lemma filter_all {A} (l : list A) : filter (fun _ => true) l = l.
Proof. induction l as [|a l IH]; [reflexivity|]. cbn. now rewrite IH. Qed.

Lemma filter_filter_and {A} (p q : A -> bool) (l : list A) :
  filter q (filter p l) = filter (fun x => p x && q x) l.
Proof.
  induction l as [|a l IH]; [reflexivity|]. cbn [filter].
  destruct (p a); cbn [filter andb]; [destruct (q a)|]; now rewrite IH.
Qed.

Lemma bind_eq {A B} (m : M A) (k : A -> M B) (w : World) :
  bind m k w = match m w with
               | (w', Ok a) => k a w'
               | (w', Throw e) => (w', Throw e)
               end.
Proof. reflexivity. Qed.

Lemma NoDup_app_fresh {A} (l : list A) (a : A) :
  NoDup l -> ~ In a l -> NoDup (l ++ [a])%list.
Proof.
  induction l as [|x l IH]; intros N F; cbn [app].
  - constructor; [intros []|constructor].
  - inversion N as [|? ? Nx Nl]; subst. constructor.
    + intros I. apply in_app_or in I as [I|[<-|[]]]; [contradiction|].
      apply F. now left.
    + apply IH; [exact Nl|]. intros I. apply F. now right.
Qed.

Lemma find_ext_in {A} (p q : A -> bool) (l : list A) :
  (forall x, In x l -> p x = q x) -> find p l = find q l.
Proof.
  induction l as [|a l IH]; [reflexivity|]. intros E. cbn [find].
  rewrite (E a (or_introl eq_refl)). destruct (q a); [reflexivity|].
  apply IH. intros x I. apply E. now right.
Qed.

Lemma truthy_app_sep (a b : string) : Js.truthy (a ++ ":" ++ b) = true.
Proof. now destruct a. Qed.

Lemma in_indexOf {A} (p : A -> bool) (l : list A) (i : nat) :
  Js.indexOf p l = Some i -> exists x, In x l /\ p x = true.
Proof.
  revert i. induction l as [|y l IH]; [discriminate|]. intros i. cbn [Js.indexOf].
  destruct (p y) eqn:Py.
  - intros _. exists y. split; [now left|exact Py].
  - destruct (Js.indexOf p l) as [j|]; [|discriminate]. intros _.
    destruct (IH j eq_refl) as (x & Ix & Px). exists x. split; [now right|exact Px].
Qed.

(** ** The encryptor on malformed blobs *)

Lemma length_split (sep : ascii) (s : string) :
  List.length (Js.split sep s) = Datatypes.S (count_char sep s).
Proof.
  induction s as [|c s IH]; [reflexivity|]. cbn [Js.split count_char].
  destruct (Ascii.eqb c sep); cbn [List.length]; [now rewrite IH|].
  destruct (Js.split sep s) as [|h t]; cbn in *; lia.
Qed.

Lemma count_char_app (sep : ascii) (a b : string) :
  count_char sep (a ++ b) = count_char sep a + count_char sep b.
Proof.
  induction a as [|c a IH]; [reflexivity|]. cbn [append count_char]. rewrite IH. lia.
Qed.

Lemma count_char_hex (s : string) : Hex.is_hex s = true -> count_char ":" s = 0.
Proof.
  induction s as [|c s IH]; [reflexivity|]. cbn [Hex.is_hex count_char]. intros E.
  apply andb_true_iff in E as [Ec Es]. now rewrite (is_hex_char_not_colon c Ec), (IH Es).
Qed.

Section EncryptShape.
Context `{Crypto : NodeCrypto}.

(** Every blob [encrypt] builds has four fields. *)
Lemma count_char_encrypt (text key : string) (r : Rng) :
  count_char ":" (fst (Encryption.encrypt text key r)) = 3.
Proof.
  rewrite encrypt_eq. cbn [fst]. unfold Encryption.seal_blob. cbv zeta.
  rewrite !count_char_app.
  repeat rewrite (count_char_hex (Hex.toHex _)) by apply is_hex_toHex. reflexivity.
Qed.

End EncryptShape.

(** X1. [decrypt] throws 'Invalid encrypted data format' exactly for the
    blobs that do not hold three ':' (four fields), whatever the key; a
    blob with four fields is either decrypted or fails with the cipher's
    own error. Every blob [encrypt] builds holds exactly three ':', so it
    is never refused for its format. *)
Theorem decrypt_rejects_wrong_field_count `{Crypto : NodeCrypto}
        (encryptedData key : string) :
  (Encryption.decrypt encryptedData key = Throw (Error "Invalid encrypted data format")
   <-> count_char ":" encryptedData <> 3)
  /\ (forall text r, count_char ":" (fst (Encryption.encrypt text key r)) = 3).
Proof.
  split; [|intros text r; apply count_char_encrypt].
  pose proof (length_split ":" encryptedData) as L. unfold Encryption.decrypt.
  destruct (Js.split ":" encryptedData) as [|a [|b [|c [|d [|e l]]]]]; cbn in L;
    try (split; [intros _; lia | reflexivity]).
  split.
  - destruct (gcm_open _ _ _ _); discriminate.
  - intros N. lia.
Qed.

(** ** Sessions: creation, rotation, revocation *)

Section SessionFacts.
Context `{Crypto : NodeCrypto} `{J : Jsonwebtoken}.
Variable config : Config.

(** What [createSession] does when the store accepts the row. *)
Lemma createSession_run (userId deviceId : string) (ipAddress : option string)
      (userAgent : string) (now : Z) (w : World) :
  let rt := Hex.toHex (fst (randomBytes 32 (rng w))) in
  let r1 := snd (randomBytes 32 (rng w)) in
  let i := uuid_of_bytes (fst (randomBytes 16 r1)) in
  let access := TokenService.generateAccessToken config userId now in
  let row := Session.mk i userId access rt (Some deviceId)
               (match ipAddress with
                | Some a => if Js.truthy a then Some a else None
                | None => None
                end) userAgent now now
               (now + 7 * 24 * 60 * 60 * 1000)%Z in
  ~ In i (map Session.id (sessions (db w))) ->
  ~ In rt (map Session.refreshToken (sessions (db w))) ->
  TokenService.createSession config userId deviceId ipAddress userAgent now w
  = (mkWorld (mkDb (users (db w)) (sessions (db w) ++ [row])%list (devices (db w)))
             (snd (randomBytes 16 r1)),
     Ok (access, rt)).
Proof.
  intros rt r1 i access row Ni Nr. subst rt r1 i access row.
  unfold TokenService.createSession, TokenService.generateRefreshToken,
    Prisma.session_create, Prisma.newId.
  mrun. cbn [randomBytes db rng fst snd tape cursor] in *.
  rewrite existsb_false_all; [reflexivity|].
  intros v Iv. apply orb_false_iff. split; apply String.eqb_neq; intros Ev.
  - apply Ni. rewrite <- Ev. now apply in_map.
  - apply Nr. cbn [Session.refreshToken] in Ev. rewrite <- Ev. now apply in_map.
Qed.

End SessionFacts.

Section SessionProps.
Context `{Crypto : NodeCrypto} `{J : Jsonwebtoken}.
Variable config : Config.

(** X2. A session created at [now] (the store accepting the drawn id and
    refresh token) is one appended row bound to the user and the device,
    expiring seven days later; users and devices are untouched. The
    returned refresh token refreshes the session up to and including that
    instant, and is refused (null) at any later one. *)
Theorem createSession_then_refresh (userId deviceId : string)
        (ipAddress : option string) (userAgent : string) (now : Z) (w : World) :
  let rt := Hex.toHex (fst (randomBytes 32 (rng w))) in
  let i := uuid_of_bytes (fst (randomBytes 16 (snd (randomBytes 32 (rng w))))) in
  let access := TokenService.generateAccessToken config userId now in
  let out := TokenService.createSession config userId deviceId ipAddress userAgent now w in
  ~ In i (map Session.id (sessions (db w))) ->
  ~ In rt (map Session.refreshToken (sessions (db w))) ->
  snd out = Ok (access, rt)
  /\ (exists row,
        sessions (db (fst out)) = (sessions (db w) ++ [row])%list
        /\ Session.userId row = userId /\ Session.token row = access
        /\ Session.refreshToken row = rt /\ Session.deviceInfo row = Some deviceId
        /\ Session.expiresAt row = (now + 604800000)%Z)
  /\ users (db (fst out)) = users (db w)
  /\ devices (db (fst out)) = devices (db w)
  /\ (forall later, (now + 604800000 < later)%Z ->
        TokenService.refreshAccessToken config rt later (fst out) = (fst out, Ok None))
  /\ (forall later, (later <= now + 604800000)%Z ->
        let next := Hex.toHex (fst (randomBytes 32 (rng (fst out)))) in
        ~ In next (map Session.refreshToken (sessions (db (fst out)))) ->
        snd (TokenService.refreshAccessToken config rt later (fst out))
        = Ok (Some (TokenService.generateAccessToken config userId later, next))).
Proof.
  intros rt i access out Ni Nr.
  pose proof (createSession_run config userId deviceId ipAddress userAgent now w Ni Nr) as R.
  cbv zeta in R. fold rt i access in R.
  set (row := Session.mk i userId access rt (Some deviceId) _ userAgent now now _) in R.
  subst out. rewrite R. cbn [fst snd db rng users sessions devices].
  assert (F : find (fun v => String.eqb (Session.refreshToken v) rt)
                   (sessions (db w) ++ [row])%list = Some row).
  { apply find_app_fresh.
    - intros v Iv. apply String.eqb_neq. intros E. apply Nr. rewrite <- E.
      now apply in_map.
    - subst row. cbn [Session.refreshToken]. apply String.eqb_refl. }
  split; [reflexivity|]. split.
  { exists row. subst row. cbn. repeat split. }
  split; [reflexivity|]. split; [reflexivity|]. split.
  - intros later L.
    unfold TokenService.refreshAccessToken, Prisma.session_findUnique_refreshToken.
    mrun. cbn [db sessions]. rewrite F.
    destruct (Z.ltb_spec (Session.expiresAt row) later) as [_|G]; [reflexivity|].
    subst row. cbn [Session.expiresAt] in G. lia.
  - intros later L Nn.
    erewrite refresh_rotates with (s := row); [reflexivity|exact F| |exact Nn].
    subst row. cbn [Session.expiresAt]. lia.
Qed.

(** X3. [refreshAccessToken] never extends a session: whatever the token
    and the instant, and whether it succeeds, is refused or throws, the
    store afterwards holds the same rows with the same id, user, device,
    creation date and expiry; users and devices are untouched. *)
Theorem refresh_keeps_expiry (refreshToken : string) (now : Z) (w : World) :
  let w' := fst (TokenService.refreshAccessToken config refreshToken now w) in
  map (fun s => (Session.id s, Session.userId s, Session.deviceInfo s,
                 Session.createdAt s, Session.expiresAt s)) (sessions (db w'))
  = map (fun s => (Session.id s, Session.userId s, Session.deviceInfo s,
                   Session.createdAt s, Session.expiresAt s)) (sessions (db w))
  /\ users (db w') = users (db w) /\ devices (db w') = devices (db w).
Proof.
  unfold TokenService.refreshAccessToken, Prisma.session_findUnique_refreshToken,
    TokenService.generateRefreshToken, Prisma.session_update.
  mrun. cbn [randomBytes db rng fst snd].
  repeat split_match; cbn [fst snd db rng users sessions devices];
    repeat split; try reflexivity.
  rewrite map_map. apply map_ext. intros a.
  destruct (String.eqb _ _); reflexivity.
Qed.

(** After [revokeSession token] no session holds [token], every other
    session is kept, and revoking again changes nothing. *)
Lemma revokeSession_run (token : string) (w : World) :
  TokenService.revokeSession token w
  = (mkWorld (mkDb (users (db w))
                   (filter (fun s => negb (String.eqb (Session.token s) token))
                           (sessions (db w)))
                   (devices (db w))) (rng w), Ok tt).
Proof. reflexivity. Qed.

End SessionProps.

Section RevokeProps.
Context `{J : Jsonwebtoken}.
Variable config : Config.

(** X4. POST /logout with a bearer token the middleware accepts answers
    200 and deletes exactly the sessions whose stored access token is that
    token; users and devices are untouched. In a store with unique refresh
    tokens, the refresh token of a deleted session is refused afterwards. *)
Theorem post_logout_ends_session (req : Request unit) (now : Z) (w : World)
        (token userId : string) (user : Middleware.AuthUser) :
  let out := Routes.post_logout config req now w in
  authorization req = Some ("Bearer " ++ token) ->
  Middleware.authenticate config req now (db w) = Middleware.Next userId user ->
  NoDup (map Session.refreshToken (sessions (db w))) ->
  snd out = mkResponse 200 (BMessage "Logged out successfully")
  /\ sessions (db (fst out))
     = filter (fun s => negb (String.eqb (Session.token s) token)) (sessions (db w))
  /\ users (db (fst out)) = users (db w)
  /\ devices (db (fst out)) = devices (db w)
  /\ (forall s later,
        In s (sessions (db w)) -> Session.token s = token ->
        TokenService.refreshAccessToken config (Session.refreshToken s) later (fst out)
        = (fst out, Ok None)).
Proof.
  intros out Ha Au N. subst out.
  unfold Routes.post_logout, Routes.authenticated. rewrite Au, Ha.
  rewrite bearer_prefix, bearer_token.
  assert (T : Js.truthy ("Bearer " ++ token) = true) by reflexivity.
  rewrite T. cbn [andb]. unfold TokenService.revokeSession, Prisma.session_deleteMany.
  mrun. cbn [fst snd db rng users sessions devices].
  repeat split.
  intros s later I E. apply refresh_unknown. cbn [db sessions].
  apply find_none_all. intros v Iv. apply filter_In in Iv as [Iv Tv].
  apply String.eqb_neq. intros Er.
  assert (v = s) by (eapply NoDup_map_eq; eauto). subst v.
  rewrite E, String.eqb_refl in Tv. discriminate.
Qed.

(** X5. The access token is rotated in the session row, so a logout with
    the access token held before a refresh does not end the refreshed
    session: when the session's token was signed in another second than
    the refresh, [revokeSession] of the old token keeps the rotated row. *)
Theorem logout_with_stale_token `{!JsonwebtokenLaws} (w : World) (rt : string)
        (issued now : Z) (s : Session.t) :
  let newRT := Hex.toHex (fst (randomBytes 32 (rng w))) in
  let access := TokenService.generateAccessToken config (Session.userId s) now in
  let w1 := fst (TokenService.refreshAccessToken config rt now w) in
  let w2 := fst (TokenService.revokeSession (Session.token s) w1) in
  find (fun v => String.eqb (Session.refreshToken v) rt) (sessions (db w)) = Some s ->
  (now <= Session.expiresAt s)%Z ->
  ~ In newRT (map Session.refreshToken (sessions (db w))) ->
  Session.token s = TokenService.generateAccessToken config (Session.userId s) issued ->
  clockTimestamp issued <> clockTimestamp now ->
  In (Prisma.session_data access newRT now s) (sessions (db w1))
  /\ In (Prisma.session_data access newRT now s) (sessions (db w2)).
Proof.
  intros newRT access w1 w2 F E N T C.
  pose proof (refresh_rotates config rt now w s F E N) as R. cbv zeta in R.
  fold newRT access in R. subst w2 w1. rewrite R.
  cbn [fst snd db rng users sessions devices TokenService.revokeSession
       Prisma.session_deleteMany].
  destruct (find_In _ _ _ F) as [I _].
  assert (I1 : In (Prisma.session_data access newRT now s)
                  (map (fun v => if String.eqb (Session.id v) (Session.id s)
                                 then Prisma.session_data access newRT now v else v)
                       (sessions (db w)))).
  { apply in_map_iff. exists s. now rewrite String.eqb_refl. }
  split; [exact I1|].
  rewrite revokeSession_run. cbn [fst db sessions].
  apply filter_In. split; [exact I1|].
  cbn [Prisma.session_data Session.token]. apply negb_true_iff, String.eqb_neq.
  intros Eq. rewrite T in Eq. subst access.
  unfold TokenService.generateAccessToken, jwt_sign in Eq.
  apply (f_equal (fun t => jws_verify t (jwt_secret config))) in Eq.
  rewrite !jws_verify_sign in Eq. injection Eq as Eq _. congruence.
Qed.

(** Deleting the listed sessions one by one by id. *)
Lemma revokeEach_run (deviceId : string) (l : list Session.t) :
  forall w,
    NoDup (map Session.id l) ->
    (forall x, In x l -> In x (sessions (db w))) ->
    TokenService.revokeEach deviceId l w
    = (mkWorld (mkDb (users (db w))
                     (filter (fun s => negb (existsb
                                (fun x => String.eqb (Session.id x) (Session.id s)
                                          && bound_to deviceId x) l))
                             (sessions (db w)))
                     (devices (db w))) (rng w), Ok tt).
Proof.
  induction l as [|x l IH]; intros w N S.
  - cbn [TokenService.revokeEach existsb negb]. unfold ret. rewrite filter_all.
    now destruct w as [[us ss ds] r].
  - inversion N as [|? ? Nx Nl]; subst.
    cbn [TokenService.revokeEach]. unfold bind at 1.
    assert (Bx : bound_to deviceId x
                 = match Session.deviceInfo x with
                   | Some d => String.eqb d deviceId
                   | None => false
                   end) by reflexivity.
    destruct (Session.deviceInfo x) as [d|] eqn:Dx;
      [destruct (String.eqb d deviceId) eqn:Ed|].
    + unfold Prisma.session_delete. mrun.
      rewrite (proj2 (existsb_exists _ _)).
      2:{ exists x. split; [apply S; now left|apply String.eqb_refl]. }
      rewrite IH; [|exact Nl|].
      * cbn [fst snd db rng users sessions devices]. do 3 f_equal.
        rewrite filter_filter_and. apply filter_ext. intros s. cbn [existsb].
        now rewrite Bx, andb_true_r, negb_orb, (String.eqb_sym (Session.id x)).
      * cbn [db sessions]. intros y Iy. apply filter_In. split; [apply S; now right|].
        apply negb_true_iff, String.eqb_neq. intros Ey. apply Nx. rewrite <- Ey.
        now apply in_map.
    + unfold ret at 1. rewrite (IH w Nl) by (intros; apply S; now right).
      do 3 f_equal. apply filter_ext. intros s. cbn [existsb].
      now rewrite Bx, andb_false_r.
    + unfold ret at 1. rewrite (IH w Nl) by (intros; apply S; now right).
      do 3 f_equal. apply filter_ext. intros s. cbn [existsb].
      now rewrite Bx, andb_false_r.
Qed.

Lemma revokeDeviceSessions_run (userId deviceId : string) (w : World) :
  NoDup (map Session.id (sessions (db w))) ->
  TokenService.revokeDeviceSessions userId deviceId w
  = Prisma.session_deleteMany (on_device userId deviceId) w.
Proof.
  intros N. unfold TokenService.revokeDeviceSessions, Prisma.session_findMany.
  mrun. rewrite revokeEach_run.
  - unfold Prisma.session_deleteMany. mrun. do 3 f_equal.
    apply filter_ext_in. intros s Is. f_equal. unfold on_device.
    destruct (String.eqb (Session.userId s) userId) eqn:Us;
      destruct (bound_to deviceId s) eqn:Bs; cbn [andb].
    + apply existsb_exists. exists s. rewrite String.eqb_refl, Bs. split; [|reflexivity].
      apply filter_In. now split.
    + apply existsb_false_all. intros x Ix. apply filter_In in Ix as [Ix Ux].
      destruct (String.eqb_spec (Session.id x) (Session.id s)) as [E|_]; [|reflexivity].
      assert (x = s) by (eapply NoDup_map_eq; eauto). subst x. now rewrite Bs.
    + apply existsb_false_all. intros x Ix. apply filter_In in Ix as [Ix Ux].
      destruct (String.eqb_spec (Session.id x) (Session.id s)) as [E|_]; [|reflexivity].
      assert (x = s) by (eapply NoDup_map_eq; eauto). subst x. congruence.
    + apply existsb_false_all. intros x Ix. apply filter_In in Ix as [Ix Ux].
      destruct (String.eqb_spec (Session.id x) (Session.id s)) as [E|_]; [|reflexivity].
      assert (x = s) by (eapply NoDup_map_eq; eauto). subst x. congruence.
  - clear - N. induction (sessions (db w)) as [|a l IH]; [constructor|].
    inversion N as [|? ? Na Nl]; subst. cbn [filter].
    destruct (String.eqb (Session.userId a) userId); [|now apply IH].
    cbn [map]. constructor; [|now apply IH].
    intros I. apply Na. apply in_map_iff in I as (y & Ey & Iy).
    apply filter_In in Iy as [Iy _]. rewrite <- Ey. now apply in_map.
  - intros x Ix. now apply filter_In in Ix.
Qed.

End RevokeProps.

(** X6. In a store with unique session ids, the loop of
    [revokeDeviceSessions] (find the user's sessions, delete by id those
    bound to the device) does what one filtered [deleteMany] does: it
    removes exactly the user's sessions bound to that device, and cannot
    throw. DELETE /devices/:deviceId and the controller's [removeDevice]
    therefore end the same sessions; but the route deletes the Device rows
    whose primary key is the parameter and the controller those whose
    [deviceId] column is. *)
Theorem remove_device_route_and_controller `{J : Jsonwebtoken} (config : Config)
        (req : Request string) (now : Z) (w : World)
        (userId : string) (user : Middleware.AuthUser) :
  let route := Routes.delete_device config req now w in
  let controller := AuthController.removeDevice userId (body req) w in
  NoDup (map Session.id (sessions (db w))) ->
  Js.truthy userId = true ->
  Middleware.authenticate config req now (db w) = Middleware.Next userId user ->
  snd route = mkResponse 200 (BMessage "Device removed")
  /\ snd controller = mkResponse 200 (BMessage "Device removed")
  /\ sessions (db (fst route))
     = filter (fun s => negb (on_device userId (body req) s)) (sessions (db w))
  /\ sessions (db (fst controller)) = sessions (db (fst route))
  /\ devices (db (fst route))
     = filter (fun x => negb (String.eqb (Device.id x) (body req)
                              && String.eqb (Device.userId x) userId)) (devices (db w))
  /\ devices (db (fst controller))
     = filter (fun x => negb (String.eqb (Device.userId x) userId
                              && String.eqb (Device.deviceId x) (body req))) (devices (db w)).
Proof.
  intros route controller N T Au. subst route controller.
  unfold Routes.delete_device, Routes.authenticated, AuthController.removeDevice.
  rewrite Au. cbv beta iota. unfold AuthService.truthy_field. rewrite T.
  unfold handler. rewrite (bind_eq (TokenService.revokeDeviceSessions userId (body req))).
  rewrite (revokeDeviceSessions_run userId (body req) w N).
  unfold Prisma.session_deleteMany, Prisma.device_deleteMany, Prisma.device_key.
  mrun. cbn [fst snd db rng users sessions devices]. repeat split.
Qed.

Lemma createSession_then_refresh_witness :
  let out := @TokenService.createSession Reference.crypto Reference.jwt defaultConfig
               "u-bob" "device-2" (Some "203.0.113.7") "curl/8" Sample.now Sample.world in
  (exists row,
      sessions (db (fst out)) = (sessions (db Sample.world) ++ [row])%list
      /\ Session.expiresAt row = (Sample.now + 604800000)%Z)
  /\ (forall later, (Sample.now + 604800000 < later)%Z ->
        exists rt,
          snd out = Ok (Sample.accessToken "u-bob", rt)
          /\ @TokenService.refreshAccessToken Reference.jwt defaultConfig rt later (fst out)
             = (fst out, Ok None)).
Proof.
  destruct (@createSession_then_refresh Reference.crypto Reference.jwt defaultConfig
              "u-bob" "device-2" (Some "203.0.113.7") "curl/8" Sample.now Sample.world)
    as (R & (row & S & _ & _ & _ & _ & E) & _ & _ & Late & _).
  - intros I. vm_compute in I. intuition discriminate.
  - intros I. vm_compute in I. intuition discriminate.
  - split.
    + exists row. split; [exact S|exact E].
    + intros later L. eexists. split; [exact R|]. apply Late. exact L.
Defined.

Lemma post_logout_ends_session_witness :
  let token := @TokenService.generateAccessToken Reference.jwt defaultConfig "u-bob"
                 (Sample.now - 60000)%Z in
  let out := @Routes.post_logout Reference.jwt defaultConfig
               (Sample.bearer tt token) Sample.now Sample.world in
  snd out = mkResponse 200 (BMessage "Logged out successfully")
  /\ @TokenService.refreshAccessToken Reference.jwt defaultConfig "rt-bob"
       (Sample.now + 1000)%Z (fst out) = (fst out, Ok None).
Proof.
  intros token out.
  destruct (@post_logout_ends_session Reference.jwt defaultConfig
              (Sample.bearer tt token) Sample.now Sample.world token "u-bob"
              (Middleware.mkAuthUser "u-bob" "bob@x.com" "FREE" None None))
    as (R & _ & _ & _ & Refused).
  - reflexivity.
  - vm_compute. reflexivity.
  - cbn. repeat constructor; cbn; intuition discriminate.
  - split; [exact R|].
    apply (Refused (Sample.session "s-4" "u-bob" "rt-bob")); [|reflexivity].
    cbn. auto 6.
Defined.

Lemma logout_with_stale_token_witness :
  exists w1 row,
    fst (@TokenService.refreshAccessToken Reference.jwt defaultConfig
           "rt-bob" Sample.now Sample.world) = w1
    /\ Session.id row = "s-4"
    /\ In row (sessions (db (fst (TokenService.revokeSession
                                    (Session.token (Sample.session "s-4" "u-bob" "rt-bob"))
                                    w1)))).
Proof.
  destruct (@logout_with_stale_token Reference.jwt defaultConfig reference_jwt_laws
              Sample.world "rt-bob" (Sample.now - 60000)%Z Sample.now
              (Sample.session "s-4" "u-bob" "rt-bob")) as [_ Kept].
  - reflexivity.
  - vm_compute. discriminate.
  - intros I. vm_compute in I. intuition discriminate.
  - reflexivity.
  - vm_compute. discriminate.
  - eexists. eexists. split; [reflexivity|]. split; [|exact Kept]. reflexivity.
Defined.

Lemma remove_device_route_and_controller_witness :
  let req := Sample.bearer "device-1" (Sample.accessToken "u-alice") in
  map Session.id
      (sessions (db (fst (@Routes.delete_device Reference.jwt defaultConfig
                            req Sample.now Sample.world))))
  = ["s-2"; "s-4"]
  /\ sessions (db (fst (AuthController.removeDevice "u-alice" "device-1" Sample.world)))
     = sessions (db (fst (@Routes.delete_device Reference.jwt defaultConfig
                            req Sample.now Sample.world))).
Proof.
  intros req.
  destruct (@remove_device_route_and_controller Reference.jwt defaultConfig
              req Sample.now Sample.world "u-alice"
              (Middleware.mkAuthUser "u-alice" "alice@x.com" "FREE" None None))
    as (_ & _ & Route & Same & _).
  - cbn. repeat constructor; cbn; intuition discriminate.
  - reflexivity.
  - vm_compute. reflexivity.
  - split; [rewrite Route; reflexivity|exact Same].
Defined.

Section LogoutAllProps.
Context `{J : Jsonwebtoken}.
Variable config : Config.

(** X7. POST /logout-all for an authenticated user answers 200 and leaves
    no session of that user, whatever its device, and every session of the
    other users; the controller's [logoutAll] does the same. In a store
    with unique refresh tokens, none of the user's earlier refresh tokens
    is accepted afterwards. *)
Theorem logout_all_ends_every_session (req : Request unit) (now : Z) (w : World)
        (userId : string) (user : Middleware.AuthUser) :
  let out := Routes.post_logout_all config req now w in
  Js.truthy userId = true ->
  Middleware.authenticate config req now (db w) = Middleware.Next userId user ->
  NoDup (map Session.refreshToken (sessions (db w))) ->
  out = (mkWorld (mkDb (users (db w))
                       (filter (fun s => negb (String.eqb (Session.userId s) userId))
                               (sessions (db w)))
                       (devices (db w))) (rng w),
         mkResponse 200 (BMessage "Logged out from all devices"))
  /\ AuthController.logoutAll userId w = out
  /\ (forall s, In s (sessions (db (fst out))) -> Session.userId s <> userId)
  /\ (forall s, Session.userId s <> userId ->
                In s (sessions (db w)) -> In s (sessions (db (fst out))))
  /\ (forall s later,
        In s (sessions (db w)) -> Session.userId s = userId ->
        TokenService.refreshAccessToken config (Session.refreshToken s) later (fst out)
        = (fst out, Ok None)).
Proof.
  intros out T Au N.
  assert (R : out = (mkWorld (mkDb (users (db w))
                       (filter (fun s => negb (String.eqb (Session.userId s) userId))
                               (sessions (db w)))
                       (devices (db w))) (rng w),
         mkResponse 200 (BMessage "Logged out from all devices"))).
  { subst out. unfold Routes.post_logout_all, Routes.authenticated. rewrite Au.
    cbv beta iota. unfold AuthService.truthy_field. rewrite T. reflexivity. }
  rewrite R. cbn [fst snd db sessions]. repeat split.
  - intros s Is. apply filter_In in Is as [_ Is].
    now apply negb_true_iff, String.eqb_neq in Is.
  - intros s Ns Is. apply filter_In. split; [exact Is|].
    now apply negb_true_iff, String.eqb_neq.
  - intros s later Is Us. apply refresh_unknown. cbn [db sessions].
    apply find_none_all. intros v Iv. apply filter_In in Iv as [Iv Tv].
    apply String.eqb_neq. intros Er.
    assert (v = s) by (eapply NoDup_map_eq; eauto). subst v.
    rewrite Us, String.eqb_refl in Tv. discriminate.
Qed.

End LogoutAllProps.

Lemma logout_all_ends_every_session_witness :
  let out := @Routes.post_logout_all Reference.jwt defaultConfig
               (Sample.bearer tt (Sample.accessToken "u-alice")) Sample.now Sample.world in
  map Session.id (sessions (db (fst out))) = ["s-2"; "s-4"]
  /\ @TokenService.refreshAccessToken Reference.jwt defaultConfig "rt-alice-2"
       Sample.now (fst out) = (fst out, Ok None).
Proof.
  intros out.
  destruct (@logout_all_ends_every_session Reference.jwt defaultConfig
              (Sample.bearer tt (Sample.accessToken "u-alice")) Sample.now Sample.world
              "u-alice" (Middleware.mkAuthUser "u-alice" "alice@x.com" "FREE" None None))
    as (R & _ & _ & _ & Refused).
  - reflexivity.
  - vm_compute. reflexivity.
  - cbn. repeat constructor; cbn; intuition discriminate.
  - split.
    + subst out. rewrite R. reflexivity.
    + apply (Refused (Sample.session "s-3" "u-alice" "rt-alice-2")); [|reflexivity].
      cbn. auto 6.
Defined.

Section ResetTokenProps.
Context `{Crypto : NodeCrypto}.

(** The row after a reset token was issued at [now]. *)
Lemma createPasswordResetToken_run (userId : string) (now : Z) (w : World) (u : User.t) :
  let token := Hex.toHex (fst (randomBytes 32 (rng w))) in
  find (fun v => String.eqb (User.id v) userId) (users (db w)) = Some u ->
  AuthService.createPasswordResetToken userId now w
  = (mkWorld
       (mkDb (map (fun v => if String.eqb (User.id v) userId
                            then User.set_passwordResetTokenExpiry (Some (now + 3600000)%Z)
                                   (User.set_passwordResetTokenHash
                                      (Some (sha256_hex token)) v)
                            else v) (users (db w)))
             (sessions (db w)) (devices (db w)))
       (snd (randomBytes 32 (rng w))),
     Ok token).
Proof.
  intros token F. subst token.
  unfold AuthService.createPasswordResetToken, Prisma.user_update.
  mrun. cbn [randomBytes db rng fst snd]. rewrite F. reflexivity.
Qed.

(** X8. A reset token issued at [now] for an existing user (no other
    user holding the same token hash) is returned to the caller, stored
    only as its SHA-256 with an expiry one hour later, and
    [verifyPasswordResetToken] maps it back to the user at every instant
    strictly before [now] + 1 h and to null from then on; sessions and
    devices are untouched. *)
Theorem reset_token_valid_for_one_hour (userId : string) (now : Z) (w : World)
        (u : User.t) :
  let token := Hex.toHex (fst (randomBytes 32 (rng w))) in
  let out := AuthService.createPasswordResetToken userId now w in
  find (fun v => String.eqb (User.id v) userId) (users (db w)) = Some u ->
  Js.truthy userId = true ->
  (forall v, In v (users (db w)) -> User.id v <> userId ->
             User.passwordResetTokenHash v <> Some (sha256_hex token)) ->
  snd out = Ok token
  /\ sessions (db (fst out)) = sessions (db w)
  /\ devices (db (fst out)) = devices (db w)
  /\ (forall v, In v (users (db (fst out))) -> User.id v = userId ->
                User.passwordResetTokenHash v = Some (sha256_hex token)
                /\ User.passwordResetTokenExpiry v = Some (now + 3600000)%Z)
  /\ (forall later,
        AuthService.verifyPasswordResetToken token later (fst out)
        = (fst out, Ok (if (later <? now + 3600000)%Z then Some userId else None))).
Proof.
  intros token out F T Others. subst out.
  rewrite (createPasswordResetToken_run userId now w u F). fold token.
  cbn [fst snd db users sessions devices].
  set (f := fun v => if String.eqb (User.id v) userId
                     then User.set_passwordResetTokenExpiry (Some (now + 3600000)%Z)
                            (User.set_passwordResetTokenHash (Some (sha256_hex token)) v)
                     else v).
  assert (Kid : forall v, User.id (f v) = User.id v).
  { intros v. unfold f. now destruct (String.eqb (User.id v) userId). }
  assert (Km : forall later v, In v (users (db w)) ->
              Prisma.reset_matches (sha256_hex token) later (f v)
              = String.eqb (User.id v) userId && (later <? now + 3600000)%Z).
  { intros later v Iv. unfold f.
    destruct (String.eqb_spec (User.id v) userId) as [E|E].
    - unfold Prisma.reset_matches. cbn. now rewrite String.eqb_refl.
    - specialize (Others v Iv E). unfold Prisma.reset_matches.
      destruct (User.passwordResetTokenHash v) as [h|]; [|reflexivity].
      destruct (User.passwordResetTokenExpiry v); [|reflexivity].
      destruct (String.eqb_spec h (sha256_hex token)) as [->|_]; [congruence|reflexivity]. }
  split; [reflexivity|]. split; [reflexivity|]. split; [reflexivity|]. split.
  - intros x Ix Ex. apply in_map_iff in Ix as (v & <- & Iv). rewrite Kid in Ex.
    unfold f. apply String.eqb_eq in Ex. rewrite Ex. split; reflexivity.
  - intros later. unfold AuthService.verifyPasswordResetToken, Prisma.user_findFirst_reset.
    mrun. cbn [db users]. do 2 f_equal.
    destruct (later <? now + 3600000)%Z eqn:L.
    + rewrite find_ext_in with (q := fun v => String.eqb (User.id v) userId).
      * rewrite (find_map_id f userId _ Kid), F. cbn [option_map]. rewrite Kid.
        destruct (find_In _ _ _ F) as [_ Eu]. apply String.eqb_eq in Eu.
        now rewrite Eu, T.
      * intros x Ix. apply in_map_iff in Ix as (v & <- & Iv).
        now rewrite (Km later v Iv), L, andb_true_r, Kid.
    + rewrite find_none_all; [reflexivity|].
      intros x Ix. apply in_map_iff in Ix as (v & <- & Iv).
      now rewrite (Km later v Iv), L, andb_false_r.
Qed.

Context `{Hasher : PasswordHasher}.

(** X9. A reset token is single-use: once [confirmPasswordReset] has
    accepted it (no user other than its owner holding the same token
    hash), the token is unknown at every later instant, and a second
    confirmation with it answers 400 and changes nothing. *)
Theorem reset_token_single_use (req : Request ResetConfirmBody) (now : Z) (w : World)
        (u : User.t) :
  let token := rc_token (body req) in
  let out := AuthController.confirmPasswordReset req now w in
  find (Prisma.reset_matches (sha256_hex token) now) (users (db w)) = Some u ->
  Js.truthy (User.id u) = true ->
  (forall v, In v (users (db w)) ->
             User.passwordResetTokenHash v = Some (sha256_hex token) ->
             User.id v = User.id u) ->
  status (snd out) = 200
  /\ (forall later,
        AuthService.verifyPasswordResetToken token later (fst out) = (fst out, Ok None))
  /\ (forall again later,
        rc_token (body again) = token ->
        AuthController.confirmPasswordReset again later (fst out)
        = (fst out, mkResponse 400 (BError "Invalid or expired reset token"))).
Proof.
  intros token out F T Owner. destruct (find_In _ _ _ F) as [I _].
  assert (R : out = (reset_world (User.id u) (rc_password (body req)) w,
                     mkResponse 200
                       (BMessage "Password reset successful. Please login with your new password."))).
  { subst out token. unfold AuthController.confirmPasswordReset, handler. cbv zeta.
    rewrite bind_eq, (verifyPasswordResetToken_valid _ _ _ _ F T).
    unfold TokenService.revokeAllSessions.
    now rewrite (reset_tail (User.id u) _ w u _ I eq_refl). }
  rewrite R. cbn [fst snd status].
  assert (V : forall later,
             AuthService.verifyPasswordResetToken token later
               (reset_world (User.id u) (rc_password (body req)) w)
             = (reset_world (User.id u) (rc_password (body req)) w, Ok None)).
  { intros later. unfold AuthService.verifyPasswordResetToken, Prisma.user_findFirst_reset.
    mrun. rewrite find_none_all; [reflexivity|].
    intros x Ix. unfold reset_world in Ix. cbn [db users] in Ix.
    apply in_map_iff in Ix as (v & <- & Iv). unfold Prisma.reset_matches.
    destruct (String.eqb_spec (User.id v) (User.id u)) as [E|E]; [reflexivity|].
    destruct (User.passwordResetTokenHash v) as [h|] eqn:Hv; [|reflexivity].
    destruct (User.passwordResetTokenExpiry v); [|reflexivity].
    destruct (String.eqb_spec h (sha256_hex token)) as [->|_]; [|reflexivity].
    exfalso. apply E. now apply Owner. }
  split; [reflexivity|]. split; [exact V|].
  intros again later Et. unfold AuthController.confirmPasswordReset, handler. cbv zeta.
  rewrite bind_eq, Et, V. reflexivity.
Qed.

End ResetTokenProps.

Lemma reset_token_valid_for_one_hour_witness :
  exists token w',
    @AuthService.createPasswordResetToken Reference.crypto "u-alice" Sample.now Sample.world
    = (w', Ok token)
    /\ @AuthService.verifyPasswordResetToken Reference.crypto token
         (Sample.now + 3599999)%Z w' = (w', Ok (Some "u-alice"))
    /\ @AuthService.verifyPasswordResetToken Reference.crypto token
         (Sample.now + 3600000)%Z w' = (w', Ok None).
Proof.
  destruct (@reset_token_valid_for_one_hour Reference.crypto "u-alice" Sample.now
              Sample.world Sample.alice) as (R & _ & _ & _ & V).
  - reflexivity.
  - reflexivity.
  - intros v Iv _ E. cbn [Sample.world db users In] in Iv.
    repeat (destruct Iv as [<-|Iv]; [discriminate E|]). destruct Iv.
  - exists (Hex.toHex (fst (randomBytes 32 (rng Sample.world)))).
    exists (fst (@AuthService.createPasswordResetToken Reference.crypto
                   "u-alice" Sample.now Sample.world)).
    split; [|split].
    + rewrite <- R. apply surjective_pairing.
    + now rewrite V.
    + now rewrite V.
Defined.

Lemma reset_token_single_use_witness :
  let req := Sample.request (mkResetConfirmBody Sample.resetToken "N3wPassw0rd") in
  let out := @AuthController.confirmPasswordReset Reference.crypto Reference.hasher
               req (Sample.now + 1000)%Z Sample.resetWorld in
  status (snd out) = 200
  /\ @AuthController.confirmPasswordReset Reference.crypto Reference.hasher
       req (Sample.now + 2000)%Z (fst out)
     = (fst out, mkResponse 400 (BError "Invalid or expired reset token")).
Proof.
  intros req out.
  destruct (@reset_token_single_use Reference.crypto Reference.hasher
              req (Sample.now + 1000)%Z Sample.resetWorld Sample.resetUser)
    as (S & _ & Again).
  - vm_compute. reflexivity.
  - reflexivity.
  - intros v Iv E. vm_compute in Iv.
    repeat (destruct Iv as [<-|Iv]; [first [reflexivity|discriminate E]|]). destruct Iv.
  - split; [exact S|]. apply Again. reflexivity.
Defined.

(** ** Password reset requests and password changes *)

Section ResetRequestProps.
Context `{Crypto : NodeCrypto} `{Mail : EmailService} `{Builtins : Js.Builtins}.

(** X10. [AuthController.requestPasswordReset] gives the same 200 answer
    for every email, known or not, and whether or not the mail could be
    sent; it never answers 500. For an unknown email nothing changes; for
    a known one, deactivated accounts included, the hash of a fresh token
    and an expiry one hour ahead are stored. Sessions and devices are
    untouched. *)
Theorem requestPasswordReset_generic_answer (req : Request string) (now : Z) (w : World) :
  let out := AuthController.requestPasswordReset req now w in
  let found := find (fun u => String.eqb (User.email u) (Js.toLowerCase (body req)))
                    (users (db w)) in
  let token := Hex.toHex (fst (randomBytes 32 (rng w))) in
  snd out = AuthController.resetRequested
  /\ sessions (db (fst out)) = sessions (db w)
  /\ devices (db (fst out)) = devices (db w)
  /\ match found with
     | None => fst out = w
     | Some u =>
         users (db (fst out))
         = map (fun v => if String.eqb (User.id v) (User.id u)
                         then User.set_passwordResetTokenExpiry (Some (now + 3600000)%Z)
                                (User.set_passwordResetTokenHash
                                   (Some (sha256_hex token)) v)
                         else v) (users (db w))
     end.
Proof.
  cbv zeta. unfold AuthController.requestPasswordReset, Prisma.user_findUnique_email.
  mrun.
  destruct (find _ (users (db w))) as [u|] eqn:F; [|repeat split].
  destruct (find_In _ _ _ F) as [I _].
  destruct (find_some_in (fun v => String.eqb (User.id v) (User.id u)) _ u I
              (String.eqb_refl _)) as [b Fb].
  rewrite (createPasswordResetToken_run (User.id u) now w b Fb).
  destruct (sendPasswordResetEmail _ _ _); repeat split.
Qed.

Context `{V : Validator}.

(** X11. POST /password/reset with a well-formed email: for an unknown
    or deactivated account nothing changes and the answer is the generic
    200; for an active account the token hash and expiry are stored, and
    the answer is the generic 200 when the mail is sent but 500 when
    sending throws. *)
Theorem post_password_reset_cases (req : Request string) (now : Z) (w : World) :
  let out := Routes.post_password_reset req now w in
  let found := find (fun u => String.eqb (User.email u) (normalizeEmail (body req)))
                    (users (db w)) in
  let token := Hex.toHex (fst (randomBytes 32 (rng w))) in
  let generic := mkResponse 200
      (BMessage "If an account exists, a password reset email has been sent.") in
  isEmail (body req) = true ->
  match found with
  | None => out = (w, generic)
  | Some u =>
      match User.deletedAt u with
      | Some _ => out = (w, generic)
      | None =>
          users (db (fst out))
          = map (fun v => if String.eqb (User.id v) (User.id u)
                          then User.set_passwordResetTokenExpiry (Some (now + 3600000)%Z)
                                 (User.set_passwordResetTokenHash
                                    (Some (sha256_hex token)) v)
                          else v) (users (db w))
          /\ snd out
             = match sendPasswordResetEmail (User.email u) token
                       (AuthService.truthy_field (User.name u)) with
               | Ok _ => generic
               | Throw _ =>
                   mkResponse 500 (BError "Failed to process password reset request")
               end
      end
  end.
Proof.
  cbv zeta. intros Em. unfold Routes.post_password_reset, Prisma.user_findUnique_email.
  rewrite Em. cbn [negb]. mrun.
  destruct (find _ (users (db w))) as [u|] eqn:F; [|reflexivity].
  destruct (User.deletedAt u); [reflexivity|].
  destruct (find_In _ _ _ F) as [I _].
  destruct (find_some_in (fun v => String.eqb (User.id v) (User.id u)) _ u I
              (String.eqb_refl _)) as [b Fb].
  rewrite (createPasswordResetToken_run (User.id u) now w b Fb).
  destruct (sendPasswordResetEmail _ _ _) as [[]|e]; split; reflexivity.
Qed.

End ResetRequestProps.

Lemma post_password_reset_cases_witness :
  snd (@Routes.post_password_reset Reference.crypto Reference.validator
         Reference.failingEmailService (Sample.request "bob@x.com") Sample.now Sample.world)
  = mkResponse 500 (BError "Failed to process password reset request")
  /\ @Routes.post_password_reset Reference.crypto Reference.validator
       Reference.failingEmailService (Sample.request "carol@x.com") Sample.now Sample.world
     = (Sample.world,
        mkResponse 200
          (BMessage "If an account exists, a password reset email has been sent.")).
Proof.
  split.
  - pose proof (@post_password_reset_cases Reference.crypto Reference.failingEmailService
                  Reference.validator (Sample.request "bob@x.com") Sample.now Sample.world
                  eq_refl) as C.
    cbv zeta in C.
    change (find _ (users (db Sample.world))) with (Some Sample.bob) in C.
    exact (proj2 C).
  - exact (@post_password_reset_cases Reference.crypto Reference.failingEmailService
             Reference.validator (Sample.request "carol@x.com") Sample.now Sample.world
             eq_refl).
Defined.

Section PasswordProps.
Context `{Hasher : PasswordHasher}.

(** X12. [changePassword] answers 200 exactly when the user exists with a
    password hash that the current password verifies against; it then
    stores the hash of the new password on the user's rows and nothing
    else. Every other answer leaves the state as it was, and in no case
    is a session or a device removed. *)
Theorem changePassword_effects (userId currentPassword newPassword : string) (w : World) :
  let out := AuthController.changePassword userId currentPassword newPassword w in
  let newHash := fst (hashPassword newPassword (rng w)) in
  sessions (db (fst out)) = sessions (db w)
  /\ devices (db (fst out)) = devices (db w)
  /\ (status (snd out) = 200
      <-> exists u h,
            find (fun v => String.eqb (User.id v) userId) (users (db w)) = Some u
            /\ User.passwordHash u = Some h /\ Js.truthy h = true
            /\ verifyPassword currentPassword h = true)
  /\ (status (snd out) = 200 ->
      users (db (fst out))
      = map (fun v => if String.eqb (User.id v) userId
                      then User.set_passwordHash (Some newHash) v else v) (users (db w)))
  /\ (status (snd out) <> 200 -> fst out = w).
Proof.
  cbv zeta. unfold AuthController.changePassword, Prisma.user_findUnique_id,
    Prisma.user_update, handler.
  mrun.
  destruct (find _ (users (db w))) as [u|] eqn:F.
  2:{ cbn. repeat split; try discriminate. intros (u & h & [=] & _). }
  unfold AuthService.truthy_field.
  destruct (User.passwordHash u) as [h|] eqn:Ph.
  2:{ cbn. repeat split; try discriminate. intros (u' & h & [= <-] & ? & _). congruence. }
  destruct (Js.truthy h) eqn:Th.
  2:{ cbn. repeat split; try discriminate.
      intros (u' & h' & [= <-] & ? & ? & _). congruence. }
  destruct (verifyPassword currentPassword h) eqn:Vp; cbn [negb].
  2:{ cbn. repeat split; try discriminate.
      intros (u' & h' & [= <-] & ? & ? & ?). congruence. }
  destruct (hashPassword newPassword (rng w)) as [nh r'] eqn:Eh.
  cbn [db rng fst snd users sessions devices]. rewrite F.
  cbn [fst snd db users sessions devices status]. repeat split.
  - intros _. exists u, h. auto.
  - intros N. now contradiction N.
Qed.

End PasswordProps.

(** ** Multi-factor authentication *)

Section DisableMfaProps.
Context `{Crypto : NodeCrypto} `{S : Speakeasy} `{Hasher : PasswordHasher}.
Variable config : Config.

(** X13. [disableMfa] answers 200 only for an existing user whose
    password verifies and, when a secret is stored, whose code is the TOTP
    code of a time step at most one step away (a backup code is not
    accepted); it then clears the flag, the secret and the backup codes
    on the user's rows. Every other answer leaves the state as it was, and
    sessions are never touched. *)
Theorem disableMfa_effects (userId password code : string) (now : Z) (w : World) :
  let out := AuthController.disableMfa config userId password code now w in
  (status (snd out) = 200 ->
   (exists u h,
       find (fun v => String.eqb (User.id v) userId) (users (db w)) = Some u
       /\ User.passwordHash u = Some h
       /\ verifyPassword password h = true
       /\ (forall stored,
              User.mfaSecret u = Some stored -> Js.truthy stored = true ->
              exists secret,
                Encryption.decrypt stored (encryption_key config) = Ok secret
                /\ within_steps 1 secret code now))
   /\ users (db (fst out))
      = map (fun v => if String.eqb (User.id v) userId
                      then User.set_backupCodes None
                             (User.set_mfaSecret None (User.set_mfaEnabled false v))
                      else v) (users (db w)))
  /\ (status (snd out) <> 200 -> fst out = w)
  /\ sessions (db (fst out)) = sessions (db w).
Proof.
  cbv zeta. unfold AuthController.disableMfa, Prisma.user_findUnique_id, Prisma.user_update.
  mrun.
  destruct (find _ (users (db w))) as [u|] eqn:F; [|cbn; repeat split; discriminate].
  unfold AuthService.truthy_field.
  destruct (User.passwordHash u) as [h|] eqn:Ph; [|cbn; repeat split; discriminate].
  destruct (Js.truthy h) eqn:Th; [|cbn; repeat split; discriminate].
  destruct (verifyPassword password h) eqn:Vp; cbn [negb];
    [|cbn; repeat split; discriminate].
  destruct (User.mfaSecret u) as [stored|] eqn:Ms.
  - destruct (Js.truthy stored) eqn:Ts.
    + destruct (Encryption.decrypt stored (encryption_key config)) as [secret|e] eqn:D;
        [|cbn; repeat split; discriminate].
      destruct (totp_verify secret code 1 now) eqn:Tv; cbn [negb];
        [|cbn; repeat split; discriminate].
      rewrite F. cbn [fst snd db users sessions devices status]. repeat split.
      * exists u, h. split; [reflexivity|]. split; [exact Ph|]. split; [exact Vp|].
        intros stored' E' _. rewrite Ms in E'. injection E' as <-. exists secret. split; [exact D|].
        now apply (within_steps_verify 1).
      * intros N. now contradiction N.
    + rewrite F. cbn [fst snd db users sessions devices status]. repeat split.
      * exists u, h. split; [reflexivity|]. split; [exact Ph|]. split; [exact Vp|].
        intros stored' E' T'. rewrite Ms in E'. injection E' as <-. congruence.
      * intros N. now contradiction N.
  - rewrite F. cbn [fst snd db users sessions devices status]. repeat split.
    + exists u, h. split; [reflexivity|]. split; [exact Ph|]. split; [exact Vp|].
      intros stored' E'. rewrite Ms in E'. discriminate.
    + intros N. now contradiction N.
Qed.

End DisableMfaProps.

Section VerifyMfaProps.
Context `{Crypto : NodeCrypto} `{J : Jsonwebtoken} `{S : Speakeasy}
        `{JS : JsonCodec} `{Hasher : PasswordHasher}.
Variable config : Config.

(** The backup-code branch lets the handler go on only for a listed code. *)
Lemma checkBackupCodes_accepts (u : User.t) (code : string) (w w' : World)
      (answered : option Response) :
  AuthController.checkBackupCodes u code w = (w', Ok answered) ->
  match answered with
  | Some r => r = AuthController.invalidMfaCode /\ w' = w
  | None =>
      exists column items,
        User.backupCodes u = Some column
        /\ JSON_parse (AuthController.column_text column) = Some (JArray items)
        /\ In (JString code) items
  end.
Proof.
  unfold AuthController.checkBackupCodes, Prisma.user_update. mrun.
  destruct (User.backupCodes u) as [column|]; [|now intros [= <- <-]].
  destruct (AuthController.column_truthy column); cbn [negb]; [|now intros [= <- <-]].
  destruct (JSON_parse (AuthController.column_text column))
    as [[|b|z|s|items|fields]|] eqn:P; try discriminate.
  - destruct (Js.contains code s); [discriminate|now intros [= <- <-]].
  - destruct (Js.indexOf (AuthController.is_code code) items) as [i|] eqn:Ix;
      [|now intros [= <- <-]].
    destruct (find _ (users (db w))); [|discriminate]. intros [= <- <-].
    exists column, items. repeat split; auto.
    destruct (in_indexOf _ _ _ Ix) as (x & Ixs & Px).
    destruct x as [|b|z|text|l|l]; try discriminate. cbn in Px.
    apply String.eqb_eq in Px. now subst text.
Qed.

(** X14. [verifyMfa] answers 200 (and so issues a session) only when the
    temporary token is a valid, unexpired MFA token of an existing user
    with a stored secret that decrypts, and the submitted code is either
    the TOTP code of a time step at most one step away or an element of
    the user's stored backup codes. *)
Theorem verifyMfa_issues_only_on_valid_code (req : Request VerifyMfaBody) (now : Z)
        (w : World) :
  status (snd (AuthController.verifyMfa config req now w)) = 200 ->
  exists userId u stored secret,
    TokenService.verifyTempToken config (vb_tempToken (body req)) now = Some userId
    /\ find (fun v => String.eqb (User.id v) userId) (users (db w)) = Some u
    /\ User.mfaSecret u = Some stored
    /\ Encryption.decrypt stored (encryption_key config) = Ok secret
    /\ (within_steps 1 secret (vb_code (body req)) now
        \/ exists column items,
             User.backupCodes u = Some column
             /\ JSON_parse (AuthController.column_text column) = Some (JArray items)
             /\ In (JString (vb_code (body req))) items).
Proof.
  unfold AuthController.verifyMfa, TokenService.verifyTemporaryToken,
    Prisma.user_findUnique_id, handler.
  cbv zeta. rewrite bind_eq. unfold ret at 1. cbv beta iota.
  destruct (TokenService.verifyTempToken config (vb_tempToken (body req)) now)
    as [userId|] eqn:Tk; cbn [AuthService.truthy_field]; [|discriminate].
  destruct (Js.truthy userId); [|discriminate].
  rewrite bind_eq, bind_eq. unfold get_db at 1, ret at 1. cbv beta iota.
  destruct (find _ (users (db w))) as [u|] eqn:F; [|discriminate].
  destruct (User.mfaSecret u) as [stored|] eqn:Ms; cbn [AuthService.truthy_field];
    [|discriminate].
  destruct (Js.truthy stored); [|discriminate].
  rewrite bind_eq. unfold lift at 1.
  destruct (Encryption.decrypt stored (encryption_key config)) as [secret|e] eqn:D;
    [|discriminate].
  rewrite bind_eq.
  destruct (totp_verify secret (vb_code (body req)) 1 now) eqn:Tv; cbn [negb].
  - intros _. exists userId, u, stored, secret. repeat split; auto.
    left. now apply (within_steps_verify 1).
  - destruct (AuthController.checkBackupCodes u (vb_code (body req)) w)
      as [w' [[r|]|e]] eqn:Cb.
    + apply checkBackupCodes_accepts in Cb as [-> _]. discriminate.
    + apply checkBackupCodes_accepts in Cb. intros _.
      exists userId, u, stored, secret. repeat split; auto.
    + discriminate.
Qed.

End VerifyMfaProps.

Section MfaInvariant.
Context `{Crypto : NodeCrypto} `{J : Jsonwebtoken} `{S : Speakeasy}
        `{Hasher : PasswordHasher} `{JS : JsonCodec} `{Q : QrCode}
        `{Mail : EmailService} `{V : Validator} `{Builtins : Js.Builtins}.
Variable config : Config.

Lemma truthy_encrypt (text key : string) (r : Rng) :
  Js.truthy (fst (Encryption.encrypt text key r)) = true.
Proof. rewrite encrypt_eq. cbn [fst]. unfold Encryption.seal_blob. apply truthy_app_sep. Qed.

(** An update of the rows of one user keeps the invariant when it keeps
    the id and leaves no row enabled without a secret. *)
Lemma mfa_invariant_update (userId : string) (data : User.t -> User.t) (d : Db)
      (ss : list Session.t) (ds : list Device.t) :
  mfa_invariant d ->
  (forall v, User.id (data v) = User.id v) ->
  (forall v, In v (users d) -> User.id v = userId -> secret_stored v ->
             secret_stored (data v)) ->
  mfa_invariant (mkDb (map (fun v => if String.eqb (User.id v) userId then data v else v)
                           (users d)) ss ds).
Proof.
  intros [N C] Kid Kd. split; cbn [users].
  - rewrite map_map. erewrite map_ext; [exact N|]. intros v. cbv beta.
    now destruct (String.eqb (User.id v) userId).
  - intros x Ix. apply in_map_iff in Ix as (v & <- & Iv).
    destruct (String.eqb_spec (User.id v) userId) as [E|_]; [|now apply C].
    apply Kd; auto.
Qed.

Lemma mfa_invariant_frame (d : Db) (ss : list Session.t) (ds : list Device.t) :
  mfa_invariant d -> mfa_invariant (mkDb (users d) ss ds).
Proof. intros [N C]. split; [exact N|exact C]. Qed.

(** X15. The MFA handlers keep the invariant "user ids are unique and
    every user with MFA enabled has a stored, non-empty secret": it holds
    after [setupMfa], [enableMfa], [disableMfa], POST /mfa/setup and POST
    /mfa/enable whenever it held before, whatever they answer. *)
Theorem mfa_invariant_preserved (w : World) (userId : string) (userEmail : option string)
        (password code : string) (now : Z)
        (setup : Request unit) (enable : Request string) :
  mfa_invariant (db w) ->
  mfa_invariant (db (fst (AuthController.setupMfa config userId userEmail now w)))
  /\ mfa_invariant (db (fst (AuthController.enableMfa config userId code now w)))
  /\ mfa_invariant (db (fst (AuthController.disableMfa config userId password code now w)))
  /\ mfa_invariant (db (fst (Routes.post_mfa_setup config setup now w)))
  /\ mfa_invariant (db (fst (Routes.post_mfa_enable config enable now w))).
Proof.
  intros Inv.
  assert (Enable : forall uid u stored,
             find (fun v => String.eqb (User.id v) uid) (users (db w)) = Some u ->
             User.mfaSecret u = Some stored -> Js.truthy stored = true ->
             forall data,
               (forall v, User.id (data v) = User.id v) ->
               (forall v, User.mfaSecret (data v) = User.mfaSecret v) ->
               mfa_invariant
                 (mkDb (map (fun v => if String.eqb (User.id v) uid then data v else v)
                            (users (db w))) (sessions (db w)) (devices (db w)))).
  { intros uid u stored F Ms Ts data Kid Ksec.
    apply mfa_invariant_update; [exact Inv|exact Kid|].
    intros v Iv Ev _ _. destruct (find_In _ _ _ F) as [Iu Eu]. apply String.eqb_eq in Eu.
    assert (v = u) by (eapply NoDup_map_eq; [apply Inv| | |]; congruence). subst v.
    exists stored. now rewrite Ksec. }
  split; [|split; [|split; [|split]]].
  - unfold AuthController.setupMfa, Prisma.user_update. mrun.
    destruct (generateSecret _ 32 (rng w)) as [[base32 url] r1]. cbn [db rng].
    pose proof (truthy_encrypt base32 (encryption_key config) r1) as Te.
    destruct (Encryption.encrypt base32 (encryption_key config) r1) as [enc r2].
    cbn [fst] in Te. cbn [db rng users sessions devices].
    destruct (find _ (users (db w))); cbn [fst db]; [|exact Inv].
    apply mfa_invariant_update; [exact Inv|reflexivity|].
    intros v _ _ _ _. exists enc. split; [reflexivity|exact Te].
  - unfold AuthController.enableMfa, Prisma.user_findUnique_id, Prisma.user_update. mrun.
    destruct (find _ (users (db w))) as [u|] eqn:F; [|exact Inv].
    unfold AuthService.truthy_field at 1.
    destruct (User.mfaSecret u) as [stored|] eqn:Ms; [|exact Inv].
    destruct (Js.truthy stored) eqn:Ts; [|exact Inv].
    destruct (Encryption.decrypt stored (encryption_key config)); [|exact Inv].
    destruct (totp_verify _ code 1 now); cbn [negb]; [|exact Inv].
    destruct (generateBackupCodes 10 (rng w)) as [codes r1].
    cbn [db rng users sessions devices]. rewrite F.
    destruct (sendMfaBackupCodesEmail _ _ _); cbn [fst db];
      now apply (Enable userId u stored).
  - unfold AuthController.disableMfa, Prisma.user_findUnique_id, Prisma.user_update. mrun.
    destruct (find _ (users (db w))) as [u|] eqn:F; [|exact Inv].
    unfold AuthService.truthy_field.
    destruct (User.passwordHash u) as [h|]; [|exact Inv].
    destruct (Js.truthy h); [|exact Inv].
    destruct (verifyPassword password h); cbn [negb]; [|exact Inv].
    assert (Done : mfa_invariant
                     (mkDb (map (fun v => if String.eqb (User.id v) userId
                                          then User.set_backupCodes None
                                                 (User.set_mfaSecret None
                                                    (User.set_mfaEnabled false v))
                                          else v) (users (db w)))
                           (sessions (db w)) (devices (db w)))).
    { apply mfa_invariant_update; [exact Inv|reflexivity|]. intros v _ _ _ En.
      discriminate En. }
    destruct (User.mfaSecret u) as [stored|].
    + destruct (Js.truthy stored).
      * destruct (Encryption.decrypt stored (encryption_key config)); [|exact Inv].
        destruct (totp_verify _ code 1 now); cbn [negb]; [|exact Inv].
        rewrite F. exact Done.
      * rewrite F. exact Done.
    + rewrite F. exact Done.
  - unfold Routes.post_mfa_setup, Routes.authenticated.
    destruct (Middleware.authenticate config setup now (db w)) as [r|uid au|e];
      [exact Inv| |exact Inv].
    unfold Prisma.user_findUnique_id, Prisma.user_update. mrun.
    unfold AuthService.truthy_field. destruct (Js.truthy uid); [|exact Inv].
    destruct (find _ (users (db w))) as [u|] eqn:F; [|exact Inv].
    destruct (generateSecret _ 32 (rng w)) as [[base32 url] r1]. cbn [db rng].
    pose proof (truthy_encrypt (Js.or_else base32 "") (encryption_key config) r1) as Te.
    destruct (Encryption.encrypt _ (encryption_key config) r1) as [enc r2].
    cbn [fst] in Te. cbn [db rng].
    destruct (generateBackupCodes 10 r2) as [codes r3]. cbn [db rng].
    destruct (encryptEach codes (encryption_key config) r3) as [blobs r4].
    cbn [db rng users sessions devices].
    destruct (find_In _ _ _ F) as [Iu _].
    destruct (find_some_in (fun v => String.eqb (User.id v) (User.id u)) _ u Iu
                (String.eqb_refl _)) as [b Fb].
    rewrite Fb. cbn [fst db].
    apply mfa_invariant_update; [exact Inv|reflexivity|].
    intros v _ _ _ _. exists enc. split; [reflexivity|exact Te].
  - unfold Routes.post_mfa_enable, Routes.authenticated.
    destruct (Middleware.authenticate config enable now (db w)) as [r|uid au|e];
      [exact Inv| |exact Inv].
    unfold Prisma.user_findUnique_id, Prisma.user_update. mrun.
    destruct (isLength 6 (Some 6) (body enable)); cbn [negb]; [|exact Inv].
    unfold AuthService.truthy_field at 1. destruct (Js.truthy uid); [|exact Inv].
    destruct (find _ (users (db w))) as [u|] eqn:F; [|exact Inv].
    unfold AuthService.truthy_field.
    destruct (User.mfaSecret u) as [stored|] eqn:Ms; [|exact Inv].
    destruct (Js.truthy stored) eqn:Ts; [|exact Inv].
    destruct (Encryption.decrypt stored (encryption_key config)); [|exact Inv].
    destruct (totp_verify _ (body enable) 2 now); cbn [negb]; [|exact Inv].
    destruct (find_In _ _ _ F) as [Iu Eu]. apply String.eqb_eq in Eu.
    destruct (find_some_in (fun v => String.eqb (User.id v) (User.id u)) _ u Iu
                (String.eqb_refl _)) as [b Fb].
    rewrite Fb. cbn [fst db].
    apply (Enable (User.id u) b stored).
    + exact Fb.
    + destruct (find_In _ _ _ Fb) as [Ib Eb]. apply String.eqb_eq in Eb.
      assert (b = u) by (eapply NoDup_map_eq; [apply Inv| | |]; congruence).
      now subst b.
    + exact Ts.
    + reflexivity.
    + reflexivity.
Qed.

End MfaInvariant.

Lemma verifyMfa_issues_only_on_valid_code_witness :
  let req := Sample.request
               (mkVerifyMfaBody
                  (@TokenService.createTempToken Reference.jwt defaultConfig "u-alice"
                     Sample.now)
                  "A1B2C3D4" None) in
  exists u stored secret,
    find (fun v => String.eqb (User.id v) "u-alice") (users (db Sample.world)) = Some u
    /\ User.mfaSecret u = Some stored
    /\ @Encryption.decrypt Reference.crypto stored (encryption_key defaultConfig) = Ok secret
    /\ (@within_steps Reference.speakeasy 1 secret "A1B2C3D4" Sample.now
        \/ exists column items,
             User.backupCodes u = Some column
             /\ @JSON_parse Reference.json (AuthController.column_text column)
                = Some (JArray items)
             /\ In (JString "A1B2C3D4") items).
Proof.
  intros req.
  destruct (@verifyMfa_issues_only_on_valid_code Reference.crypto Reference.jwt
              Reference.speakeasy Reference.json defaultConfig req Sample.now Sample.world)
    as (userId & u & stored & secret & Tk & F & Ms & D & Code).
  - vm_compute. reflexivity.
  - vm_compute in Tk. injection Tk as <-.
    exists u, stored, secret. repeat split; assumption.
Defined.

Lemma sample_mfa_invariant : mfa_invariant (db Sample.world).
Proof.
  split.
  - cbn. repeat constructor; cbn; intuition discriminate.
  - intros v Iv En. cbn [Sample.world db users In] in Iv.
    destruct Iv as [<-|[<-|[<-|[<-|[]]]]]; try discriminate En;
      exists Sample.storedSecret; split; reflexivity.
Defined.

Lemma mfa_invariant_preserved_witness :
  mfa_invariant
    (db (fst (@AuthController.enableMfa Reference.crypto Reference.speakeasy Reference.json
                Reference.emailService defaultConfig "u-dave" (Sample.codeAt 0)
                Sample.now Sample.world)))
  /\ status (snd (@AuthController.enableMfa Reference.crypto Reference.speakeasy
                    Reference.json Reference.emailService defaultConfig "u-dave"
                    (Sample.codeAt 0) Sample.now Sample.world)) = 200.
Proof.
  split; [|vm_compute; reflexivity].
  exact (proj1 (proj2 (@mfa_invariant_preserved Reference.crypto Reference.jwt
                         Reference.speakeasy Reference.hasher Reference.json
                         Reference.qrcode Reference.emailService Reference.validator
                         defaultConfig Sample.world "u-dave" None "Passw0rd!"
                         (Sample.codeAt 0) Sample.now (Sample.request tt)
                         (Sample.request (Sample.codeAt 0)) sample_mfa_invariant))).
Defined.

Section SetupEnable.
Context `{Crypto : NodeCrypto} `{!NodeCryptoLaws} `{S : Speakeasy} `{JS : JsonCodec}
        `{Q : QrCode} `{Mail : EmailService}.
Variable config : Config.

(** X16. For an existing user, [setupMfa] answers 200 with a fresh base32
    secret, stores it encrypted and does not switch MFA on. A following
    [enableMfa] switches it on exactly for the TOTP codes of that secret at
    a time step at most one step away: such a code is answered 200 and
    every row of the user is enabled; any other code is answered 401 and
    changes nothing. *)
Theorem setupMfa_then_enableMfa (userId : string) (userEmail : option string) (now : Z)
        (w : World) (u : User.t) :
  find (fun v => String.eqb (User.id v) userId) (users (db w)) = Some u ->
  exists w1 base32 qrCode,
    AuthController.setupMfa config userId userEmail now w
    = (w1, mkResponse 200 (BMfaSetup base32 qrCode None))
    /\ map User.mfaEnabled (users (db w1)) = map User.mfaEnabled (users (db w))
    /\ (forall code later,
          within_steps 1 base32 code later ->
          let out := AuthController.enableMfa config userId code later w1 in
          status (snd out) = 200
          /\ forall v, In v (users (db (fst out))) -> User.id v = userId ->
                       User.mfaEnabled v = true)
    /\ (forall code later,
          ~ within_steps 1 base32 code later ->
          AuthController.enableMfa config userId code later w1
          = (w1, mkResponse 401 (BError "Invalid code"))).
Proof.
  intros F. unfold AuthController.setupMfa, Prisma.user_update. mrun.
  destruct (generateSecret _ 32 (rng w)) as [[base32 url] r1]. cbn [db rng].
  pose proof (truthy_encrypt base32 (encryption_key config) r1) as Te.
  pose proof (decrypt_encrypt base32 (encryption_key config) r1) as De.
  destruct (Encryption.encrypt base32 (encryption_key config) r1) as [enc r2].
  cbn [fst] in Te, De. cbn [db rng users sessions devices]. rewrite F.
  eexists. exists base32. eexists. split; [reflexivity|].
  cbn [db users].
  assert (F1 : find (fun v => String.eqb (User.id v) userId)
                 (map (fun v => if String.eqb (User.id v) userId
                                then User.set_mfaSecret (Some enc) v else v)
                      (users (db w)))
               = Some (User.set_mfaSecret (Some enc) u)).
  { clear - F. induction (users (db w)) as [|a l IH]; [discriminate|].
    cbn [map find] in *.
    destruct (String.eqb (User.id a) userId) eqn:Ea.
    - cbn [User.set_mfaSecret User.id]. rewrite Ea. now injection F as ->.
    - rewrite Ea. now apply IH. }
  split; [|split].
  - rewrite map_map. apply map_ext. intros v.
    now destruct (String.eqb (User.id v) userId).
  - intros code later Wn. cbv zeta.
    erewrite controller_enableMfa_run; [|cbn [db users]; exact F1|reflexivity|exact Te|exact De].
    apply (within_steps_verify 1) in Wn. rewrite Wn. cbn [fst snd status db users].
    split; [reflexivity|]. intros v Iv Ev.
    apply in_map_iff in Iv as (x & <- & Ix).
    destruct (String.eqb (User.id x) userId) eqn:Ex; [reflexivity|].
    apply String.eqb_neq in Ex. contradiction.
  - intros code later Wn.
    erewrite controller_enableMfa_run; [|cbn [db users]; exact F1|reflexivity|exact Te|exact De].
    apply (not_within_steps_verify 1) in Wn. now rewrite Wn.
Qed.

End SetupEnable.

Lemma setupMfa_then_enableMfa_witness :
  exists w1 base32 qrCode,
    @AuthController.setupMfa Reference.crypto Reference.speakeasy Reference.qrcode
      defaultConfig "u-bob" (Some "bob@x.com") Sample.now Sample.world
    = (w1, mkResponse 200 (BMfaSetup base32 qrCode None))
    /\ map User.mfaEnabled (users (db w1)) = [true; false; true; false].
Proof.
  destruct (@setupMfa_then_enableMfa Reference.crypto reference_crypto_laws
              Reference.speakeasy Reference.json Reference.qrcode Reference.emailService
              defaultConfig "u-bob" (Some "bob@x.com") Sample.now Sample.world Sample.bob
              eq_refl) as (w1 & base32 & qr & R & En & _).
  exists w1, base32, qr. split; [exact R|]. rewrite En. reflexivity.
Defined.

(** ** Login and registration *)

Section LoginProps.
Context `{Crypto : NodeCrypto} `{J : Jsonwebtoken} `{Hasher : PasswordHasher}
        `{V : Validator} `{Builtins : Js.Builtins}.
Variable config : Config.

Lemma login_controller_cases (req : Request LoginBody) (now : Z) (w : World) :

            (exists u h,
                find (fun v => String.eqb (User.email v)
                                 (Js.toLowerCase (lb_email (body req))))
                     (users (db w)) = Some u
                /\ User.passwordHash u = Some h
                /\ verifyPassword (lb_password (body req)) h = true
                /\ User.deletedAt u = None
                /\ status (snd (AuthController.login config req now w)) <> 401)
            \/ (status (snd (AuthController.login config req now w)) <> 200
                /\ fst (AuthController.login config req now w) = w).
Proof.
  unfold AuthController.login, AuthController.validationFailed,
      Prisma.user_findUnique_email, TokenService.createTemporaryToken.
    mrun.
    destruct (validationErrors req); [|right; cbv beta iota; cbn [fst snd status]; split; [discriminate|reflexivity]].
    destruct (find _ (users (db w))) as [u|] eqn:F;
      [|right; cbv beta iota; cbn [fst snd status]; split; [discriminate|reflexivity]].
    unfold AuthService.truthy_field.
    destruct (User.passwordHash u) as [h|] eqn:Ph;
      [|right; cbv beta iota; cbn [fst snd status]; split; [discriminate|reflexivity]].
    destruct (Js.truthy h); [|right; cbv beta iota; cbn [fst snd status]; split; [discriminate|reflexivity]].
    destruct (verifyPassword (lb_password (body req)) h) eqn:Vp; cbn [negb];
      [|right; cbv beta iota; cbn [fst snd status]; split; [discriminate|reflexivity]].
    destruct (User.deletedAt u) eqn:Del; [right; cbv beta iota; cbn [fst snd status]; split; [discriminate|reflexivity]|].
    left. exists u, h. repeat split; auto.
    destruct (User.mfaEnabled u); [discriminate|].
    destruct (AuthController.issueSession config req (User.id u)
                (lb_deviceInfo (body req)) now w) as [w1 [[a r]|e]]; [|discriminate].
    unfold Prisma.user_update. mrun. repeat split_match; cbn [fst snd status]; discriminate.
Qed.

Lemma login_route_cases (req : Request LoginBody) (now : Z) (w : World) :

            (exists u h,
                find (fun v => String.eqb (User.email v)
                                 (normalizeEmail (lb_email (body req))))
                     (users (db w)) = Some u
                /\ User.passwordHash u = Some h
                /\ verifyPassword (lb_password (body req)) h = true
                /\ User.deletedAt u = None
                /\ status (snd (Routes.post_login config req now w)) <> 401)
            \/ (status (snd (Routes.post_login config req now w)) <> 200
                /\ fst (Routes.post_login config req now w) = w).
Proof.
  unfold Routes.post_login, Prisma.user_findUnique_email.
    mrun.
    destruct (Routes.validateLogin (body req)); [|right; cbv beta iota; cbn [fst snd status]; split; [discriminate|reflexivity]].
    destruct (find _ (users (db w))) as [u|] eqn:F;
      [|right; cbv beta iota; cbn [fst snd status]; split; [discriminate|reflexivity]].
    unfold AuthService.truthy_field.
    destruct (User.deletedAt u) eqn:Del.
    { right. cbv beta iota. cbn [fst snd status]. split; [discriminate|reflexivity]. }
    cbv beta iota.
    destruct (User.passwordHash u) as [h|] eqn:Ph;
      [|right; cbv beta iota; cbn [fst snd status]; split; [discriminate|reflexivity]].
    destruct (Js.truthy h); [|right; cbv beta iota; cbn [fst snd status]; split; [discriminate|reflexivity]].
    destruct (verifyPassword (lb_password (body req)) h) eqn:Vp; cbn [negb];
      [|right; cbv beta iota; cbn [fst snd status]; split; [discriminate|reflexivity]].
    left. exists u, h. repeat split; auto.
    destruct (User.mfaEnabled u); [discriminate|].
    unfold Prisma.user_update. mrun.
    destruct (find_In _ _ _ F) as [Iu _].
    destruct (find_some_in (fun v => String.eqb (User.id v) (User.id u)) _ u Iu
                (String.eqb_refl _)) as [b Fb].
    rewrite Fb. cbn [db rng users sessions devices].
    destruct (TokenService.createSession _ _ _ _ _ _ _) as [w1 [[a r]|e]];
      [|cbn [fst snd status]; discriminate].
    destruct (AuthService.recordDevice _ _ _ _ _ _) as [w2 [[]|e]];
      cbn [fst snd status]; discriminate.
Qed.

(** X17. Neither login handler answers 200 (a session or an MFA
    challenge) without the password: a 200 from [AuthController.login] or
    from POST /login implies that the account found under the email has a
    password hash the submitted password verifies against and is not
    deactivated. A 401 from either leaves the state as it was. *)
Theorem login_requires_password (req : Request LoginBody) (now : Z) (w : World) :
  let password := lb_password (body req) in
  let controller := AuthController.login config req now w in
  let route := Routes.post_login config req now w in
  (status (snd controller) = 200 ->
   exists u h,
     find (fun v => String.eqb (User.email v) (Js.toLowerCase (lb_email (body req))))
          (users (db w)) = Some u
     /\ User.passwordHash u = Some h /\ verifyPassword password h = true
     /\ User.deletedAt u = None)
  /\ (status (snd controller) = 401 -> fst controller = w)
  /\ (status (snd route) = 200 ->
      exists u h,
        find (fun v => String.eqb (User.email v) (normalizeEmail (lb_email (body req))))
             (users (db w)) = Some u
        /\ User.passwordHash u = Some h /\ verifyPassword password h = true
        /\ User.deletedAt u = None)
  /\ (status (snd route) = 401 -> fst route = w).
Proof.
  cbv zeta.
  pose proof (login_controller_cases req now w) as Controller.
  pose proof (login_route_cases req now w) as Route.
  repeat split.
  - intros S2. destruct Controller as [(u & h & F & Ph & Vp & Del & _)|[N _]];
      [|contradiction]. exists u, h. auto.
  - intros S4. destruct Controller as [(u & h & F & Ph & Vp & Del & N)|[_ E]];
      [contradiction|exact E].
  - intros S2. destruct Route as [(u & h & F & Ph & Vp & Del & _)|[N _]];
      [|contradiction]. exists u, h. auto.
  - intros S4. destruct Route as [(u & h & F & Ph & Vp & Del & N)|[_ E]];
      [contradiction|exact E].
Qed.

End LoginProps.

Section RegisterProps.
Context `{Crypto : NodeCrypto} `{J : Jsonwebtoken} `{Hasher : PasswordHasher}
        `{V : Validator} `{Mail : EmailService} `{Builtins : Js.Builtins}.
Variable config : Config.

(** The account a registration creates. *)
Lemma register_controller_creates (req : Request RegisterBody) (now : Z) (w : World) :
  status (snd (AuthController.register config req now w)) = 201 ->
  exists u,
    users (db (fst (AuthController.register config req now w)))
    = (users (db w) ++ [u])%list
    /\ User.email u = Js.toLowerCase (rb_email (body req))
    /\ User.subscriptionTier u = "FREE" /\ User.subscriptionStatus u = "TRIAL"
    /\ User.trialEndsAt u = Some (Js.setDate_plus 14 now)
    /\ User.mfaEnabled u = false /\ User.deletedAt u = None.
Proof.
  unfold AuthController.register, AuthController.validationFailed,
    Prisma.user_findUnique_email, Prisma.user_create, Prisma.newId.
  mrun.
  destruct (validationErrors req); [|discriminate].
  destruct (find _ (users (db w))); [discriminate|].
  destruct (hashPassword _ (rng w)) as [h r1]. cbn [db rng].
  destruct (randomBytes 16 r1) as [b r2]. cbn [db rng users sessions devices].
  destruct (existsb _ (users (db w))); [discriminate|].
  match goal with
  | |- context [AuthController.issueSession ?c ?r ?u ?d ?n ?w1] =>
      pose proof (issueSession_users c r u d n w1) as K;
      destruct (AuthController.issueSession c r u d n w1) as [w2 [[a rt]|e]]
  end; [|discriminate].
  cbn [fst db users] in K. intros _. eexists.
  split; [destruct (sendWelcomeEmail _ _); cbn [fst snd db]; exact K|].
  repeat split.
Qed.

Lemma register_route_creates (req : Request RegisterBody) (now : Z) (w : World) :
  status (snd (Routes.post_register config req now w)) = 201 ->
  exists u,
    users (db (fst (Routes.post_register config req now w)))
    = (users (db w) ++ [u])%list
    /\ User.email u = normalizeEmail (rb_email (body req))
    /\ User.subscriptionTier u = "FREE" /\ User.subscriptionStatus u = "TRIAL"
    /\ User.trialEndsAt u = Some (now + 14 * day)%Z
    /\ User.mfaEnabled u = false /\ User.deletedAt u = None.
Proof.
  unfold Routes.post_register, Prisma.user_findUnique_email, Prisma.user_create,
    Prisma.newId.
  mrun.
  destruct (Routes.validateRegister (body req)); [|discriminate].
  destruct (find _ (users (db w))); [discriminate|].
  destruct (hashPassword _ (rng w)) as [h r1]. cbn [db rng].
  destruct (randomBytes 16 r1) as [b r2]. cbn [db rng users sessions devices].
  destruct (existsb _ (users (db w))); [discriminate|].
  match goal with
  | |- context [TokenService.createSession ?c ?u ?d ?i ?a ?n ?w1] =>
      pose proof (createSession_users config u d i a n w1) as K;
      destruct (TokenService.createSession c u d i a n w1) as [w2 [[a' rt]|e]]
  end; [|discriminate].
  match goal with
  | |- context [AuthService.recordDevice ?u ?d ?i ?r ?n ?w1] =>
      pose proof (recordDevice_users u d i r n w1) as K2;
      destruct (AuthService.recordDevice u d i r n w1) as [w3 [[]|e]]
  end; [|discriminate].
  cbn [fst db users] in K, K2. intros S1. eexists.
  split.
  { destruct (sendWelcomeEmail _ _); cbn [fst snd db status] in *; [|discriminate].
    rewrite K2. exact K. }
  repeat split.
Qed.

(** X18. A registration answered 201 has appended one account under the
    normalised email ([String.prototype.toLowerCase] in the controller,
    [normalizeEmail] in the router), on the FREE tier, in TRIAL, with MFA
    off. The trial ends at the date the controller gets from
    [setDate(getDate() + 14)] on the current date, and in the router
    14 * 24 hours after the current instant. From then on a registration
    whose email normalises to the same address is answered 409 'Email
    already registered' and changes nothing. *)
Theorem register_then_duplicate (req : Request RegisterBody) (now : Z) (w : World) :
  (status (snd (AuthController.register config req now w)) = 201 ->
   let w' := fst (AuthController.register config req now w) in
   (exists u,
       users (db w') = (users (db w) ++ [u])%list
       /\ User.email u = Js.toLowerCase (rb_email (body req))
       /\ User.subscriptionTier u = "FREE" /\ User.subscriptionStatus u = "TRIAL"
       /\ User.trialEndsAt u = Some (Js.setDate_plus 14 now)
       /\ User.mfaEnabled u = false /\ User.deletedAt u = None)
   /\ forall again later,
        validationErrors again = [] ->
        Js.toLowerCase (rb_email (body again)) = Js.toLowerCase (rb_email (body req)) ->
        AuthController.register config again later w'
        = (w', mkResponse 409 (BError "Email already registered")))
  /\ (status (snd (Routes.post_register config req now w)) = 201 ->
      let w' := fst (Routes.post_register config req now w) in
      (exists u,
          users (db w') = (users (db w) ++ [u])%list
          /\ User.email u = normalizeEmail (rb_email (body req))
          /\ User.subscriptionTier u = "FREE" /\ User.subscriptionStatus u = "TRIAL"
          /\ User.trialEndsAt u = Some (now + 14 * day)%Z
          /\ User.mfaEnabled u = false /\ User.deletedAt u = None)
      /\ forall again later,
           Routes.validateRegister (body again) = [] ->
           normalizeEmail (rb_email (body again)) = normalizeEmail (rb_email (body req)) ->
           Routes.post_register config again later w'
           = (w', mkResponse 409 (BError "Email already registered"))).
Proof.
  split; intros S1; cbv zeta.
  - destruct (register_controller_creates req now w S1) as (u & U & E & Rest).
    split; [exists u; split; [exact U|split; [exact E|exact Rest]]|].
    intros again later Val Same.
    destruct (find_some_in
                (fun v => String.eqb (User.email v) (Js.toLowerCase (rb_email (body again))))
                (users (db (fst (AuthController.register config req now w)))) u)
      as [b Fb].
    { rewrite U. apply in_or_app. right. now left. }
    { rewrite Same, E. apply String.eqb_refl. }
    unfold AuthController.register at 1, AuthController.validationFailed,
      Prisma.user_findUnique_email.
    rewrite Val. mrun. now rewrite Fb.
  - destruct (register_route_creates req now w S1) as (u & U & E & Rest).
    split; [exists u; split; [exact U|split; [exact E|exact Rest]]|].
    intros again later Val Same.
    destruct (find_some_in
                (fun v => String.eqb (User.email v) (normalizeEmail (rb_email (body again))))
                (users (db (fst (Routes.post_register config req now w)))) u)
      as [b Fb].
    { rewrite U. apply in_or_app. right. now left. }
    { rewrite Same, E. apply String.eqb_refl. }
    unfold Routes.post_register at 1, Prisma.user_findUnique_email.
    rewrite Val. mrun. now rewrite Fb.
Qed.

End RegisterProps.

(** ** The bearer middleware *)

Section AuthenticateProps.
Context `{J : Jsonwebtoken}.
Variable config : Config.

(** X19. [authenticate] calls [next()] only for a request whose
    Authorization header is 'Bearer ' followed by a token that verifies
    under the secret and has not expired, whose user exists, is not
    deactivated, and is on the FREE tier or has an ACTIVE or TRIAL
    subscription; the user attached to the request is that row's id,
    email and tier. *)
Theorem authenticate_sound {B} (req : Request B) (now : Z) (d : Db)
        (userId : string) (user : Middleware.AuthUser) :
  Middleware.authenticate config req now d = Middleware.Next userId user ->
  exists header decoded u,
    authorization req = Some header
    /\ Js.startsWith "Bearer " header = true
    /\ jwt_verify (Js.substring_from 7 header) (jwt_secret config) now = Ok decoded
    /\ find (fun v => String.eqb (User.id v) (Jwt.userId decoded)) (users d) = Some u
    /\ User.deletedAt u = None
    /\ subscription_ok u = true
    /\ userId = User.id u
    /\ Middleware.au_id user = User.id u
    /\ Middleware.au_email user = User.email u
    /\ Middleware.au_subscriptionTier user = User.subscriptionTier u.
Proof.
  unfold Middleware.authenticate.
  destruct (authorization req) as [header|]; [|discriminate].
  destruct (Js.truthy header); cbn [negb orb]; [|discriminate].
  destruct (Js.startsWith "Bearer " header) eqn:Sw; cbn [negb]; [|discriminate].
  destruct (jwt_verify _ (jwt_secret config) now) as [decoded|[m|m|c|m]] eqn:Vf;
    try discriminate.
  destruct (find _ (users d)) as [u|] eqn:F; [|discriminate].
  destruct (User.deletedAt u) eqn:Del; [discriminate|].
  destruct (negb _ && negb _ && negb _) eqn:Sub; [discriminate|].
  intros [= <- <-]. exists header, decoded, u. cbn.
  repeat split; auto.
  unfold subscription_ok.
  destruct (String.eqb (User.subscriptionTier u) "FREE");
    destruct (String.eqb (User.subscriptionStatus u) "ACTIVE");
    destruct (String.eqb (User.subscriptionStatus u) "TRIAL"); auto; discriminate.
Qed.

Context `{!JsonwebtokenLaws}.

(** What [authenticate] answers to a token signed with the secret, for an
    active user. *)
Lemma authenticate_signed {B} (req : Request B) (now issued ttl : Z) (d : Db)
      (type : string) (u : User.t) :
  authorization req
  = Some ("Bearer " ++ jwt_sign (User.id u) type (jwt_secret config) ttl issued) ->
  find (fun v => String.eqb (User.id v) (User.id u)) (users d) = Some u ->
  User.deletedAt u = None ->
  subscription_ok u = true ->
  Middleware.authenticate config req now d
  = if (clockTimestamp issued + ttl <=? clockTimestamp now)%Z
    then Middleware.Responded (mkResponse 401 (BError "Invalid token"))
    else Middleware.Next (User.id u)
           (Middleware.mkAuthUser (User.id u) (User.email u) (User.subscriptionTier u)
              (AuthService.truthy_field (User.teamId u))
              (AuthService.truthy_field (User.teamRole u))).
Proof.
  intros Ha F Del Sub. unfold Middleware.authenticate. rewrite Ha.
  rewrite bearer_prefix, bearer_token.
  assert (T : forall t, Js.truthy ("Bearer " ++ t) = true) by reflexivity.
  rewrite T. cbn [negb orb].
  unfold jwt_verify, jwt_sign. rewrite jws_verify_sign. cbn [Jwt.exp Jwt.userId].
  destruct (Z.leb (clockTimestamp issued + ttl) (clockTimestamp now)); [reflexivity|].
  cbv beta iota. cbn [Jwt.userId]. rewrite F, Del. unfold subscription_ok in Sub.
  destruct (String.eqb (User.subscriptionTier u) "FREE");
    destruct (String.eqb (User.subscriptionStatus u) "ACTIVE");
    destruct (String.eqb (User.subscriptionStatus u) "TRIAL");
    try discriminate Sub; reflexivity.
Qed.

(** X20. [authenticate] does not look at the token's type: for an active
    user it accepts the ten-minute temporary token of the MFA flow as a
    bearer token until that token expires, exactly as it accepts an access
    token for the configured lifetime; from the second of expiry on either
    is answered 401 'Invalid token'. In the other direction
    [verifyTempToken] refuses every access token. *)
Theorem authenticate_ignores_token_type {B} (req : Request B) (now issued : Z) (d : Db)
        (u : User.t) :
  let next := Middleware.Next (User.id u)
                (Middleware.mkAuthUser (User.id u) (User.email u)
                   (User.subscriptionTier u)
                   (AuthService.truthy_field (User.teamId u))
                   (AuthService.truthy_field (User.teamRole u))) in
  let expired := Middleware.Responded (mkResponse 401 (BError "Invalid token")) in
  find (fun v => String.eqb (User.id v) (User.id u)) (users d) = Some u ->
  User.deletedAt u = None ->
  subscription_ok u = true ->
  (authorization req
   = Some ("Bearer " ++ TokenService.createTempToken config (User.id u) issued) ->
   Middleware.authenticate config req now d
   = if (clockTimestamp issued + 600 <=? clockTimestamp now)%Z then expired else next)
  /\ (authorization req
      = Some ("Bearer " ++ TokenService.generateAccessToken config (User.id u) issued) ->
      Middleware.authenticate config req now d
      = if (clockTimestamp issued + jwt_accessTokenExpiry config <=? clockTimestamp now)%Z
        then expired else next)
  /\ TokenService.verifyTempToken config
       (TokenService.generateAccessToken config (User.id u) issued) now = None.
Proof.
  intros next expired F Del Sub. split; [|split].
  - intros Ha. now apply authenticate_signed with (type := "mfa_temp").
  - intros Ha. now apply authenticate_signed with (type := "access").
  - unfold TokenService.verifyTempToken, TokenService.generateAccessToken,
      jwt_verify, jwt_sign.
    rewrite jws_verify_sign. cbn [Jwt.exp Jwt.type].
    now destruct (Z.leb _ _).
Qed.

(** X21. [optionalAuthenticate] goes on anonymously only when there is no
    Authorization header or it does not start with 'Bearer '. A bearer
    header is handed to [authenticate], so a token that does not verify is
    answered 401 'Invalid token' instead of being treated as anonymous. *)
Theorem optionalAuthenticate_rejects_bad_token {B} (req : Request B) (now : Z) (d : Db) :
  (Middleware.optionalAuthenticate config req now d = Middleware.Anonymous
   <-> match authorization req with
       | Some header => Js.startsWith "Bearer " header = false \/ header = EmptyString
       | None => True
       end)
  /\ (forall token,
        authorization req = Some ("Bearer " ++ token) ->
        jws_verify token (jwt_secret config) = None ->
        Middleware.optionalAuthenticate config req now d
        = Middleware.Authenticated
            (Middleware.Responded (mkResponse 401 (BError "Invalid token")))).
Proof.
  split.
  - unfold Middleware.optionalAuthenticate.
    destruct (authorization req) as [header|]; [|tauto].
    destruct header as [|c s]; cbn [Js.truthy negb orb]; [tauto|].
    destruct (Js.startsWith "Bearer " (String c s)); cbn [negb]; split; auto;
      try discriminate.
    intros [E|E]; discriminate E.
  - intros token Ha Bad. unfold Middleware.optionalAuthenticate, Middleware.authenticate.
    rewrite Ha, bearer_prefix, bearer_token.
    assert (T : Js.truthy ("Bearer " ++ token) = true) by reflexivity.
    rewrite T. cbn [negb orb]. unfold jwt_verify. now rewrite Bad.
Qed.

End AuthenticateProps.

(** ** Subscription tiers, plan limits and devices *)

Section TierProps.
Context `{O : JsObject}.

(** X22. The tier gate: [requireTier] answers 401 when no user is
    attached. For tier names that are no property of [Object.prototype],
    [requireTier] lets the request through, and [hasTierAccess] is true,
    exactly when the rank of the user's tier is at least the rank of the
    required one, in the order FREE < PROFESSIONAL < BUSINESS <
    ENTERPRISE with every other name ranked as FREE; a refusal carries
    both tier names. In general the two functions agree unless exactly one
    of the two names is an inherited property, in which case the
    middleware lets the request through and [hasTierAccess] is false. *)
Theorem requireTier_order (minTier userTier : string) :
  Subscription.requireTier minTier None = Subscription.AuthenticationRequired
  /\ (inherited_tier minTier = false -> inherited_tier userTier = false ->
      (Subscription.requireTier minTier (Some userTier) = Subscription.Next
       <-> (tier_rank minTier <= tier_rank userTier)%Z)
      /\ (Subscription.hasTierAccess userTier minTier = true
          <-> (tier_rank minTier <= tier_rank userTier)%Z))
  /\ (Subscription.requireTier minTier (Some userTier) <> Subscription.Next ->
      Subscription.requireTier minTier (Some userTier)
      = Subscription.UpgradeRequired minTier userTier)
  /\ (Subscription.requireTier minTier (Some userTier) = Subscription.Next
      <-> Subscription.hasTierAccess userTier minTier = true
          \/ inherited_tier userTier <> inherited_tier minTier).
Proof.
  unfold Subscription.requireTier, Subscription.hasTierAccess, Subscription.tierLevel,
    inherited_tier, tier_rank, level_lt, level_ge.
  split; [reflexivity|].
  destruct (Subscription.tierHierarchy minTier) as [m|];
    destruct (Subscription.tierHierarchy userTier) as [n|];
    try destruct (inheritedKey minTier); try destruct (inheritedKey userTier);
    repeat match goal with
           | |- context [Z.ltb ?a ?b] => destruct (Z.ltb_spec a b)
           | |- context [Z.leb ?a ?b] => destruct (Z.leb_spec a b)
           | |- context [inheritedLt ?a ?b] => destruct (inheritedLt a b)
           end;
    cbn [negb];
    repeat split; intros; try discriminate; try reflexivity; try lia;
      try congruence; try tauto; auto;
      try (right; discriminate);
      try match goal with
          | H : _ \/ _ |- _ => destruct H; congruence
          end.
Qed.

(** X23. The plan limits: for tier names that are no property of
    [Object.prototype], a customer may be added exactly when the tier is
    not FREE or fewer than 30 customers exist, and a job exactly when the
    tier is not FREE or fewer than 15 jobs exist this month. A name that
    is none of the four tiers is therefore unlimited in both checks,
    while [getTierLimits] reports the FREE limits for it. *)
Theorem free_tier_limits (tier : string) (currentCount : Z) :
  inheritedKey tier = false ->
  (fst (SubscriptionService.checkCustomerLimit tier currentCount) = true
   <-> tier <> "FREE" \/ (currentCount < 30)%Z)
  /\ (fst (fst (SubscriptionService.checkJobLimit tier currentCount)) = true
      <-> tier <> "FREE" \/ (currentCount < 15)%Z)
  /\ (Subscription.tierHierarchy tier = None ->
      SubscriptionService.checkCustomerLimit tier currentCount
      = (true, SubscriptionService.Unlimited)
      /\ SubscriptionService.checkJobLimit tier currentCount
         = (true, SubscriptionService.Unlimited, currentCount)
      /\ SubscriptionService.getTierLimits tier
         = Some (SubscriptionService.mkTierLimits (Some 30%Z) (Some 15%Z) 1 1)).
Proof.
  intros NI.
  unfold SubscriptionService.checkCustomerLimit, SubscriptionService.checkJobLimit,
    SubscriptionService.check, SubscriptionService.limitOf,
    SubscriptionService.getTierLimits, Subscription.tierHierarchy,
    SubscriptionService.maxCustomers, SubscriptionService.maxJobsPerMonth.
  rewrite NI.
  destruct (String.eqb_spec tier "FREE") as [->|NF].
  - cbn [fst snd]. repeat split; try discriminate.
    + intros L. right. now apply Z.ltb_lt.
    + intros [C|L]; [congruence|now apply Z.ltb_lt].
    + intros L. right. now apply Z.ltb_lt.
    + intros [C|L]; [congruence|now apply Z.ltb_lt].
  - destruct (String.eqb tier "PROFESSIONAL"); destruct (String.eqb tier "BUSINESS");
      destruct (String.eqb tier "ENTERPRISE"); cbn [orb fst snd];
      repeat split; auto; discriminate.
Qed.

End TierProps.

Lemma requireTier_order_witness :
  @Subscription.requireTier Reference.object "BUSINESS" (Some "PROFESSIONAL")
  = Subscription.UpgradeRequired "BUSINESS" "PROFESSIONAL"
  /\ @Subscription.requireTier Reference.object "BUSINESS" (Some "ENTERPRISE")
     = Subscription.Next
  /\ @Subscription.requireTier Reference.object "BUSINESS" (Some "toString")
     = Subscription.Next
  /\ @Subscription.hasTierAccess Reference.object "toString" "BUSINESS" = false.
Proof.
  destruct (@requireTier_order Reference.object "BUSINESS" "PROFESSIONAL")
    as (_ & Plain & Refusal & _).
  destruct (Plain eq_refl eq_refl) as [Gate _].
  split; [apply Refusal; intros N; apply Gate in N; vm_compute in N; now apply N|].
  repeat split; reflexivity.
Defined.

Lemma free_tier_limits_witness :
  @SubscriptionService.checkCustomerLimit Reference.object "STARTER" 31
  = (true, SubscriptionService.Unlimited)
  /\ @SubscriptionService.getTierLimits Reference.object "STARTER"
     = Some (SubscriptionService.mkTierLimits (Some 30%Z) (Some 15%Z) 1 1)
  /\ fst (@SubscriptionService.checkCustomerLimit Reference.object "FREE" 30) <> true.
Proof.
  destruct (@free_tier_limits Reference.object "STARTER" 31 eq_refl)
    as (_ & _ & Unknown).
  destruct (Unknown eq_refl) as (C & _ & G).
  split; [exact C|]. split; [exact G|].
  intros A. now vm_compute in A.
Defined.

Section DeviceProps.
Context `{Crypto : NodeCrypto}.

(** X24. [recordDevice] keeps the (user, device) pairs of the Device
    table unique and touches neither users nor sessions. When it returns,
    the table holds a row for the pair, stamped with the current time. A
    device already known to the user gets no new row: only the time stamps
    of the matching rows change, so the name and platform recorded at the
    first sight are never overwritten by later requests. *)
Theorem recordDevice_keeps_devices_unique {B} (userId deviceId : string)
        (deviceInfo : option DeviceInfo) (req : Request B) (now : Z) (w : World) :
  let out := AuthService.recordDevice userId deviceId deviceInfo req now w in
  NoDup (device_keys (db w)) ->
  NoDup (device_keys (db (fst out)))
  /\ users (db (fst out)) = users (db w)
  /\ sessions (db (fst out)) = sessions (db w)
  /\ (snd out = Ok tt ->
      exists x, In x (devices (db (fst out)))
                /\ Device.userId x = userId /\ Device.deviceId x = deviceId
                /\ Device.lastUsedAt x = now)
  /\ (existsb (Prisma.device_key userId deviceId) (devices (db w)) = true ->
      snd out = Ok tt
      /\ map (fun x => (Device.id x, Device.userId x, Device.deviceId x,
                        Device.name x, Device.platform x)) (devices (db (fst out)))
         = map (fun x => (Device.id x, Device.userId x, Device.deviceId x,
                          Device.name x, Device.platform x)) (devices (db w))).
Proof.
  intros out N. subst out.
  unfold AuthService.recordDevice, Prisma.device_upsert, Prisma.newId. mrun.
  destruct (existsb (Prisma.device_key userId deviceId) (devices (db w))) eqn:Ex.
  - cbn [fst snd db users sessions devices].
    assert (Same : map (fun x => (Device.id x, Device.userId x, Device.deviceId x,
                                  Device.name x, Device.platform x))
                       (map (fun x => if Prisma.device_key userId deviceId x
                                      then Device.set_lastUsedAt now x else x)
                            (devices (db w)))
                   = map (fun x => (Device.id x, Device.userId x, Device.deviceId x,
                                    Device.name x, Device.platform x)) (devices (db w))).
    { rewrite map_map. apply map_ext. intros x.
      now destruct (Prisma.device_key userId deviceId x). }
    split; [|repeat split; auto].
    + unfold device_keys in *. cbn [devices]. rewrite map_map.
      erewrite map_ext; [exact N|]. intros x. cbv beta.
      now destruct (Prisma.device_key userId deviceId x).
    + apply existsb_exists in Ex as (x & Ix & Kx).
      exists (Device.set_lastUsedAt now x). split.
      * apply in_map_iff. exists x. now rewrite Kx.
      * unfold Prisma.device_key in Kx. apply andb_true_iff in Kx as [Ku Kd].
        apply String.eqb_eq in Ku, Kd. cbn. auto.
  - destruct (randomBytes 16 (rng w)) as [b r1]. cbn [db rng].
    destruct (existsb (fun x => String.eqb (Device.id x) (uuid_of_bytes b))
                      (devices (db w))) eqn:Dup;
      cbv beta iota; cbn [fst snd db users sessions devices].
    + repeat split; auto; discriminate.
    + split; [|repeat split; auto; try discriminate].
      * unfold device_keys in *. cbn [devices]. rewrite map_app. cbn [map].
        apply NoDup_app_fresh; [exact N|].
        intros I. apply in_map_iff in I as (x & Kx & Ix).
        injection Kx as Ku Kd.
        assert (Prisma.device_key userId deviceId x = true).
        { unfold Prisma.device_key. now rewrite Ku, Kd, !String.eqb_refl. }
        assert (existsb (Prisma.device_key userId deviceId) (devices (db w)) = true)
          by (apply existsb_exists; eauto).
        congruence.
      * eexists. split; [apply in_or_app; right; now left|]. cbn. auto.
Qed.

End DeviceProps.

(** ** Backup codes, the refresh handlers and the protected routes *)

Lemma length_map_string (f : ascii -> ascii) (s : string) :
  String.length (Js.map_string f s) = String.length s.
Proof. induction s as [|c s IH]; [reflexivity|]. cbn. now rewrite IH. Qed.

Lemma upper_hex_byte (b : byte) (k : string) :
  all_chars is_upper_hex_char (Js.toUpperCase (Hex.byte_to_hex b k))
  = all_chars is_upper_hex_char (Js.toUpperCase k).
Proof. destruct b; reflexivity. Qed.

Lemma upper_hex_toHex (l : list byte) :
  all_chars is_upper_hex_char (Js.toUpperCase (Hex.toHex l)) = true.
Proof.
  induction l as [|b l IH]; [reflexivity|]. cbn [Hex.toHex]. now rewrite upper_hex_byte.
Qed.

(** X25. [generateBackupCodes n] returns exactly [n] codes, each of eight
    characters in 0-9A-F, and reads exactly 4[n] bytes of entropy. *)
Theorem generateBackupCodes_format (n : nat) (r : Rng) :
  List.length (fst (generateBackupCodes n r)) = n
  /\ Forall (fun code => backup_code_format code = true) (fst (generateBackupCodes n r))
  /\ snd (generateBackupCodes n r) = mkRng (tape r) (cursor r + 4 * n).
Proof.
  revert r. induction n as [|n IH]; intros r.
  - cbn. repeat split; [constructor|]. destruct r. cbn. f_equal. lia.
  - cbn [generateBackupCodes].
    change (randomBytes 4 r)
      with (map (tape r) (seq (cursor r) 4), mkRng (tape r) (cursor r + 4)).
    cbv beta iota.
    destruct (IH (mkRng (tape r) (cursor r + 4))) as (L & F & R).
    destruct (generateBackupCodes n (mkRng (tape r) (cursor r + 4))) as [l r2].
    cbn [fst snd List.length tape cursor] in *. split; [now rewrite L|]. split.
    + constructor; [|exact F]. unfold backup_code_format.
      rewrite upper_hex_toHex, andb_true_r. unfold Js.toUpperCase.
      rewrite length_map_string, length_toHex, length_map, length_seq. reflexivity.
    + rewrite R. f_equal. lia.
Qed.

Section RefreshHandlers.
Context `{J : Jsonwebtoken}.
Variable config : Config.

(** X26. POST /refresh and [AuthController.refreshToken] change the state
    in the same way and answer with the same status (their 401 messages
    differ). Either answers 200 only for a non-empty token that is the
    stored refresh token of a session which has not expired; a 400 or 401
    leaves the state as it was. *)
Theorem refresh_handlers_agree (req : Request string) (now : Z) (w : World) :
  let route := Routes.post_refresh config req now w in
  let controller := AuthController.refreshToken config req now w in
  fst route = fst controller
  /\ status (snd route) = status (snd controller)
  /\ (status (snd route) = 200 ->
      body req <> EmptyString
      /\ exists s,
           find (fun v => String.eqb (Session.refreshToken v) (body req))
                (sessions (db w)) = Some s
           /\ (now <= Session.expiresAt s)%Z)
  /\ (status (snd route) = 400 \/ status (snd route) = 401 -> fst route = w).
Proof.
  cbv zeta. unfold Routes.post_refresh, AuthController.refreshToken,
    TokenService.refreshSession, TokenService.refreshAccessToken,
    Prisma.session_findUnique_refreshToken, TokenService.generateRefreshToken,
    Prisma.session_update.
  mrun.
  destruct (body req) as [|c rt] eqn:Eb; cbn [Js.truthy negb].
  { cbn. repeat split; try discriminate. }
  destruct (find _ (sessions (db w))) as [s|] eqn:F.
  2:{ cbn. repeat split; try discriminate. }
  destruct (Z.ltb_spec (Session.expiresAt s) now) as [L|L].
  { cbn. repeat split; try discriminate. }
  cbn [randomBytes db rng fst snd].
  destruct (find (fun s0 => String.eqb (Session.id s0) (Session.id s)) (sessions (db w))).
  2:{ cbn. repeat split; try discriminate. intros [C|C]; discriminate C. }
  destruct (existsb _ (sessions (db w))).
  { cbn. repeat split; try discriminate. intros [C|C]; discriminate C. }
  cbn. repeat split; try discriminate.
  - exists s. split; [reflexivity|exact L].
  - intros [C|C]; discriminate C.
Qed.

Context `{Crypto : NodeCrypto} `{S : Speakeasy} `{Q : QrCode} `{V : Validator}.

(** X27. Every route behind [authenticate] (logout, logout-all, MFA
    setup, MFA enable, device removal) leaves the state as it was and
    answers with the middleware's response whenever the middleware does
    not call [next()]; in particular a request without an Authorization
    header, or with one that does not start with 'Bearer ', is answered
    401 'No token provided' by all of them. *)
Theorem protected_routes_need_bearer (unit_req : Request unit) (text_req : Request string)
        (now : Z) (w : World) :
  let denied := mkResponse 401 (BError "No token provided") in
  (forall r,
      Middleware.authenticate config unit_req now (db w) = Middleware.Responded r ->
      Routes.post_logout config unit_req now w = (w, r)
      /\ Routes.post_logout_all config unit_req now w = (w, r)
      /\ Routes.post_mfa_setup config unit_req now w = (w, r))
  /\ (forall r,
        Middleware.authenticate config text_req now (db w) = Middleware.Responded r ->
        Routes.post_mfa_enable config text_req now w = (w, r)
        /\ Routes.delete_device config text_req now w = (w, r))
  /\ (forall B (req : Request B),
        match authorization req with
        | Some header => Js.startsWith "Bearer " header = false
        | None => True
        end ->
        Middleware.authenticate config req now (db w) = Middleware.Responded denied).
Proof.
  cbv zeta. split; [|split].
  - intros r A.
    unfold Routes.post_logout, Routes.post_logout_all, Routes.post_mfa_setup,
      Routes.authenticated.
    rewrite A. repeat split.
  - intros r A.
    unfold Routes.post_mfa_enable, Routes.delete_device, Routes.authenticated.
    rewrite A. repeat split.
  - intros B req. unfold Middleware.authenticate.
    destruct (authorization req) as [header|]; [|reflexivity].
    intros ->. cbn [negb]. now rewrite orb_true_r.
Qed.

End RefreshHandlers.

(** ** Further statements on the sample data *)

Lemma login_requires_password_witness :
  let req := Sample.request (mkLoginBody "bob@x.com" "Passw0rd!" None) in
  exists u h,
    find (fun v => String.eqb (User.email v) "bob@x.com") (users (db Sample.world)) = Some u
    /\ User.passwordHash u = Some h
    /\ @verifyPassword Reference.hasher "Passw0rd!" h = true
    /\ User.deletedAt u = None.
Proof.
  intros req.
  destruct (@login_requires_password Reference.crypto Reference.jwt Reference.hasher
              Reference.validator Reference.builtins defaultConfig req Sample.now Sample.world)
    as (Controller & _).
  apply Controller. vm_compute. reflexivity.
Defined.

Lemma register_then_duplicate_witness :
  let w' := fst (@AuthController.register Reference.crypto Reference.jwt Reference.hasher
                   Reference.emailService Reference.builtins defaultConfig (Sample.request Sample.erin)
                   Sample.now Sample.world) in
  (exists u,
      In u (users (db w'))
      /\ User.email u = "erin@x.com"
      /\ User.trialEndsAt u = Some (Sample.now + 14 * day)%Z)
  /\ @AuthController.register Reference.crypto Reference.jwt Reference.hasher
    Reference.emailService Reference.builtins defaultConfig
    (Sample.request (mkRegisterBody "Erin@X.com" "0therPassw0rd" "E" None None None))
    (Sample.now + 5000)%Z w'
  = (w', mkResponse 409 (BError "Email already registered")).
Proof.
  intros w'.
  destruct (@register_then_duplicate Reference.crypto Reference.jwt Reference.hasher
              Reference.validator Reference.emailService Reference.builtins defaultConfig
              (Sample.request Sample.erin) Sample.now Sample.world)
    as (Controller & _).
  destruct Controller as [(u & U & E & _ & _ & T & _) Again]; [vm_compute; reflexivity|].
  split; [|apply Again; reflexivity].
  exists u. split; [fold w' in U; rewrite U; apply in_or_app; right; now left|].
  split; [exact E|exact T].
Defined.

Lemma authenticate_sound_witness :
  exists u,
    find (fun v => String.eqb (User.id v) "u-alice") (users (db Sample.world)) = Some u
    /\ User.deletedAt u = None /\ subscription_ok u = true.
Proof.
  destruct (@authenticate_sound Reference.jwt defaultConfig unit
              (Sample.bearer tt (Sample.accessToken "u-alice")) Sample.now
              (db Sample.world) "u-alice"
              (Middleware.mkAuthUser "u-alice" "alice@x.com" "FREE" None None))
    as (header & decoded & u & Ha & _ & Vf & F & Del & Sub & _).
  - vm_compute. reflexivity.
  - injection Ha as <-. vm_compute in Vf. injection Vf as <-.
    exists u. split; [exact F|split; [exact Del|exact Sub]].
Defined.

Lemma authenticate_ignores_token_type_witness :
  @Middleware.authenticate Reference.jwt defaultConfig unit
    (Sample.bearer tt (@TokenService.createTempToken Reference.jwt defaultConfig
                         "u-alice" Sample.now))
    (Sample.now + 1000)%Z (db Sample.world)
  = Middleware.Next "u-alice"
      (Middleware.mkAuthUser "u-alice" "alice@x.com" "FREE" None None).
Proof.
  destruct (@authenticate_ignores_token_type Reference.jwt defaultConfig
              reference_jwt_laws unit
              (Sample.bearer tt (@TokenService.createTempToken Reference.jwt defaultConfig
                                   "u-alice" Sample.now))
              (Sample.now + 1000)%Z Sample.now (db Sample.world) Sample.alice
              eq_refl eq_refl eq_refl) as (Temp & _).
  rewrite (Temp eq_refl). reflexivity.
Defined.

Lemma optionalAuthenticate_rejects_bad_token_witness :
  @Middleware.optionalAuthenticate Reference.jwt defaultConfig unit
    (Sample.bearer tt "garbage") Sample.now (db Sample.world)
  = Middleware.Authenticated
      (Middleware.Responded (mkResponse 401 (BError "Invalid token")))
  /\ @Middleware.optionalAuthenticate Reference.jwt defaultConfig unit
       (Sample.request tt) Sample.now (db Sample.world)
     = Middleware.Anonymous.
Proof.
  split.
  - apply (proj2 (@optionalAuthenticate_rejects_bad_token Reference.jwt defaultConfig unit
                    (Sample.bearer tt "garbage") Sample.now (db Sample.world))
                 "garbage"); reflexivity.
  - apply (proj1 (@optionalAuthenticate_rejects_bad_token Reference.jwt defaultConfig unit
                    (Sample.request tt) Sample.now (db Sample.world))).
    exact I.
Defined.

Lemma recordDevice_keeps_devices_unique_witness :
  let once := fst (@AuthService.recordDevice Reference.crypto unit "u-bob" "device-1"
                     None (Sample.request tt) Sample.now Sample.world) in
  let twice := fst (@AuthService.recordDevice Reference.crypto unit "u-bob" "device-1"
                      (Some (mkDeviceInfo None (Some "android") (Some "Pixel")))
                      (Sample.request tt) (Sample.now + 5000)%Z once) in
  map (fun x => (Device.name x, Device.platform x)) (devices (db once)) = [("Mac", "web")]
  /\ map (fun x => (Device.id x, Device.userId x, Device.deviceId x,
                    Device.name x, Device.platform x)) (devices (db twice))
     = map (fun x => (Device.id x, Device.userId x, Device.deviceId x,
                      Device.name x, Device.platform x)) (devices (db once))
  /\ NoDup (device_keys (db twice)).
Proof.
  intros once twice.
  destruct (@recordDevice_keeps_devices_unique Reference.crypto unit "u-bob" "device-1"
              (Some (mkDeviceInfo None (Some "android") (Some "Pixel")))
              (Sample.request tt) (Sample.now + 5000)%Z once)
    as (N & _ & _ & _ & Known).
  - vm_compute. repeat constructor. intros [].
  - split; [reflexivity|]. split; [|exact N].
    apply Known. reflexivity.
Defined.

Lemma refresh_handlers_agree_witness :
  exists s,
    find (fun v => String.eqb (Session.refreshToken v) "rt-bob")
         (sessions (db Sample.world)) = Some s
    /\ (Sample.now <= Session.expiresAt s)%Z.
Proof.
  destruct (@refresh_handlers_agree Reference.jwt defaultConfig
              (Sample.request "rt-bob") Sample.now Sample.world) as (_ & _ & Ok200 & _).
  destruct Ok200 as [_ Found]; [vm_compute; reflexivity|exact Found].
Defined.

Lemma protected_routes_need_bearer_witness :
  @Routes.post_logout_all Reference.jwt defaultConfig (Sample.request tt)
    Sample.now Sample.world
  = (Sample.world, mkResponse 401 (BError "No token provided"))
  /\ @Routes.delete_device Reference.jwt defaultConfig (Sample.request "device-1")
       Sample.now Sample.world
     = (Sample.world, mkResponse 401 (BError "No token provided")).
Proof.
  destruct (@protected_routes_need_bearer Reference.jwt defaultConfig Reference.crypto
              Reference.speakeasy Reference.qrcode Reference.validator
              (Sample.request tt) (Sample.request "device-1") Sample.now Sample.world)
    as (Unit & Text & Denied).
  split.
  - apply Unit. apply Denied. exact I.
  - apply Text. apply Denied. exact I.
Defined.

Lemma changePassword_effects_witness :
  status (snd (@AuthController.changePassword Reference.hasher
                 "u-bob" "wrong" "N3wPassw0rd" Sample.world)) = 401
  /\ fst (@AuthController.changePassword Reference.hasher
            "u-bob" "wrong" "N3wPassw0rd" Sample.world) = Sample.world.
Proof.
  destruct (@changePassword_effects Reference.hasher "u-bob" "wrong" "N3wPassw0rd"
              Sample.world) as (_ & _ & _ & _ & Unchanged).
  split; [reflexivity|]. apply Unchanged. vm_compute. discriminate.
Defined.

Lemma disableMfa_effects_witness :
  let out := @AuthController.disableMfa Reference.crypto Reference.speakeasy
               Reference.hasher defaultConfig "u-alice" "Passw0rd!" (Sample.codeAt 1)
               Sample.now Sample.world in
  status (snd out) = 200
  /\ map User.mfaEnabled (users (db (fst out))) = [false; false; true; false].
Proof.
  intros out.
  destruct (@disableMfa_effects Reference.crypto Reference.speakeasy Reference.hasher
              defaultConfig "u-alice" "Passw0rd!" (Sample.codeAt 1) Sample.now
              Sample.world) as (Done & _).
  destruct Done as [_ U]; [vm_compute; reflexivity|].
  split; [vm_compute; reflexivity|]. subst out. rewrite U. reflexivity.
Defined.
